(** * Racing pipeline: standardization and three-phase extraction

    A shallow embedding of the parts of the racing data pipeline that the
    specification makes claims about:

    - [standardization.py]: [RacingDataStandardizer] (race type
      classification, equipment codes, weight, track condition, distance);
    - [extract_horses.py]: phase 1, entity extraction with its dedup ledger
      and batched insert-or-ignore writes;
    - [extract_past_performance.py]: phase 2, the race natural key;
    - [extract_result_charts.py]: phase 3, the race natural key and the
      horse lookup by name.

    Python values are modelled as follows.  A [str] is a [string] of
    ASCII characters (case mapping and white space are the ASCII ones; the
    model does not cover non-ASCII text).  A Python [float] is an IEEE-754
    binary64 number, a [spec_float] of the Standard Library with
    [prec = 53] and [emax = 1024].  An [int] is a [Z].  A function that
    can raise returns an [outcome]. *)

From Stdlib Require Import ZArith List Bool Ascii String Lia.
From Stdlib Require Import Floats.SpecFloat.
From Stdlib Require Import Numbers.DecimalString Numbers.DecimalPos.
From stdpp Require Import gmap strings list fin_maps.

(** ** Python exceptions and outcomes *)

Inductive exn : Type :=
| ValueError
| TypeError
| OverflowError
| SqliteError.   (* sqlite3.Error and its subclasses *)

Inductive outcome (A : Type) : Type :=
| Returns (a : A)
| Raises (e : exn).
Arguments Returns {A} a.
Arguments Raises {A} e.

(** Sequencing: an exception raised by the first computation propagates.
    With these instances [x ← e1; e2] is stdpp's notation for it. *)
#[global] Instance outcome_ret : MRet outcome := fun A a => Returns a.
#[global] Instance outcome_bind : MBind outcome := fun A B k x =>
  match x with
  | Returns a => k a
  | Raises e => Raises e
  end.

(** [try: body except (ValueError, TypeError): return None] *)
Definition except_value_type {A : Type} (body : outcome (option A)) : outcome (option A) :=
  match body with
  | Raises ValueError => Returns None
  | Raises TypeError => Returns None
  | r => r
  end.

(** [try: body except: return None] (a bare [except], or [except Exception]) *)
Definition except_all {A : Type} (body : outcome (option A)) : option A :=
  match body with
  | Returns r => r
  | Raises _ => None
  end.

(** ** Python strings *)

Module PyStr.

(** [str.isspace] on an ASCII character: tab, line feed, vertical tab, form
    feed, carriage return, the four separators 0x1c to 0x1f, and space. *)
Definition isspace (c : ascii) : bool :=
  let n := nat_of_ascii c in
  ((9 <=? n) && (n <=? 13)) || ((28 <=? n) && (n <=? 32)).

(** C's [isspace], which [float()] uses on an ASCII string. *)
Definition c_isspace (c : ascii) : bool :=
  let n := nat_of_ascii c in
  ((9 <=? n) && (n <=? 13)) || (n =? 32).

Definition isdigit (c : ascii) : bool :=
  let n := nat_of_ascii c in (48 <=? n) && (n <=? 57).

Definition digit_val (c : ascii) : Z := Z.of_nat (nat_of_ascii c) - 48.

Definition upper_char (c : ascii) : ascii :=
  let n := nat_of_ascii c in
  if (97 <=? n) && (n <=? 122) then ascii_of_nat (n - 32) else c.

Fixpoint upper (s : string) : string :=
  match s with
  | EmptyString => EmptyString
  | String c r => String (upper_char c) (upper r)
  end.

Fixpoint lstrip_with (sp : ascii -> bool) (s : string) : string :=
  match s with
  | EmptyString => EmptyString
  | String c r => if sp c then lstrip_with sp r else s
  end.

Fixpoint rstrip_with (sp : ascii -> bool) (s : string) : string :=
  match s with
  | EmptyString => EmptyString
  | String c r =>
      match rstrip_with sp r with
      | EmptyString => if sp c then EmptyString else String c EmptyString
      | r' => String c r'
      end
  end.

(** [s.strip()] *)
Definition strip (s : string) : string := lstrip_with isspace (rstrip_with isspace s).

(** [p in s] for strings: [p] occurs in [s] as a contiguous substring. *)
Fixpoint startswith (p s : string) : bool :=
  match p, s with
  | EmptyString, _ => true
  | String a p', String b s' => Ascii.eqb a b && startswith p' s'
  | String _ _, EmptyString => false
  end.

Fixpoint contains (p s : string) : bool :=
  startswith p s ||
  match s with
  | EmptyString => false
  | String _ r => contains p r
  end.

(** [x in xs] for a list, a tuple or a set of strings. *)
Definition mem (x : string) (xs : list string) : bool := existsb (String.eqb x) xs.

(** Splitting at maximal runs of separator characters.  [cur] is the token
    being read, reversed; [insep] says that the previous character was a
    separator.  A separator at the very start or end of the text gives an
    empty first or last token, as [re.split] does. *)
Fixpoint rev_string (acc s : string) : string :=
  match s with
  | EmptyString => acc
  | String c r => rev_string (String c acc) r
  end.

Fixpoint split_runs (sep : ascii -> bool) (cur : string) (insep : bool) (s : string)
  : list string :=
  match s with
  | EmptyString => [rev_string EmptyString cur]
  | String c r =>
      if sep c then
        if insep then split_runs sep cur true r
        else rev_string EmptyString cur :: split_runs sep EmptyString true r
      else split_runs sep (String c cur) false r
  end.

(** [re.split(r'[,;/\s]+', s)] *)
Definition is_equipment_sep (c : ascii) : bool :=
  Ascii.eqb c ","%char || Ascii.eqb c ";"%char || Ascii.eqb c "/"%char || isspace c.

Definition re_split_equipment (s : string) : list string :=
  split_runs is_equipment_sep EmptyString false s.

(** [s.split()]: the maximal runs of characters that are not white space. *)
Definition nonempty (s : string) : bool :=
  match s with EmptyString => false | _ => true end.

Definition split_ws (s : string) : list string :=
  filter (fun w => nonempty w = true) (split_runs isspace EmptyString false s).

(** [s.split(sep)] for a one-character separator: every occurrence splits. *)
Fixpoint split_char (sep : ascii) (cur : string) (s : string) : list string :=
  match s with
  | EmptyString => [rev_string EmptyString cur]
  | String c r =>
      if Ascii.eqb c sep then rev_string EmptyString cur :: split_char sep EmptyString r
      else split_char sep (String c cur) r
  end.

(** The text of an optional string that is known to be there. *)
Definition text_of_option (o : option string) : string :=
  match o with
  | Some s => s
  | None => EmptyString
  end.

(** Truthiness of an optional string: [None] and [''] are false. *)
Definition truthy (o : option string) : bool :=
  match o with
  | Some s => nonempty s
  | None => false
  end.

(** [len(s)] *)
Fixpoint len (s : string) : nat :=
  match s with
  | EmptyString => 0
  | String _ r => S (len r)
  end.

Fixpoint drop_chars (n : nat) (s : string) : string :=
  match n, s with
  | S n', String _ r => drop_chars n' r
  | _, _ => s
  end.

Fixpoint take_chars (n : nat) (s : string) : string :=
  match n, s with
  | S n', String c r => String c (take_chars n' r)
  | _, _ => EmptyString
  end.

(** [s[a:b]] for non-negative bounds: out-of-range bounds are clamped. *)
Definition slice (a b : nat) (s : string) : string := take_chars (b - a) (drop_chars a s).

(** [s.replace(old, '')] for a non-empty [old]: every occurrence, left to
    right, without overlap.  [skip] counts the characters of the current
    occurrence that are still to be dropped. *)
Fixpoint remove_all_from (old : string) (skip : nat) (s : string) : string :=
  match s with
  | EmptyString => EmptyString
  | String c r =>
      match skip with
      | S k => remove_all_from old k r
      | O =>
          if startswith old s then remove_all_from old (len old - 1) r
          else String c (remove_all_from old 0 r)
      end
  end.

Definition remove_all (old s : string) : string := remove_all_from old 0 s.

(** [os.path.basename(path)]: what follows the last slash. *)
Definition basename (path : string) : string :=
  List.last (split_char "/" EmptyString path) EmptyString.

(** [str(v)] for an integer. *)
Definition str_of_Z (z : Z) : string := NilZero.string_of_int (Z.to_int z).

(** [all(p(c) for c in s)] *)
Fixpoint all_chars (p : ascii -> bool) (s : string) : bool :=
  match s with
  | EmptyString => true
  | String c r => p c && all_chars p r
  end.

(** [s.isdigit()]: a non-empty text of digits. *)
Definition str_isdigit (s : string) : bool := nonempty s && all_chars isdigit s.

(** [s.replace(old, new)] for one-character texts. *)
Fixpoint replace_char (old new : ascii) (s : string) : string :=
  match s with
  | EmptyString => EmptyString
  | String c r => String (if Ascii.eqb c old then new else c) (replace_char old new r)
  end.

Definition isupper_char (c : ascii) : bool :=
  let n := nat_of_ascii c in (65 <=? n) && (n <=? 90).

Definition islower_char (c : ascii) : bool :=
  let n := nat_of_ascii c in (97 <=? n) && (n <=? 122).

Definition lower_char (c : ascii) : ascii :=
  if isupper_char c then ascii_of_nat (nat_of_ascii c + 32) else c.

(** [s.title()]: a letter that follows a letter is put in lower case, any
    other letter in upper case.  [previous_is_cased] says that the previous
    character was a letter. *)
Fixpoint title_from (previous_is_cased : bool) (s : string) : string :=
  match s with
  | EmptyString => EmptyString
  | String c r =>
      if islower_char c then
        String (if previous_is_cased then c else upper_char c) (title_from true r)
      else if isupper_char c then
        String (if previous_is_cased then lower_char c else c) (title_from true r)
      else String c (title_from false r)
  end.

Definition title (s : string) : string := title_from false s.

(** [str(v)] inside an f-string for a text that may be [None]. *)
Definition str_of_option (o : option string) : string :=
  match o with
  | Some s => s
  | None => "None"
  end.

End PyStr.

(** ** Python floats: IEEE-754 binary64 *)

Module PyFloat.

Local Open Scope Z_scope.

Definition prec : Z := 53.
Definition emax : Z := 1024.

Abbreviation float := spec_float.

Definition mul : float -> float -> float := SFmul prec emax.
Definition div : float -> float -> float := SFdiv prec emax.
Definition add : float -> float -> float := SFadd prec emax.

(** An integer operand of a mixed operation is converted to the nearest
    float (exactly, for the constants of this program). *)
Definition of_Z (z : Z) : float := binary_normalize prec emax z 0 false.

Definition ltb (x y : float) : bool := SFltb x y.
Definition leb (x y : float) : bool := SFleb x y.
Definition gtb (x y : float) : bool := SFltb y x.
Definition geb (x y : float) : bool := SFleb y x.

(** Mixed operations [x < n], [x * n], [x / n] with an [int] literal [n]. *)
Definition lt_int (x : float) (n : Z) : bool := ltb x (of_Z n).
Definition gt_int (x : float) (n : Z) : bool := gtb x (of_Z n).
Definition le_int (x : float) (n : Z) : bool := leb x (of_Z n).
Definition ge_int (x : float) (n : Z) : bool := geb x (of_Z n).
Definition mul_int (x : float) (n : Z) : float := mul x (of_Z n).
Definition div_int (x : float) (n : Z) : float := div x (of_Z n).

(** [int(x)]: truncation toward zero; an infinity raises [OverflowError]
    and a NaN raises [ValueError]. *)
Definition trunc (x : float) : outcome Z :=
  match x with
  | S754_zero _ => Returns 0
  | S754_finite s m e =>
      let a := if 0 <=? e then Z.pos m * 2 ^ e else Z.pos m / 2 ^ (- e) in
      Returns (if s then - a else a)
  | S754_infinity _ => Raises OverflowError
  | S754_nan => Raises ValueError
  end.

(** [n / d] rounded to the nearest integer, ties to the even one ([0 < d]). *)
Definition round_half_even (n d : Z) : Z :=
  let q := n / d in
  match 2 * (n mod d) ?= d with
  | Lt => q
  | Eq => if Z.even q then q else q + 1
  | Gt => q + 1
  end.

(** [round(x)]: the nearest integer, ties to the even one. *)
Definition round (x : float) : outcome Z :=
  match x with
  | S754_zero _ => Returns 0
  | S754_finite s m e =>
      let a := if 0 <=? e then Z.pos m * 2 ^ e else round_half_even (Z.pos m) (2 ^ (- e)) in
      Returns (if s then - a else a)
  | S754_infinity _ => Raises OverflowError
  | S754_nan => Raises ValueError
  end.

(** The float nearest to [(-1)^neg * m * 10^e10] (ties to even): what a
    correctly rounded decimal-to-binary conversion returns. *)
Definition of_decimal (neg : bool) (m : Z) (e10 : Z) : float :=
  match m with
  | Z.pos p =>
      if 0 <=? e10 then binary_normalize prec emax ((if neg then Z.neg p else Z.pos p) * 10 ^ e10) 0 false
      else div (S754_finite neg p 0) (S754_finite false (Z.to_pos (10 ^ (- e10))) 0)
  | _ => S754_zero neg
  end.

(** *** [float(s)] for a string *)

(** A run of decimal digits: the value accumulated onto [acc], the number of
    digits read, and the rest of the text. *)
Fixpoint take_digits (s : string) (acc : Z) (n : nat) : Z * nat * string :=
  match s with
  | String c r =>
      if PyStr.isdigit c then take_digits r (10 * acc + PyStr.digit_val c) (S n)
      else (acc, n, s)
  | EmptyString => (acc, n, s)
  end.

Definition parse_sign (s : string) : bool * string :=
  match s with
  | String "-" r => (true, r)
  | String "+" r => (false, r)
  | _ => (false, s)
  end.

(** [sign? (digits+ ('.' digits* )? | '.' digits+) ([eE] sign? digits+)?],
    matched against the whole text. *)
Definition parse_decimal (s : string) : option float :=
  let '(neg, s1) := parse_sign s in
  let '(ip, ni, s2) := take_digits s1 0 0%nat in
  let '(fp, nf, s3) :=
    match s2 with
    | String "." r => take_digits r ip 0%nat
    | _ => (ip, 0%nat, s2)
    end in
  if (ni + nf =? 0)%nat then None
  else
    match s3 with
    | EmptyString => Some (of_decimal neg fp (- Z.of_nat nf))
    | String c r =>
        if Ascii.eqb c "e" || Ascii.eqb c "E" then
          let '(eneg, s4) := parse_sign r in
          let '(ev, ne, s5) := take_digits s4 0 0%nat in
          if (ne =? 0)%nat then None
          else
            match s5 with
            | EmptyString =>
                Some (of_decimal neg fp ((if eneg then - ev else ev) - Z.of_nat nf))
            | _ => None
            end
        else None
    end.

Definition lower_char (c : ascii) : ascii :=
  let n := nat_of_ascii c in
  if ((65 <=? n) && (n <=? 90))%nat then ascii_of_nat (n + 32) else c.

Fixpoint lower (s : string) : string :=
  match s with
  | EmptyString => EmptyString
  | String c r => String (lower_char c) (lower r)
  end.

(** [sign? ("inf" | "infinity" | "nan")], in any letter case. *)
Definition parse_inf_or_nan (s : string) : option float :=
  let '(neg, s1) := parse_sign s in
  let w := lower s1 in
  if String.eqb w "inf" || String.eqb w "infinity" then Some (S754_infinity neg)
  else if String.eqb w "nan" then Some S754_nan
  else None.

(** Underscores are allowed between two digits only; they are removed.
    [prev] is the previous character of the text, if any. *)
Fixpoint strip_underscores (prev : option ascii) (s : string) : option string :=
  match s with
  | EmptyString =>
      match prev with
      | Some "_"%char => None
      | _ => Some EmptyString
      end
  | String c r =>
      if Ascii.eqb c "_" then
        match prev with
        | Some p => if PyStr.isdigit p then strip_underscores (Some c) r else None
        | None => None
        end
      else
        match prev with
        | Some "_"%char =>
            if PyStr.isdigit c then option_map (String c) (strip_underscores (Some c) r)
            else None
        | _ => option_map (String c) (strip_underscores (Some c) r)
        end
  end.

Definition of_string_opt (s : string) : option float :=
  match strip_underscores None s with
  | None => None
  | Some s1 =>
      let s2 := PyStr.lstrip_with PyStr.c_isspace (PyStr.rstrip_with PyStr.c_isspace s1) in
      match parse_decimal s2 with
      | Some x => Some x
      | None => parse_inf_or_nan s2
      end
  end.

(** [float(s)]: raises [ValueError] when the text is not a number. *)
Definition of_string (s : string) : outcome float :=
  match of_string_opt s with
  | Some x => Returns x
  | None => Raises ValueError
  end.

(** Truthiness of a float: the two zeros are false, anything else (a NaN
    too) is true. *)
Definition nonzero (x : float) : bool :=
  match x with
  | S754_zero _ => false
  | _ => true
  end.

End PyFloat.

(** ** Python integers from text *)

Module PyInt.

Local Open Scope Z_scope.

(** [digit (_? digit)*] up to the end of the text. *)
Fixpoint digits_with_underscores (s : string) (acc : Z) (after_digit : bool) : option Z :=
  match s with
  | EmptyString => if after_digit then Some acc else None
  | String c r =>
      if PyStr.isdigit c then digits_with_underscores r (10 * acc + PyStr.digit_val c) true
      else if Ascii.eqb c "_" && after_digit then digits_with_underscores r acc false
      else None
  end.

(** [int(s)] in base 10: white space around, an optional sign, digits with
    single underscores between them; [None] stands for [ValueError].
    (The interpreter's limit on the number of digits is not modelled.) *)
Definition of_string (s : string) : option Z :=
  let s1 := PyStr.lstrip_with PyStr.c_isspace (PyStr.rstrip_with PyStr.c_isspace s) in
  let '(neg, s2) := PyFloat.parse_sign s1 in
  match digits_with_underscores s2 0 false with
  | Some v => Some (if neg then - v else v)
  | None => None
  end.

End PyInt.

(** ** XML element trees ([xml.etree.ElementTree]) *)

Module Xml.

#[warnings="-register-all"]
Inductive element : Type :=
| Element (tag : string) (attrib : list (string * string)) (text : option string)
    (children : list element).

Definition tag (e : element) : string := let 'Element t _ _ _ := e in t.
Definition attrib (e : element) : list (string * string) := let 'Element _ a _ _ := e in a.
Definition text (e : element) : option string := let 'Element _ _ x _ := e in x.
Definition children (e : element) : list element := let 'Element _ _ _ c := e in c.

Fixpoint assoc (d : list (string * string)) (k : string) : option string :=
  match d with
  | [] => None
  | (k', v) :: r => if String.eqb k k' then Some v else assoc r k
  end.

(** [e.get(name)] *)
Definition get (e : element) (name : string) : option string := assoc (attrib e) name.

(** [e.findall(tag)]: the children with that tag, in document order. *)
Definition findall (e : element) (t : string) : list element :=
  List.filter (fun c => String.eqb (tag c) t) (children e).

(** The elements a path [a/b/c] selects from a list of context elements. *)
Fixpoint select (path : list string) (context : list element) : list element :=
  match path with
  | [] => context
  | t :: rest => select rest (flat_map (fun e => findall e t) context)
  end.

(** [e.find(path)]: the first element the path selects, if any. *)
Definition find (e : element) (path : string) : option element :=
  head (select (PyStr.split_char "/" EmptyString path) [e]).

(** The proper descendants of an element, in document order. *)
Fixpoint descendants (e : element) : list element :=
  match e with
  | Element _ _ _ cs => flat_map (fun c => c :: descendants c) cs
  end.

(** [root.findall('.//' + tag)] *)
Definition findall_descendants (root : element) (t : string) : list element :=
  List.filter (fun c => String.eqb (tag c) t) (descendants root).

(** Safely extract text from XML element: the stripped text of the first
    element at [xpath], [None] when there is no such element or it has no
    text. *)
Definition extract_text (e : element) (xpath : string) : option string :=
  match find e xpath with
  | Some found =>
      if PyStr.truthy (text found) then Some (PyStr.strip (PyStr.text_of_option (text found)))
      else None
  | None => None
  end.

End Xml.

(** ** [standardization.py]: [RacingDataStandardizer] *)

Module Standardizer.

Import PyStr.

(** A [dict] with string keys, in insertion order (the order in which
    [.items()] iterates). *)
Fixpoint dict_get {V : Type} (d : list (string * V)) (k : string) : option V :=
  match d with
  | [] => None
  | (k', v) :: r => if String.eqb k k' then Some v else dict_get r k
  end.

(** Race type hierarchy (higher number = higher class). *)
Definition race_type_hierarchy : list (string * Z) :=
  [ ("G1", 10); ("G2", 9); ("G3", 8); ("GR1", 10); ("GR2", 9); ("GR3", 8);
    ("L", 7); ("LR", 7); ("LISTED", 7);
    ("STK", 6); ("STAKES", 6); ("BT", 6);
    ("ALW", 5); ("ALLOWANCE", 5); ("AOC", 5); ("N1X", 4); ("N2X", 3);
    ("CLM", 2); ("CLAIMING", 2); ("CL", 2);
    ("MSW", 1); ("MAIDEN", 1); ("MCL", 1); ("MAIDEN CLAIMING", 1);
    ("MSP", 1); ("MAIDEN SPECIAL WEIGHT", 1) ]%Z.

Definition equipment_mappings : list (string * string) :=
  [ ("B", "BLINKERS"); ("BLINKERS", "BLINKERS");
    ("BF", "BLINKERS_FIRST_TIME"); ("BL", "BLINKERS_LASIX");
    ("L", "LASIX"); ("L1", "LASIX_FIRST_TIME"); ("L2", "LASIX_SECOND_TIME");
    ("LASIX", "LASIX"); ("SALIX", "LASIX");
    ("T", "TONGUE_TIE"); ("TT", "TONGUE_TIE");
    ("N", "NASAL_STRIP"); ("NS", "NASAL_STRIP");
    ("S", "SHADOW_ROLL"); ("SR", "SHADOW_ROLL");
    ("E", "EAR_PLUGS"); ("EP", "EAR_PLUGS");
    ("H", "HOOD"); ("HOOD", "HOOD");
    ("C", "CHEEK_PIECES"); ("CP", "CHEEK_PIECES") ].

Definition track_conditions : list (string * string) :=
  [ ("FAST", "FAST"); ("FT", "FAST"); ("F", "FAST");
    ("GOOD", "GOOD"); ("GD", "GOOD"); ("G", "GOOD");
    ("SLOPPY", "SLOPPY"); ("SL", "SLOPPY"); ("SLPY", "SLOPPY");
    ("MUDDY", "MUDDY"); ("MY", "MUDDY"); ("MD", "MUDDY");
    ("WF", "WET_FAST"); ("WET FAST", "WET_FAST");
    ("FIRM", "FIRM"); ("FM", "FIRM");
    ("YIELDING", "YIELDING"); ("YL", "YIELDING"); ("Y", "YIELDING");
    ("SOFT", "SOFT"); ("SF", "SOFT");
    ("HEAVY", "HEAVY"); ("HV", "HEAVY") ].

(** [not raw_value or raw_value.strip() == ''] *)
Definition blank (raw_value : option string) : bool :=
  match raw_value with
  | None => true
  | Some s => negb (nonempty s) || String.eqb (strip s) ""
  end.

Definition text_of (raw_value : option string) : string := text_of_option raw_value.

Record race_type : Type := {
  race_type_code : string;
  race_type_description : string;
  class_level : Z;
  purse_category : string
}.

(** Map class level to purse category. *)
Definition _get_purse_category (class_level : Z) : string :=
  if (8 <=? class_level)%Z then "GRADED_STAKES"
  else if (6 <=? class_level)%Z then "STAKES"
  else if (4 <=? class_level)%Z then "ALLOWANCE"
  else if (2 <=? class_level)%Z then "CLAIMING"
  else if (class_level =? 1)%Z then "MAIDEN"
  else "UNKNOWN".

(** The loop over [race_type_hierarchy.items()]: the first code, in the
    order of the table, that is one of the words. *)
Fixpoint first_code_in (table : list (string * Z)) (words : list string)
  : option (string * Z) :=
  match table with
  | [] => None
  | (code, level) :: rest =>
      if mem code words then Some (code, level) else first_code_in rest words
  end.

(** Parse and standardize race type with classification. *)
Definition standardize_race_type (raw_value : option string) : race_type :=
  if blank raw_value then
    {| race_type_code := "UNKNOWN"; race_type_description := "Unknown";
       class_level := 0; purse_category := "UNKNOWN" |}
  else
    let raw := text_of raw_value in
    let cleaned := upper (strip raw) in
    (* compound types first *)
    if contains "MAIDEN CLAIMING" cleaned || contains "MAIDEN CLM" cleaned then
      {| race_type_code := "CLAIMING"; race_type_description := strip raw;
         class_level := 1; purse_category := "MAIDEN" |}
    else
      (* exact whole-word matches in the hierarchy *)
      let words := split_ws cleaned in
      match first_code_in race_type_hierarchy words with
      | Some (code, level) =>
          {| race_type_code := code; race_type_description := strip raw;
             class_level := level; purse_category := _get_purse_category level |}
      | None =>
          (* fallback to keyword matching *)
          if contains "MAIDEN" cleaned || contains "MSW" cleaned then
            {| race_type_code := "MAIDEN"; race_type_description := strip raw;
               class_level := 1; purse_category := "MAIDEN" |}
          else if contains "CLAIMING" cleaned || contains "CLM" cleaned then
            {| race_type_code := "CLAIMING"; race_type_description := strip raw;
               class_level := 2; purse_category := "CLAIMING" |}
          else if contains "ALLOWANCE" cleaned || contains "ALW" cleaned then
            {| race_type_code := "ALLOWANCE"; race_type_description := strip raw;
               class_level := 5; purse_category := "ALLOWANCE" |}
          else if contains "STAKES" cleaned || contains "STK" cleaned then
            {| race_type_code := "STAKES"; race_type_description := strip raw;
               class_level := 6; purse_category := "STAKES" |}
          else
            {| race_type_code := "OTHER"; race_type_description := strip raw;
               class_level := 3; purse_category := "OTHER" |}
      end.

(** Course type mappings. *)
Definition dirt_variations : list string :=
  ["D"; "DIRT"; "FAST"; "SLOPPY"; "MUDDY"; "GOOD"; "SEALED"; "FROZEN"].
Definition turf_variations : list string :=
  ["T"; "TURF"; "FIRM"; "GOOD TO FIRM"; "YIELDING"; "SOFT"; "HEAVY"; "GRASS"; "LAWN"].
Definition synthetic_variations : list string :=
  ["S"; "SYNTH"; "SYNTHETIC"; "TAPETA"; "POLYTRACK"; "FIBRESAND"; "CUSHION"; "PRO-RIDE"].

(** Normalize course type to standard categories. *)
Definition standardize_course_type (raw_value : option string) : string :=
  if blank raw_value then "UNKNOWN"
  else
    let cleaned := upper (strip (text_of raw_value)) in
    if mem cleaned dirt_variations then "DIRT"
    else if mem cleaned turf_variations then "TURF"
    else if mem cleaned synthetic_variations then "SYNTHETIC"
    else "UNKNOWN".

(** [re.search] for a run of digits followed by a literal text: the value
    of the leftmost such run, and what follows the literal. *)
Fixpoint search_digits_then (lit : string) (s : string) : option (Z * string) :=
  match s with
  | EmptyString => None
  | String c r =>
      let '(v, n, rest) := PyFloat.take_digits s 0 0 in
      if (0 <? n) && startswith lit rest then Some (v, drop_chars (len lit) rest)
      else search_digits_then lit r
  end.

(** The same for [(\d+)-(\d+)]: both values. *)
Fixpoint search_digits_range (s : string) : option (Z * Z) :=
  match s with
  | EmptyString => None
  | String c r =>
      let '(v, n, rest) := PyFloat.take_digits s 0 0 in
      match rest with
      | String "-" rest' =>
          let '(w, m, _) := PyFloat.take_digits rest' 0 0 in
          if (0 <? n) && (0 <? m) then Some (v, w) else search_digits_range r
      | _ => search_digits_range r
      end
  end.

Record age_range : Type := { min_age : option Z; max_age : option Z }.

(** Parse age restrictions into min/max ranges: the patterns are tried in
    this order and the first that matches decides. *)
Definition parse_age_restrictions (raw_value : option string) : age_range :=
  if blank raw_value then {| min_age := None; max_age := None |}
  else
    let cleaned := upper (strip (text_of raw_value)) in
    let and_up (lit : string) (otherwise : age_range) : age_range :=
      match search_digits_then lit cleaned with
      | Some (n, _) => {| min_age := Some n; max_age := None |}
      | None => otherwise
      end in
    match search_digits_then "YO" cleaned with
    | Some (n, _) => {| min_age := Some n; max_age := Some n |}
    | None =>
        and_up "U" (and_up "+"
          match search_digits_range cleaned with
          | Some (n, m) => {| min_age := Some n; max_age := Some m |}
          | None =>
              and_up "&UP" (and_up " AND UP" (and_up " YEARS OLD AND UP"
                {| min_age := None; max_age := None |}))
          end)
    end.

Record sex_flags : Type := {
  fillies_and_mares : bool;
  colts_and_geldings : bool;
  fillies_only : bool;
  mares_only : bool;
  colts_only : bool;
  geldings_only : bool
}.

Definition no_sex_flag : sex_flags :=
  {| fillies_and_mares := false; colts_and_geldings := false; fillies_only := false;
     mares_only := false; colts_only := false; geldings_only := false |}.

(** Parse sex restrictions into boolean flags. *)
Definition standardize_sex_restrictions (raw_value : option string) : sex_flags :=
  if blank raw_value then no_sex_flag
  else
    let cleaned := upper (strip (text_of raw_value)) in
    if contains "FILLIES AND MARES" cleaned || contains "F&M" cleaned then
      {| fillies_and_mares := true; colts_and_geldings := false; fillies_only := false;
         mares_only := false; colts_only := false; geldings_only := false |}
    else if contains "FILLIES" cleaned && negb (contains "MARES" cleaned) then
      {| fillies_and_mares := false; colts_and_geldings := false; fillies_only := true;
         mares_only := false; colts_only := false; geldings_only := false |}
    else if contains "MARES" cleaned && negb (contains "FILLIES" cleaned) then
      {| fillies_and_mares := false; colts_and_geldings := false; fillies_only := false;
         mares_only := true; colts_only := false; geldings_only := false |}
    else if contains "COLTS AND GELDINGS" cleaned then
      {| fillies_and_mares := false; colts_and_geldings := true; fillies_only := false;
         mares_only := false; colts_only := false; geldings_only := false |}
    else if contains "COLTS" cleaned && negb (contains "GELDINGS" cleaned) then
      {| fillies_and_mares := false; colts_and_geldings := false; fillies_only := false;
         mares_only := false; colts_only := true; geldings_only := false |}
    else if contains "GELDINGS" cleaned && negb (contains "COLTS" cleaned) then
      {| fillies_and_mares := false; colts_and_geldings := false; fillies_only := false;
         mares_only := false; colts_only := false; geldings_only := true |}
    else no_sex_flag.

(** One iteration of the loop of [standardize_equipment]: a known code is
    appended in its standard form unless that form is already there; an
    unknown token is appended as it is. *)
Definition equipment_step (equipment_list : list string) (item : string) : list string :=
  let item := strip item in
  match (if nonempty item then dict_get equipment_mappings item else None) with
  | Some standardized =>
      if mem standardized equipment_list then equipment_list
      else equipment_list ++ [standardized]
  | None =>
      if nonempty item then equipment_list ++ [item] else equipment_list
  end.

(** Parse equipment combinations into standardized codes. *)
Definition standardize_equipment (equipment_string : option string) : list string :=
  if blank equipment_string then []
  else
    let items := re_split_equipment (upper (strip (text_of equipment_string))) in
    fold_left equipment_step items [].

(** [re.search(r'(\d+)', s)]: the first maximal run of digits. *)
Fixpoint first_digit_run (s : string) : option Z :=
  match s with
  | EmptyString => None
  | String c r =>
      if isdigit c then Some (fst (fst (PyFloat.take_digits s 0 0)))
      else first_digit_run r
  end.

(** Extract numeric weight in pounds.  (The interpreter's limit on the
    number of digits [int()] converts, a [ValueError] this function turns
    into [None], is not modelled.) *)
Definition parse_weight (weight_value : option string) : option Z :=
  if negb (truthy weight_value) then None
  else first_digit_run (strip (text_of weight_value)).

(** Normalize track condition. *)
Definition standardize_track_condition (raw_value : option string) : string :=
  if blank raw_value then "UNKNOWN"
  else default "OTHER" (dict_get track_conditions (upper (strip (text_of raw_value)))).

(** *** Distance *)

Definition furlong_units : list string := ["F"; "FURLONG"; "FURLONGS"].
Definition mile_units : list string := ["M"; "MILE"; "MILES"].
Definition yard_units : list string := ["Y"; "YARD"; "YARDS"].

(** [int(x)] as the function's return value. *)
Definition int_yards (x : PyFloat.float) : outcome (option Z) :=
  y ← PyFloat.trunc x; Returns (Some y).

(** The body of the [try] block of [parse_distance]. *)
Definition parse_distance_body (distance_value : string) (unit : option string)
  : outcome (option Z) :=
  distance ← PyFloat.of_string (strip distance_value);
  (* determine unit from context if not provided *)
  let unit :=
    if negb (truthy unit) then
      if PyFloat.lt_int distance 20 then Some "F"
      else if PyFloat.gt_int distance 1000 then Some "Y"
      else Some "M"
    else unit in
  let unit := if truthy unit then upper (text_of unit) else "F" in
  (* convert to yards *)
  if mem unit furlong_units then
    if PyFloat.ge_int distance 100 then
      let furlongs := PyFloat.div_int distance 100 in
      int_yards (PyFloat.mul_int furlongs 220)
    else int_yards (PyFloat.mul_int distance 220)
  else if mem unit mile_units then
    if PyFloat.ge_int distance 100 then
      let miles := PyFloat.div_int distance 1600 in
      int_yards (PyFloat.mul_int miles 1760)
    else int_yards (PyFloat.mul_int distance 1760)
  else if mem unit yard_units then int_yards distance
  else
    if PyFloat.lt_int distance 20 then int_yards (PyFloat.mul_int distance 220)
    else if PyFloat.ge_int distance 100 && PyFloat.le_int distance 1000 then
      let furlongs := PyFloat.div_int distance 100 in
      int_yards (PyFloat.mul_int furlongs 220)
    else if PyFloat.gt_int distance 1000 then
      if PyFloat.gt_int distance 5000 then int_yards (PyFloat.div_int distance 3)
      else int_yards distance
    else int_yards (PyFloat.mul_int distance 220).

(** Convert distance to yards for standardization.  The [try] block catches
    [ValueError] and [TypeError] only. *)
Definition parse_distance (distance_value unit : option string) : outcome (option Z) :=
  if negb (truthy distance_value) then Returns None
  else except_value_type (parse_distance_body (text_of distance_value) unit).

(** *** Race features *)

(** The keys of [race_data] that the function reads with [.get]. *)
Record raw_race_data : Type := {
  course_type : option string;
  race_type_text : option string;   (* the key [race_type] *)
  age_restrictions : option string;
  sex_restrictions : option string;
  distance : option string;
  distance_unit : option string;
  purse : option string;
  track_condition_text : option string   (* the key [track_condition] *)
}.

Record race_features : Type := {
  course_type_code : string;
  track_condition : string;
  race_type_data : race_type;
  age_data : age_range;
  sex_data : sex_flags;
  distance_yards : option Z;
  purse_usd : option PyFloat.float
}.

(** Purse standardization: [str(None)] is the text [None], which [float]
    rejects. *)
Definition standardize_purse (purse : option string) : option PyFloat.float :=
  let purse_str :=
    remove_all "$" (remove_all "," (default "None" purse)) in
  if nonempty purse_str then
    match PyFloat.of_string purse_str with
    | Returns x => Some x
    | Raises _ => None
    end
  else None.

(** Create complete standardized race feature set.  Only the distance can
    raise. *)
Definition create_standardized_race_features (race_data : raw_race_data)
  : outcome race_features :=
  distance_yards ← parse_distance (distance race_data) (distance_unit race_data);
  Returns {|
    course_type_code := standardize_course_type (course_type race_data);
    track_condition := standardize_track_condition (track_condition_text race_data);
    race_type_data := standardize_race_type (race_type_text race_data);
    age_data := parse_age_restrictions (age_restrictions race_data);
    sex_data := standardize_sex_restrictions (sex_restrictions race_data);
    distance_yards := distance_yards;
    purse_usd := standardize_purse (purse race_data)
  |}.

(** *** Horse features *)

(** The keys of [horse_data] that the function reads with [.get]. *)
Record raw_horse_data : Type := {
  equipment : option string;
  medication : option string;
  weight : option string
}.

Record horse_features : Type := {
  equipment_codes : list string;
  has_blinkers : bool;
  has_lasix : bool;
  has_tongue_tie : bool;
  has_nasal_strip : bool;
  weight_lbs : option Z;
  medication_codes : list string
}.

(** Create standardized horse-specific features.  The loop over
    [common_equipment] sets [has_lasix] from the equipment list; the last
    assignment of the function overwrites it. *)
Definition create_standardized_horse_features (horse_data : raw_horse_data)
  : horse_features :=
  let equipment_list := standardize_equipment (equipment horse_data) in
  let medication_list := standardize_equipment (medication horse_data) in
  {| equipment_codes := equipment_list;
     has_blinkers := mem "BLINKERS" equipment_list;
     has_lasix := mem "LASIX" medication_list || mem "LASIX" equipment_list;
     has_tongue_tie := mem "TONGUE_TIE" equipment_list;
     has_nasal_strip := mem "NASAL_STRIP" equipment_list;
     weight_lbs := parse_weight (weight horse_data);
     medication_codes := medication_list |}.

End Standardizer.



(** ** The relational store ([sqlite3]) *)

Module Sqlite.

(** A column value: [NULL], an integer or a text. *)
Inductive value : Type :=
| NULL
| INTEGER (z : Z)
| TEXT (s : string).

(** The order [ORDER BY] sorts by: [NULL] first, then the integers in
    numeric order, then the texts byte by byte. *)
Definition value_leb (a b : value) : bool :=
  match a, b with
  | NULL, _ => true
  | _, NULL => false
  | INTEGER x, INTEGER y => (x <=? y)%Z
  | INTEGER _, TEXT _ => true
  | TEXT _, INTEGER _ => false
  | TEXT s, TEXT t => String.leb s t
  end.

(** [INSERT OR IGNORE] of one row into a table keyed by [k]: a row whose key
    is already there is skipped. *)
Definition insert_or_ignore {V : Type} (k : string) (v : V) (t : gmap string V)
  : gmap string V :=
  match t !! k with
  | Some _ => t
  | None => <[k := v]> t
  end.

(** A connection in the module's default mode: the first write opens a
    transaction, [commit] makes its writes durable, [rollback] discards
    them, and closing the connection discards what was not committed.

    [execute stmt db] is the effect of one statement on the database as the
    connection sees it, with the exception it raises, if any (whatever the
    failed statement leaves behind is part of the result).  [commit_raises]
    tells whether committing a given state raises. *)
Section Transaction.

Context {Db Stmt : Type}.
Variable execute : Stmt -> Db -> Db * option exn.
Variable commit_raises : Db -> bool.

Record connection : Type := {
  committed : Db;   (* what the database file holds *)
  pending : Db      (* what the connection sees inside its transaction *)
}.

Definition connect (db : Db) : connection := {| committed := db; pending := db |}.

Definition run (stmt : Stmt) (c : connection) : connection * option exn :=
  let '(db, raised) := execute stmt (pending c) in
  ({| committed := committed c; pending := db |}, raised).

(** [cursor.executemany(sql, rows)], and more generally a sequence of
    writes: the first one that raises ends the sequence. *)
Fixpoint run_all (stmts : list Stmt) (c : connection) : connection * option exn :=
  match stmts with
  | [] => (c, None)
  | stmt :: rest =>
      match run stmt c with
      | (c', None) => run_all rest c'
      | (c', Some e) => (c', Some e)
      end
  end.

Definition commit (c : connection) : connection * option exn :=
  if commit_raises (pending c) then (c, Some SqliteError)
  else ({| committed := pending c; pending := pending c |}, None).

Definition rollback (c : connection) : connection :=
  {| committed := committed c; pending := committed c |}.

Definition close (c : connection) : Db := committed c.

(** The shape shared by the batch writers:
    [[
    conn = sqlite3.connect(db_path)
    try:
        ... the writes ...
        conn.commit()
    except Exception as e:
        conn.rollback()
    finally:
        conn.close()
    ]] *)
Definition flush (writes : list Stmt) (db : Db) : Db :=
  let conn := connect db in
  let '(c1, raised1) := run_all writes conn in
  let '(c2, raised2) :=
    match raised1 with
    | None => commit c1
    | Some e => (c1, Some e)
    end in
  let c3 :=
    match raised2 with
    | None => c2
    | Some _ => rollback c2
    end in
  close c3.

End Transaction.

End Sqlite.

(** ** [extract_horses.py]: phase 1, [HorseExtractor] *)

Module Horses.

Import PyStr.

Record horse_data : Type := {
  registration_number : string;
  horse_name : option string;
  foaling_date : option string;
  year_of_birth : Sqlite.value;
  foaling_area : option string;
  breed_type : option string;
  color_code : option string;
  sex_code : option string;
  breeder_name : option string;
  sire_registration_number : option string;
  dam_registration_number : option string
}.

(** Trainer and owner records have the same shape. *)
Record party_data : Type := {
  external_party_id : string;
  first_name : option string;
  middle_name : option string;
  last_name : option string;
  type_source : option string
}.

(** Parse date string to YYYY-MM-DD format: what precedes the first [+],
    then what precedes the first [T]. *)
Definition parse_date (date_str : option string) : option string :=
  match date_str with
  | None => None
  | Some d =>
      if negb (nonempty d) || String.eqb (strip d) "" then None
      else
        let d1 := if contains "+" d then hd d (split_char "+" EmptyString d) else d in
        let d2 := if contains "T" d1 then hd d1 (split_char "T" EmptyString d1) else d1 in
        Some d2
  end.

(** The conversion of [year_of_birth]: a non-empty text becomes its integer
    value, or [None] when [int] raises; [None] and the empty text stay. *)
Definition convert_year (y : option string) : Sqlite.value :=
  match y with
  | None => Sqlite.NULL
  | Some t =>
      if nonempty t then
        match PyInt.of_string t with
        | Some z => Sqlite.INTEGER z
        | None => Sqlite.NULL
        end
      else Sqlite.TEXT t
  end.

(** Extract horse data from XML horse element. *)
Definition extract_horse_data (horse_element : Xml.element) : option horse_data :=
  let registration_number := Xml.extract_text horse_element "RegistrationNumber" in
  if negb (truthy registration_number) then None
  else
    Some {|
      registration_number := text_of_option registration_number;
      horse_name := Xml.extract_text horse_element "HorseName";
      foaling_date := parse_date (Xml.extract_text horse_element "FoalingDate");
      year_of_birth := convert_year (Xml.extract_text horse_element "YearOfBirth");
      foaling_area := Xml.extract_text horse_element "FoalingArea";
      breed_type := Xml.extract_text horse_element "BreedType/Value";
      color_code := Xml.extract_text horse_element "Color/Value";
      sex_code := Xml.extract_text horse_element "Sex/Value";
      breeder_name := Xml.extract_text horse_element "BreederName";
      sire_registration_number := Xml.extract_text horse_element "Sire/RegistrationNumber";
      dam_registration_number := Xml.extract_text horse_element "Dam/RegistrationNumber"
    |}.

(** Extract trainer data from XML trainer element; [extract_owner_data] is
    the same function on an owner element. *)
Definition extract_party_data (party_element : Xml.element) : option party_data :=
  let external_party_id := Xml.extract_text party_element "ExternalPartyId" in
  if negb (truthy external_party_id) then None
  else
    Some {|
      external_party_id := text_of_option external_party_id;
      first_name := Xml.extract_text party_element "FirstName";
      middle_name := Xml.extract_text party_element "MiddleName";
      last_name := Xml.extract_text party_element "LastName";
      type_source := Xml.extract_text party_element "TypeSource"
    |}.

Definition extract_trainer_data := extract_party_data.
Definition extract_owner_data := extract_party_data.

(** The extractor's shared state: the batches waiting for the next flush,
    the dedup ledgers of the run, and the statistics. *)
Record extractor : Type := {
  horse_batch : list horse_data;
  trainer_batch : list party_data;
  owner_batch : list party_data;
  seen_horses : gset string;
  seen_trainers : gset string;
  seen_owners : gset string;
  files_processed : nat;
  horses_extracted : nat;
  trainers_extracted : nat;
  owners_extracted : nat;
  errors : nat
}.

(** [HorseExtractor(...)]: a fresh extractor. *)
Definition new_extractor : extractor :=
  {| horse_batch := []; trainer_batch := []; owner_batch := [];
     seen_horses := ∅; seen_trainers := ∅; seen_owners := ∅;
     files_processed := 0; horses_extracted := 0; trainers_extracted := 0;
     owners_extracted := 0; errors := 0 |}.

(** A candidate record is appended to its batch, and its key entered in the
    ledger, when the ledger does not hold the key yet:
    [[
    if data and data[key] not in seen:
        batch.append(data); seen[data[key]] = True; count += 1
    ]] *)
Definition offer {A : Type} (key : A -> string) (data : option A)
    (batch : list A) (seen : gset string) (count : nat)
  : list A * gset string * nat :=
  match data with
  | Some d =>
      if decide (key d ∈ seen) then (batch, seen, count)
      else (batch ++ [d], {[key d]} ∪ seen, S count)
  | None => (batch, seen, count)
  end.

(** The element found by [starter.find(tag)], extracted. *)
Definition child_data {A : Type} (extract : Xml.element -> option A)
    (starter : Xml.element) (tag : string) : option A :=
  match Xml.find starter tag with
  | Some e => extract e
  | None => None
  end.

(** The body of the loop over the [Starters] elements of a race. *)
Definition process_starter (acc : extractor * (nat * nat * nat)) (starter : Xml.element)
  : extractor * (nat * nat * nat) :=
  let '(x, (horses_count, trainers_count, owners_count)) := acc in
  let '(hb, hs, hc) :=
    offer registration_number (child_data extract_horse_data starter "Horse")
      (horse_batch x) (seen_horses x) horses_count in
  let '(tb, ts, tc) :=
    offer external_party_id (child_data extract_trainer_data starter "Trainer")
      (trainer_batch x) (seen_trainers x) trainers_count in
  let '(ob, os, oc) :=
    offer external_party_id (child_data extract_owner_data starter "Owner")
      (owner_batch x) (seen_owners x) owners_count in
  ({| horse_batch := hb; trainer_batch := tb; owner_batch := ob;
      seen_horses := hs; seen_trainers := ts; seen_owners := os;
      files_processed := files_processed x;
      horses_extracted := horses_extracted x;
      trainers_extracted := trainers_extracted x;
      owners_extracted := owners_extracted x;
      errors := errors x |},
   (hc, tc, oc)).

(** The [Starters] elements of all [Race] elements of a document, in the
    order the two nested loops visit them. *)
Definition starters_of (root : Xml.element) : list Xml.element :=
  flat_map (fun race => Xml.findall race "Starters") (Xml.findall_descendants root "Race").

Definition count_error (x : extractor) : extractor :=
  {| horse_batch := horse_batch x; trainer_batch := trainer_batch x;
     owner_batch := owner_batch x;
     seen_horses := seen_horses x; seen_trainers := seen_trainers x;
     seen_owners := seen_owners x;
     files_processed := files_processed x;
     horses_extracted := horses_extracted x;
     trainers_extracted := trainers_extracted x;
     owners_extracted := owners_extracted x;
     errors := S (errors x) |}.

(** Process XML content and extract horse/trainer/owner data.  A document
    is given by the result of [ET.fromstring]: [None] when it raises
    [ParseError]. *)
Definition process_xml_content (x : extractor) (xml_content : option Xml.element)
  : extractor * (nat * nat * nat) :=
  match xml_content with
  | Some root => fold_left process_starter (starters_of root) (x, (0, 0, 0))
  | None => (count_error x, (0, 0, 0))
  end.

(** Process a single XML file: the counts of the file are added to the
    statistics. *)
Definition process_file (x : extractor) (file : option Xml.element) : extractor :=
  let '(x', (horses, trainers, owners)) := process_xml_content x file in
  {| horse_batch := horse_batch x'; trainer_batch := trainer_batch x';
     owner_batch := owner_batch x';
     seen_horses := seen_horses x'; seen_trainers := seen_trainers x';
     seen_owners := seen_owners x';
     files_processed := S (files_processed x');
     horses_extracted := horses_extracted x' + horses;
     trainers_extracted := trainers_extracted x' + trainers;
     owners_extracted := owners_extracted x' + owners;
     errors := errors x' |}.

(** Modelled from the spec: the tables of [create_tables.sql], which is not
    among the sources.  Each table is keyed by the natural key of its
    entity (registration number, external party id), the key
    [INSERT OR IGNORE] detects conflicts on. *)
Record database : Type := {
  horses_master : gmap string horse_data;
  trainers : gmap string party_data;
  owners : gmap string party_data
}.

(** The writes of a flush. *)
Inductive statement : Type :=
| InsertHorse (h : horse_data)
| InsertTrainer (t : party_data)
| InsertOwner (o : party_data).

(** What a write does when it succeeds. *)
Definition apply_statement (stmt : statement) (db : database) : database :=
  match stmt with
  | InsertHorse h =>
      {| horses_master := Sqlite.insert_or_ignore (registration_number h) h (horses_master db);
         trainers := trainers db; owners := owners db |}
  | InsertTrainer t =>
      {| horses_master := horses_master db;
         trainers := Sqlite.insert_or_ignore (external_party_id t) t (trainers db);
         owners := owners db |}
  | InsertOwner o =>
      {| horses_master := horses_master db; trainers := trainers db;
         owners := Sqlite.insert_or_ignore (external_party_id o) o (owners db) |}
  end.

(** A healthy store: no write and no commit raises. *)
Definition execute_ok (stmt : statement) (db : database) : database * option exn :=
  (apply_statement stmt db, None).

Definition commit_ok (db : database) : bool := false.

Section Run.

(** The behaviour of the store: see [Sqlite.flush]. *)
Variable execute : statement -> database -> database * option exn.
Variable commit_raises : database -> bool.

(** Insert batched data into database. *)
Definition batch_insert_data (x : extractor) (db : database) : database :=
  Sqlite.flush execute commit_raises
    (map InsertHorse (horse_batch x) ++
     map InsertTrainer (trainer_batch x) ++
     map InsertOwner (owner_batch x))
    db.

Definition clear_batches (x : extractor) : extractor :=
  {| horse_batch := []; trainer_batch := []; owner_batch := [];
     seen_horses := seen_horses x; seen_trainers := seen_trainers x;
     seen_owners := seen_owners x;
     files_processed := files_processed x;
     horses_extracted := horses_extracted x;
     trainers_extracted := trainers_extracted x;
     owners_extracted := owners_extracted x;
     errors := errors x |}.

(** One round of the monitoring loop: the file is processed, and the
    batches are written and cleared when the horse batch has reached the
    batch size. *)
Definition step (batch_size : nat) (acc : extractor * database)
    (file : option Xml.element) : extractor * database :=
  let '(x, db) := acc in
  let x := process_file x file in
  if batch_size <=? length (horse_batch x)
  then (clear_batches x, batch_insert_data x db)
  else (x, db).

(** Run the full extraction process, the files taken in order; the result
    is the extractor and the database at the end. *)
Definition run_extraction (batch_size : nat) (x : extractor)
    (xml_files : list (option Xml.element)) (db : database) : extractor * database :=
  match xml_files with
  | [] => (x, db)
  | _ =>
      let '(x, db) := fold_left (step batch_size) xml_files (x, db) in
      match horse_batch x, trainer_batch x, owner_batch x with
      | [], [], [] => (x, db)
      | _, _, _ => (x, batch_insert_data x db)
      end
  end.

End Run.


(** One whole phase-1 run on a healthy store: a fresh extractor (so a fresh
    ledger), the default batch size or any other. *)
Definition phase1 (batch_size : nat) (xml_files : list (option Xml.element))
    (db : database) : database :=
  snd (run_extraction execute_ok commit_ok batch_size new_extractor xml_files db).

(** *** What a run amounts to *)

(** [INSERT OR IGNORE] of a list of rows, in order. *)
Definition insert_all {V : Type} (key : V -> string) (t : gmap string V) (rows : list V)
  : gmap string V :=
  fold_left (fun t r => Sqlite.insert_or_ignore (key r) r t) rows t.


(** One channel of the extractor: a table, its batch and its ledger.
    [cands] are the candidate records offered so far in the run, and [t0]
    is the table at the start of the run.  The rows still in the batch
    would bring the table to what inserting every candidate, skipped or
    not, would have made it; and the ledger holds the candidates' keys. *)
Definition channel {V : Type} (key : V -> string) (t0 : gmap string V) (cands : list V)
    (t : gmap string V) (batch : list V) (seen : gset string) : Prop :=
  insert_all key t batch = insert_all key t0 cands
  /\ (forall k, k ∈ seen <-> In k (map key cands)).

Definition candidate {V : Type} (data : option V) : list V :=
  match data with
  | Some d => [d]
  | None => []
  end.


(** The candidate records of a list of [Starters] elements, in order. *)
Definition horse_candidates (starters : list Xml.element) : list horse_data :=
  flat_map (fun st => candidate (child_data extract_horse_data st "Horse")) starters.
Definition trainer_candidates (starters : list Xml.element) : list party_data :=
  flat_map (fun st => candidate (child_data extract_trainer_data st "Trainer")) starters.
Definition owner_candidates (starters : list Xml.element) : list party_data :=
  flat_map (fun st => candidate (child_data extract_owner_data st "Owner")) starters.

Definition file_starters (file : option Xml.element) : list Xml.element :=
  match file with
  | Some root => starters_of root
  | None => []
  end.

(** The three channels of an extractor and a database, for a run that
    started on [db0] and has offered the candidates of [starters]. *)
Definition consistent (db0 : database) (starters : list Xml.element)
    (x : extractor) (db : database) : Prop :=
  channel registration_number (horses_master db0) (horse_candidates starters)
    (horses_master db) (horse_batch x) (seen_horses x)
  /\ channel external_party_id (trainers db0) (trainer_candidates starters)
       (trainers db) (trainer_batch x) (seen_trainers x)
  /\ channel external_party_id (owners db0) (owner_candidates starters)
       (owners db) (owner_batch x) (seen_owners x).


(** Every candidate of the files inserted in order, with no batch and no
    ledger. *)
Definition insert_candidates (xml_files : list (option Xml.element)) (db : database)
  : database :=
  let starters := flat_map file_starters xml_files in
  {| horses_master :=
       insert_all registration_number (horses_master db) (horse_candidates starters);
     trainers :=
       insert_all external_party_id (trainers db) (trainer_candidates starters);
     owners :=
       insert_all external_party_id (owners db) (owner_candidates starters) |}.

End Horses.


(** ** [extract_past_performance.py]: phase 2, [PastPerformanceExtractor] *)

Module PastPerformance.

Import PyStr.

(** The track code and the race date that [process_xml_content] derives
    from the file name (pattern [SIMD20230101AQU_USA.xml]). *)
Definition file_context (filename : string) : string * string :=
  let base_filename := remove_all ".xml" (basename filename) in
  let base_filename :=
    if contains ":" base_filename
    then List.last (split_char ":" EmptyString base_filename) EmptyString
    else base_filename in
  let '(track_code, date_str) :=
    if contains "_" base_filename then
      let parts := split_char "_" EmptyString base_filename in
      (if 1 <? length parts then slice 0 3 (nth 1 parts EmptyString) else "UNK",
       if 12 <=? len (nth 0 parts EmptyString)
       then Some (slice 4 12 (nth 0 parts EmptyString)) else None)
    else if 15 <=? len base_filename then
      (slice 12 15 base_filename, Some (slice 4 12 base_filename))
    else ("UNK", None) in
  let race_date :=
    match date_str with
    | Some d =>
        if nonempty d
        then slice 0 4 d +:+ "-" +:+ slice 4 6 d +:+ "-" +:+ slice 6 8 d
        else "2023-01-01"
    | None => "2023-01-01"
    end in
  (track_code, race_date).

Record race_data : Type := {
  race_id : string;
  track_code : string;
  race_date : string;
  race_number : Z;
  race_name : option string;
  conditions_text : option string;
  post_time : option string;
  max_claim_price : option string;
  min_claim_price : option string;
  source_file : string;
  data_source : string;
  features : Standardizer.race_features
}.

(** The [try] block of [extract_race_data]; [int(race_number)] raises
    [ValueError] on a text that is not an integer. *)
Definition extract_race_data_body (race_element : Xml.element)
    (track_code race_date filename : string) : outcome (option race_data) :=
  let race_number := Xml.extract_text race_element "RaceNumber" in
  if negb (truthy race_number) then Returns None
  else
    let race_number := text_of_option race_number in
    (* create race ID *)
    let race_id := track_code +:+ "_" +:+ race_date +:+ "_" +:+ race_number in
    let raw_race_data := {|
      Standardizer.course_type := Xml.extract_text race_element "Course/CourseType/Value";
      Standardizer.race_type_text := Xml.extract_text race_element "RaceType/Description";
      Standardizer.age_restrictions := Xml.extract_text race_element "AgeRestriction/Value";
      Standardizer.sex_restrictions := Xml.extract_text race_element "SexRestriction/Value";
      Standardizer.distance := Xml.extract_text race_element "Distance/DistanceId";
      Standardizer.distance_unit := Xml.extract_text race_element "Distance/DistanceUnit/Value";
      Standardizer.purse := Xml.extract_text race_element "PurseUSA";
      Standardizer.track_condition_text := None
    |} in
    standardized_features ← Standardizer.create_standardized_race_features raw_race_data;
    number ← match PyInt.of_string race_number with
              | Some n => Returns n
              | None => Raises ValueError
              end;
    Returns (Some {|
      race_id := race_id;
      track_code := track_code;
      race_date := race_date;
      race_number := number;
      race_name := Xml.extract_text race_element "RaceName";
      conditions_text := Xml.extract_text race_element "ConditionText";
      post_time := Xml.extract_text race_element "PostTime";
      max_claim_price := Xml.extract_text race_element "MaximumClaimPrice";
      min_claim_price := Xml.extract_text race_element "MinimumClaimPrice";
      source_file := filename;
      data_source := "past_performance";
      features := standardized_features
    |}).

(** Extract standardized race data from XML race element: any exception
    makes the result [None]. *)
Definition extract_race_data (race_element : Xml.element)
    (track_code race_date filename : string) : option race_data :=
  except_all (extract_race_data_body race_element track_code race_date filename).

(** The loop of [process_xml_content] over the races of a document, as far
    as the race batch and the ledger [seen_races] go (the entries and the
    equipment records of a new race are appended to their own batches). *)
Definition process_race (track_code race_date filename : string)
    (acc : list race_data * gset string) (race_element : Xml.element)
  : list race_data * gset string :=
  let '(race_batch, seen_races) := acc in
  match extract_race_data race_element track_code race_date filename with
  | Some r =>
      if decide (race_id r ∈ seen_races) then acc
      else (race_batch ++ [r], {[race_id r]} ∪ seen_races)
  | None => acc
  end.

Definition process_xml_content (acc : list race_data * gset string)
    (root : Xml.element) (filename : string) : list race_data * gset string :=
  let '(track_code, race_date) := file_context filename in
  fold_left (process_race track_code race_date filename)
    (Xml.findall_descendants root "Race") acc.

(** The race keys phase 2 creates for one document, with a fresh ledger. *)
Definition race_keys (root : Xml.element) (filename : string) : list string :=
  map race_id (fst (process_xml_content ([], ∅) root filename)).

(** The batch writer.  The entry and equipment records are kept abstract:
    nothing below depends on their fields. *)
Section Batch.

Context {entry_data equipment_record database : Type}.

Inductive statement : Type :=
| InsertRace (r : race_data)
| InsertEntry (e : entry_data)
| InsertEquipment (q : equipment_record).

Variable execute : statement -> database -> database * option exn.
Variable commit_raises : database -> bool.

(** Insert batched data into database. *)
Definition batch_insert_data (race_batch : list race_data)
    (entry_batch : list entry_data) (equipment_batch : list equipment_record)
    (db : database) : database :=
  Sqlite.flush execute commit_raises
    (map InsertRace race_batch ++
     map InsertEntry entry_batch ++
     map InsertEquipment equipment_batch)
    db.

End Batch.

(** *** Entries *)

Module Entry.

Local Open Scope Z_scope.

(** The value of an entry field after the conversion of the numeric
    fields: [None], a text, an integer or a float. *)
Inductive field_value : Type :=
| FNone
| FText (s : string)
| FInt (z : Z)
| FFloat (x : PyFloat.float).

Definition field_of_text (v : option string) : field_value :=
  match v with
  | Some s => FText s
  | None => FNone
  end.

(** The [try] block of the conversion loop, on [str(entry_data[field])],
    for a field other than the morning line odds: a text with a slash gives
    [None], a text with a point is read by [float], any other by [int], and
    a [ValueError] gives [None]. *)
Definition numeric_of_str (s : string) : field_value :=
  let value_str := remove_all "$" (remove_all "," s) in
  if contains "/" value_str then FNone
  else if contains "." value_str then
    match PyFloat.of_string value_str with
    | Returns x => FFloat x
    | Raises _ => FNone
    end
  else
    match PyInt.of_string value_str with
    | Some z => FInt z
    | None => FNone
    end.

(** The conversion of a field that holds a text or [None] ([post_position],
    [claim_price]): a falsy value is left as it is. *)
Definition convert_text (v : option string) : field_value :=
  if truthy v then numeric_of_str (text_of_option v) else field_of_text v.

(** The conversion of a field that holds an integer or [None]
    ([weight_lbs]). *)
Definition convert_int (v : option Z) : field_value :=
  match v with
  | Some z => if z =? 0 then FInt z else numeric_of_str (str_of_Z z)
  | None => FNone
  end.

Record entry_data : Type := {
  entry_id : string;
  race_id : string;
  registration_number : string;
  program_number : option string;
  post_position : field_value;
  age_at_race : option Z;
  claim_price : field_value;
  morning_line_odds : option string;
  scratched : bool;
  trainer_id : option string;
  owner_id : option string;
  source_file : string;
  data_source : string;
  equipment_codes : list string;
  has_blinkers : bool;
  has_lasix : bool;
  has_tongue_tie : bool;
  has_nasal_strip : bool;
  weight_lbs : field_value;
  medication_codes : list string
}.

(** [int(race_id.split('_')[1][:4])]: [None] when the index is out of range
    or the text is not an integer ([IndexError], [ValueError]). *)
Definition race_year_of (race_id : string) : option Z :=
  match nth_error (split_char "_" EmptyString race_id) 1 with
  | Some part => PyInt.of_string (slice 0 4 part)
  | None => None
  end.

(** [race_year - int(year_of_birth)] when there is a year of birth and it is
    an integer. *)
Definition age_at (race_year : Z) (year_of_birth : option string) : option Z :=
  if truthy year_of_birth then
    match PyInt.of_string (text_of_option year_of_birth) with
    | Some y => Some (race_year - y)
    | None => None
    end
  else None.

(** Extract standardized entry data from XML starter element.  Any exception
    ends in the handler, which returns [None]; the only statement of the
    body that can raise is the computation of the race year. *)
Definition extract_entry_data (starter_element : Xml.element) (race_id : string)
  : option entry_data :=
  match Xml.find starter_element "Horse" with
  | None => None
  | Some horse_element =>
      let registration_number := Xml.extract_text horse_element "RegistrationNumber" in
      if negb (truthy registration_number) then None
      else
        let registration_number := text_of_option registration_number in
        let horse_features :=
          Standardizer.create_standardized_horse_features
            {| Standardizer.equipment := Xml.extract_text starter_element "Equipment/Value";
               Standardizer.medication := Xml.extract_text starter_element "Medication/Value";
               Standardizer.weight := Xml.extract_text starter_element "WeightCarried" |} in
        let year_of_birth := Xml.extract_text horse_element "YearOfBirth" in
        match race_year_of race_id with
        | None => None
        | Some race_year =>
            Some {|
              entry_id := race_id +:+ "_" +:+ registration_number;
              race_id := race_id;
              registration_number := registration_number;
              program_number := Xml.extract_text starter_element "ProgramNumber";
              post_position :=
                convert_text (Xml.extract_text starter_element "PostPosition");
              age_at_race := age_at race_year year_of_birth;
              claim_price :=
                convert_text (Xml.extract_text starter_element "ClaimedPriceUSA");
              morning_line_odds := Xml.extract_text starter_element "Odds";
              scratched :=
                match Xml.extract_text starter_element "ScratchIndicator/Value" with
                | Some _ => true
                | None => false
                end;
              trainer_id := Xml.extract_text starter_element "Trainer/ExternalPartyId";
              owner_id := Xml.extract_text starter_element "Owner/ExternalPartyId";
              source_file := "";
              data_source := "past_performance";
              equipment_codes := Standardizer.equipment_codes horse_features;
              has_blinkers := Standardizer.has_blinkers horse_features;
              has_lasix := Standardizer.has_lasix horse_features;
              has_tongue_tie := Standardizer.has_tongue_tie horse_features;
              has_nasal_strip := Standardizer.has_nasal_strip horse_features;
              weight_lbs := convert_int (Standardizer.weight_lbs horse_features);
              medication_codes := Standardizer.medication_codes horse_features
            |}
        end
  end.

(** [entry_data['source_file'] = filename] *)
Definition set_source_file (filename : string) (e : entry_data) : entry_data :=
  {| entry_id := entry_id e; race_id := race_id e;
     registration_number := registration_number e;
     program_number := program_number e; post_position := post_position e;
     age_at_race := age_at_race e; claim_price := claim_price e;
     morning_line_odds := morning_line_odds e; scratched := scratched e;
     trainer_id := trainer_id e; owner_id := owner_id e;
     source_file := filename; data_source := data_source e;
     equipment_codes := equipment_codes e; has_blinkers := has_blinkers e;
     has_lasix := has_lasix e; has_tongue_tie := has_tongue_tie e;
     has_nasal_strip := has_nasal_strip e; weight_lbs := weight_lbs e;
     medication_codes := medication_codes e |}.

End Entry.

(** *** Equipment records *)

Module Equipment.

Record equipment_record : Type := {
  race_id : string;
  registration_number : string;
  equipment_code : string;
  equipment_description : string;
  is_first_time : bool
}.

(** Extract individual equipment records for junction table: one record
    per equipment code of the entry, in order. *)
Definition extract_equipment_records (entry_data : Entry.entry_data)
  : list equipment_record :=
  map (fun equipment_code =>
         {| race_id := Entry.race_id entry_data;
            registration_number := Entry.registration_number entry_data;
            equipment_code := equipment_code;
            equipment_description := title (replace_char "_" " " equipment_code);
            is_first_time := contains "FIRST_TIME" equipment_code |})
      (Entry.equipment_codes entry_data).

End Equipment.

(** *** The three batches of a document *)

Module Document.

(** The shared state [process_xml_content] works on: the three batches and
    the ledger of race keys; and the two counts it returns. *)
Record state : Type := {
  race_batch : list race_data;
  entry_batch : list Entry.entry_data;
  equipment_batch : list Equipment.equipment_record;
  seen_races : gset string;
  races_count : nat;
  entries_count : nat
}.

(** [PastPerformanceExtractor(...)]: empty batches and an empty ledger. *)
Definition initial : state :=
  {| race_batch := []; entry_batch := []; equipment_batch := []; seen_races := ∅;
     races_count := 0; entries_count := 0 |}.

(** The body of the loop over the [Starters] elements of a new race. *)
Definition process_starter (race_id filename : string) (st : state)
    (starter_element : Xml.element) : state :=
  match Entry.extract_entry_data starter_element race_id with
  | Some entry_data =>
      let entry_data := Entry.set_source_file filename entry_data in
      {| race_batch := race_batch st;
         entry_batch := entry_batch st ++ [entry_data];
         equipment_batch :=
           equipment_batch st ++ Equipment.extract_equipment_records entry_data;
         seen_races := seen_races st;
         races_count := races_count st;
         entries_count := S (entries_count st) |}
  | None => st
  end.

(** The body of the loop over the [Race] elements: a race whose key is not
    in the ledger is appended, and only then are its starters read. *)
Definition process_race (track_code race_date filename : string) (st : state)
    (race_element : Xml.element) : state :=
  match extract_race_data race_element track_code race_date filename with
  | Some r =>
      if decide (race_id r ∈ seen_races st) then st
      else
        fold_left (process_starter (race_id r) filename)
          (Xml.findall race_element "Starters")
          {| race_batch := race_batch st ++ [r];
             entry_batch := entry_batch st;
             equipment_batch := equipment_batch st;
             seen_races := {[race_id r]} ∪ seen_races st;
             races_count := S (races_count st);
             entries_count := entries_count st |}
  | None => st
  end.

(** Process XML content and extract race/entry data, for a document that
    parses; the counts start at zero for each document. *)
Definition process_xml_content (st : state) (root : Xml.element) (filename : string)
  : state :=
  let '(track_code, race_date) := file_context filename in
  fold_left (process_race track_code race_date filename)
    (Xml.findall_descendants root "Race")
    {| race_batch := race_batch st; entry_batch := entry_batch st;
       equipment_batch := equipment_batch st; seen_races := seen_races st;
       races_count := 0; entries_count := 0 |}.

(** The batches refer to one another: the races of the batch have distinct
    keys, which the ledger holds; every entry of the batch belongs to a
    race of the batch and comes from the same file; and every equipment
    record belongs to an entry of the batch and names one of its codes. *)
Definition linked (st : state) : Prop :=
  NoDup (map race_id (race_batch st))
  /\ (forall r, In r (race_batch st) -> race_id r ∈ seen_races st)
  /\ (forall e, In e (entry_batch st) ->
        exists r, In r (race_batch st)
          /\ Entry.race_id e = race_id r
          /\ Entry.source_file e = source_file r)
  /\ (forall q, In q (equipment_batch st) ->
        exists e, In e (entry_batch st)
          /\ Equipment.race_id q = Entry.race_id e
          /\ Equipment.registration_number q = Entry.registration_number e
          /\ In (Equipment.equipment_code q) (Entry.equipment_codes e)).

End Document.

End PastPerformance.

(** ** [extract_result_charts.py]: phase 3, [ResultChartExtractor] *)

Module ResultCharts.

Import PyStr.

(** Parse time string to decimal seconds. *)
Definition parse_time (time_str : option string) : option PyFloat.float :=
  if negb (truthy time_str) then None
  else
    let time_str := strip (text_of_option time_str) in
    except_all
      (if contains ":" time_str then
         let parts := split_char ":" EmptyString time_str in
         minutes ← PyFloat.of_string (nth 0 parts EmptyString);
         seconds ← PyFloat.of_string (nth 1 parts EmptyString);
         Returns (Some (PyFloat.add (PyFloat.mul_int minutes 60) seconds))
       else
         x ← PyFloat.of_string time_str; Returns (Some x)).

(** Parse numeric string, handling various formats. *)
Definition parse_numeric (value_str : option string) : option PyFloat.float :=
  if negb (truthy value_str) then None
  else
    let cleaned := strip (remove_all "$" (remove_all "," (text_of_option value_str))) in
    if String.eqb cleaned "" || String.eqb cleaned "N/A" then None
    else except_all (x ← PyFloat.of_string cleaned; Returns (Some x)).

Record race_update : Type := {
  race_id : string;
  winning_time : option PyFloat.float;
  final_fraction_time : option PyFloat.float;
  track_condition : string;
  weather : option string;
  wind_speed : option PyFloat.float;
  wind_direction : option string
}.

(** The body of the loop over the [RACE] elements of a chart. *)
Definition race_update_of (track_code race_date : string) (race_element : Xml.element)
  : option race_update :=
  let race_number := Xml.get race_element "NUMBER" in
  if negb (truthy race_number) then None
  else
    let race_id := track_code +:+ "_" +:+ race_date +:+ "_" +:+ text_of_option race_number in
    Some {|
      race_id := race_id;
      winning_time := parse_time (Xml.extract_text race_element "WIN_TIME");
      final_fraction_time := parse_time (Xml.extract_text race_element "FRACTION_5");
      track_condition :=
        Standardizer.standardize_track_condition (Xml.extract_text race_element "TRK_COND");
      weather := Xml.extract_text race_element "WEATHER";
      wind_speed := parse_numeric (Xml.extract_text race_element "WIND_SPEED");
      wind_direction := Xml.extract_text race_element "WIND_DIRECTION"
    |}.

(** Extract race result updates from chart element.  (The fraction and
    wagering records of each race go to their own batches.) *)
Definition extract_race_updates (chart_element : Xml.element) (filename : string)
  : option (list race_update) :=
  let race_date := Xml.get chart_element "RACE_DATE" in
  if negb (truthy race_date) then None
  else
    match Xml.find chart_element "TRACK" with
    | None => None
    | Some track_element =>
        let track_code := Xml.extract_text track_element "CODE" in
        if negb (truthy track_code) then None
        else
          Some (omap (race_update_of (text_of_option track_code) (text_of_option race_date))
                  (Xml.findall chart_element "RACE"))
    end.

(** The race keys phase 3 addresses its updates to, for one chart. *)
Definition race_keys (chart_element : Xml.element) (filename : string) : list string :=
  map race_id (default [] (extract_race_updates chart_element filename)).

(** [ORDER BY year_of_birth DESC LIMIT 1] as one pass over the rows that
    keeps the best row met so far.  SQL leaves open the order of rows with
    equal sort keys; the model keeps the first of them. *)
Definition better (best : option Horses.horse_data) (row : Horses.horse_data)
  : option Horses.horse_data :=
  match best with
  | None => Some row
  | Some b =>
      if Sqlite.value_leb (Horses.year_of_birth row) (Horses.year_of_birth b)
      then Some b else Some row
  end.

(** [[
    SELECT registration_number FROM horses_master
    WHERE horse_name = ? ORDER BY year_of_birth DESC LIMIT 1
    ]] *)
Definition select_by_name (db : Horses.database) (horse_name : string)
  : option Horses.horse_data :=
  fold_left better
    (List.filter
       (fun row => bool_decide (Horses.horse_name row = Some horse_name))
       (map snd (map_to_list (Horses.horses_master db))))
    None.

(** Look up registration number by horse name.  The database is [None]
    when connecting or querying raises: the function logs the error and
    returns [None]. *)
Definition lookup_registration_number (db : option Horses.database) (horse_name : string)
  : option string :=
  match db with
  | Some db =>
      match select_by_name db horse_name with
      | Some result => Some (Horses.registration_number result)
      | None => None
      end
  | None => None
  end.

(** *** Fractional times *)

Module Fraction.

Local Open Scope Z_scope.

Record fraction_record : Type := {
  race_id : string;
  call_position : Z;
  distance_yards : option Z;
  fraction_time : PyFloat.float;
  leader_at_call : option string
}.

Definition distances : list (Z * Z) :=
  [ (1, 440); (2, 880); (3, 1320); (4, 1760); (5, 2200) ].

(** Get approximate distance in yards for fraction call: [distances.get]. *)
Definition get_fraction_distance (call_position : Z) : option Z :=
  snd <$> List.find (fun kv => fst kv =? call_position) distances.

(** The body of the loop over the calls: a record when the fraction time
    is truthy (there is one and it is not zero). *)
Definition fraction_of (race_element : Xml.element) (race_id : string) (i : Z)
  : option fraction_record :=
  match parse_time (Xml.extract_text race_element ("FRACTION_" +:+ str_of_Z i)) with
  | Some fraction_time =>
      if PyFloat.nonzero fraction_time then
        Some {| race_id := race_id; call_position := i;
                distance_yards := get_fraction_distance i;
                fraction_time := fraction_time; leader_at_call := None |}
      else None
  | None => None
  end.

(** Extract fractional times from race ([FRACTION_1] through [FRACTION_5]). *)
Definition extract_race_fractions (race_element : Xml.element) (race_id : string)
  : list fraction_record :=
  omap (fraction_of race_element race_id) [1; 2; 3; 4; 5].

End Fraction.

(** *** Position calls *)

Module PositionCall.

Local Open Scope Z_scope.

Definition call_mapping : list (string * Z) :=
  [ ("1", 1); ("2", 2); ("3", 3); ("4", 4); ("5", 5); ("FINAL", 6) ].

(** Map call description to numeric position.  The default of [.get] is
    computed before the look-up: [int(which_call)] for a text of digits,
    0 otherwise. *)
Definition map_call_position (which_call : string) : outcome Z :=
  otherwise ←
    (if str_isdigit which_call then
       match PyInt.of_string which_call with
       | Some n => Returns n
       | None => Raises ValueError
       end
     else Returns 0);
  Returns (match Standardizer.dict_get call_mapping which_call with
           | Some position => position
           | None => otherwise
           end).

Record call_record : Type := {
  race_id : string;
  registration_number : string;
  call_position : Z;
  position : PyFloat.float;
  lengths_behind : option PyFloat.float
}.

(** The body of the loop over the [POINT_OF_CALL] elements. *)
Definition call_of (race_id registration_number : string) (call_element : Xml.element)
  : outcome (option call_record) :=
  let which_call := Xml.get call_element "WHICH" in
  let position := parse_numeric (Xml.extract_text call_element "POSITION") in
  let lengths_behind := parse_numeric (Xml.extract_text call_element "LENGTHS") in
  match position with
  | Some position =>
      if truthy which_call then
        call_position ← map_call_position (text_of_option which_call);
        Returns (Some {| race_id := race_id; registration_number := registration_number;
                         call_position := call_position; position := position;
                         lengths_behind := lengths_behind |})
      else Returns None
  | None => Returns None
  end.

(** The loop inside its [try]: an exception ends it, and the records made
    so far are returned. *)
Fixpoint calls_loop (race_id registration_number : string)
    (call_elements : list Xml.element) (position_calls : list call_record)
  : list call_record :=
  match call_elements with
  | [] => position_calls
  | call_element :: rest =>
      match call_of race_id registration_number call_element with
      | Returns (Some call_record) =>
          calls_loop race_id registration_number rest (position_calls ++ [call_record])
      | Returns None => calls_loop race_id registration_number rest position_calls
      | Raises _ => position_calls
      end
  end.

(** Extract position calls for individual horse. *)
Definition extract_position_calls (entry_element : Xml.element)
    (race_id registration_number : string) : list call_record :=
  calls_loop race_id registration_number (Xml.findall entry_element "POINT_OF_CALL") [].

End PositionCall.

(** *** Entry updates *)

Module EntryUpdate.

Record entry_update : Type := {
  entry_id : string;
  race_id : string;
  registration_number : string;
  official_finish_position : option PyFloat.float;
  final_time : option PyFloat.float;
  speed_rating : option PyFloat.float;
  win_payoff : option PyFloat.float;
  place_payoff : option PyFloat.float;
  show_payoff : option PyFloat.float;
  actual_odds : option PyFloat.float;
  race_comments : option string;
  jockey_id : option string;
  trainer_id : option string
}.

(** The body of the loop over the [ENTRY] elements of a race: the update of
    the entry and its position calls, or nothing when the entry has no name
    or the look-up by name finds no registration number. *)
Definition entry_update_of (db : option Horses.database) (race_id : string)
    (entry_element : Xml.element)
  : option (entry_update * list PositionCall.call_record) :=
  let horse_name := Xml.extract_text entry_element "NAME" in
  if negb (truthy horse_name) then None
  else
    let registration_number := lookup_registration_number db (text_of_option horse_name) in
    if negb (truthy registration_number) then None
    else
      let registration_number := text_of_option registration_number in
      Some
        ({| entry_id := race_id +:+ "_" +:+ registration_number;
            race_id := race_id;
            registration_number := registration_number;
            official_finish_position :=
              parse_numeric (Xml.extract_text entry_element "OFFICIAL_FIN");
            final_time := parse_time (Xml.extract_text entry_element "FINISH_TIME");
            speed_rating := parse_numeric (Xml.extract_text entry_element "SPEED_RATING");
            win_payoff := parse_numeric (Xml.extract_text entry_element "WIN_PAYOFF");
            place_payoff := parse_numeric (Xml.extract_text entry_element "PLACE_PAYOFF");
            show_payoff := parse_numeric (Xml.extract_text entry_element "SHOW_PAYOFF");
            actual_odds := parse_numeric (Xml.extract_text entry_element "DOLLAR_ODDS");
            race_comments := Xml.extract_text entry_element "COMMENT";
            jockey_id := Xml.extract_text entry_element "JOCKEY/KEY";
            trainer_id := Xml.extract_text entry_element "TRAINER/KEY" |},
         PositionCall.extract_position_calls entry_element race_id registration_number).

(** The race key the entries of a race are given.  Nothing here tests that
    the three parts are there: a missing one is formatted as the text
    [None]. *)
Definition entry_race_id (chart_element race_element : Xml.element) : string :=
  let race_date := Xml.get chart_element "RACE_DATE" in
  let track_code :=
    match Xml.find chart_element "TRACK" with
    | Some track_element => Xml.extract_text track_element "CODE"
    | None => None   (* [extract_text] on [None] catches its own exception *)
    end in
  let race_number := Xml.get race_element "NUMBER" in
  str_of_option track_code +:+ "_" +:+ str_of_option race_date +:+ "_"
    +:+ str_of_option race_number.

(** The updates and the position calls of the entries of one race. *)
Definition race_entry_updates (db : option Horses.database)
    (chart_element race_element : Xml.element)
  : list (entry_update * list PositionCall.call_record) :=
  omap (entry_update_of db (entry_race_id chart_element race_element))
    (Xml.findall race_element "ENTRY").

(** Extract entry result updates: the updates, and the position calls the
    function appends to [position_calls_batch].  [db] is the state of
    [horses_master] the look-ups see ([None] when they raise). *)
Definition extract_entry_updates (db : option Horses.database)
    (chart_element : Xml.element) (filename : string)
  : list entry_update * list PositionCall.call_record :=
  let found :=
    flat_map (race_entry_updates db chart_element) (Xml.findall chart_element "RACE") in
  (map fst found, flat_map snd found).

End EntryUpdate.

(** *** Wagering *)

Module Wagering.

Record wagering_record : Type := {
  race_id : string;
  wager_type : string;
  pool_total : option PyFloat.float;
  winning_combinations : option string;
  payout : option PyFloat.float;
  number_of_winners : option PyFloat.float
}.

(** The body of the loop over the [WAGER] elements. *)
Definition wager_of (race_id : string) (wager : Xml.element) : option wagering_record :=
  let wager_type := Xml.extract_text wager "WAGER_TYPE" in
  if truthy wager_type then
    Some {| race_id := race_id;
            wager_type := text_of_option wager_type;
            pool_total := parse_numeric (Xml.extract_text wager "POOL_TOTAL");
            winning_combinations := Xml.extract_text wager "WINNERS";
            payout := parse_numeric (Xml.extract_text wager "PAYOFF");
            number_of_winners := parse_numeric (Xml.extract_text wager "NUM_TICKETS") |}
  else None.

(** Extract exotic wagering pools and payouts. *)
Definition extract_wagering_data (race_element : Xml.element) (race_id : string)
  : list wagering_record :=
  match Xml.find race_element "EXOTIC_WAGERS" with
  | Some exotic_wagers => omap (wager_of race_id) (Xml.findall exotic_wagers "WAGER")
  | None => []
  end.

End Wagering.

(** *** The batch writer *)

Inductive statement : Type :=
| UpdateRace (u : race_update)
| UpdateEntry (u : EntryUpdate.entry_update)
| InsertWagering (w : Wagering.wagering_record)
| InsertFraction (f : Fraction.fraction_record)
| InsertPositionCall (c : PositionCall.call_record).

Section Batch.

Context {database : Type}.

(** The behaviour of the store: see [Sqlite.flush]. *)
Variable execute : statement -> database -> database * option exn.
Variable commit_raises : database -> bool.

(** Update database with result data: the updates of the races and of the
    entries, then the three inserts, in one transaction. *)
Definition batch_update_data (race_updates : list race_update)
    (entry_updates : list EntryUpdate.entry_update)
    (wagering_batch : list Wagering.wagering_record)
    (fraction_batch : list Fraction.fraction_record)
    (position_calls_batch : list PositionCall.call_record)
    (db : database) : database :=
  Sqlite.flush execute commit_raises
    (map UpdateRace race_updates ++
     map UpdateEntry entry_updates ++
     map InsertWagering wagering_batch ++
     map InsertFraction fraction_batch ++
     map InsertPositionCall position_calls_batch)
    db.

End Batch.

End ResultCharts.

(** ** Furlongs in hundredths: the specification's formula and the code's *)

Module Furlongs.

Local Open Scope Z_scope.

(** [parse_distance(v, "F")] for an integer [v] given in decimal. *)
Definition parsed (v : Z) : outcome (option Z) :=
  Standardizer.parse_distance (Some (PyStr.str_of_Z v)) (Some "F"%string).

(** The float [v / 100 * 220] of the furlong branch. *)
Definition product (v : Z) : PyFloat.float :=
  PyFloat.mul_int (PyFloat.div_int (PyFloat.of_Z v) 100) 220.

(** The specification's [round(v/100 * 220)], in exact arithmetic. *)
Definition rounded (v : Z) : Z := PyFloat.round_half_even (v * 220) 100.

(** The exact quotient [v * 220 / 100] rounded down. *)
Definition floored (v : Z) : Z := v * 220 / 100.

(** The code's result is the exact quotient rounded down, or one less when
    [v] is a multiple of 5: as a test on one input. *)
Definition near_floor (v : Z) : bool :=
  match parsed v with
  | Returns (Some r) =>
      (floored v - 1 <=? r) && (r <=? floored v) && ((v mod 5 =? 0) || (r =? floored v))
  | _ => false
  end.

End Furlongs.

(** ** Concrete inputs *)

Module Scenario.

Definition leaf (tag text : string) : Xml.element := Xml.Element tag [] (Some text) [].
Definition node (tag : string) (children : list Xml.element) : Xml.element :=
  Xml.Element tag [] None children.

(** A pre-race document of the file [SIMD20230101AQU_USA.xml] (Aqueduct,
    1 January 2023) with race 3 over six furlongs. *)
Definition pp_filename : string := "2023 PPs/SIMD20230101AQU_USA.xml".

Definition pp_document : Xml.element :=
  node "EntryRaceCard"
    [ node "Race"
        [ leaf "RaceNumber" "3";
          node "Distance"
            [ leaf "DistanceId" "600";
              node "DistanceUnit" [ leaf "Value" "F" ] ] ] ].

(** The result chart of the same race. *)
Definition rc_filename : string := "2023 Result Charts/aqu20230101tch.xml".

Definition rc_document : Xml.element :=
  Xml.Element "CHART" [("RACE_DATE", "2023-01-01")] None
    [ node "TRACK" [ leaf "CODE" "AQU" ];
      Xml.Element "RACE" [("NUMBER", "3")] None [] ].

(** Horses. *)
Definition horse (reg name : string) (year : Sqlite.value) : Horses.horse_data :=
  {| Horses.registration_number := reg; Horses.horse_name := Some name;
     Horses.foaling_date := None; Horses.year_of_birth := year;
     Horses.foaling_area := None; Horses.breed_type := None;
     Horses.color_code := None; Horses.sex_code := None;
     Horses.breeder_name := None; Horses.sire_registration_number := None;
     Horses.dam_registration_number := None |}.

Definition empty_database : Horses.database :=
  {| Horses.horses_master := ∅; Horses.trainers := ∅; Horses.owners := ∅ |}.

(** Two horses of the same name, born in 1970 and in 2015, and a third
    horse. *)
Definition two_namesakes : Horses.database :=
  {| Horses.horses_master :=
       <["R1" := horse "R1" "Secretariat" (Sqlite.INTEGER 1970)]>
         (<["R2" := horse "R2" "Secretariat" (Sqlite.INTEGER 2015)]>
            (<["R3" := horse "R3" "Zenyatta" Sqlite.NULL]> ∅));
     Horses.trainers := ∅; Horses.owners := ∅ |}.

(** A store on which the write of the horse R2 raises, every other write
    succeeding. *)
Definition execute_failing_on_R2 (stmt : Horses.statement) (db : Horses.database)
  : Horses.database * option exn :=
  match stmt with
  | Horses.InsertHorse h =>
      if String.eqb (Horses.registration_number h) "R2" then (db, Some SqliteError)
      else Horses.execute_ok stmt db
  | _ => Horses.execute_ok stmt db
  end.

(** A starter: the horse R1, born in 2019, with its trainer and its owner,
    in post position 4 with 122 pounds, blinkers and first-time Lasix. *)
Definition starter_R1 : Xml.element :=
  node "Starters"
    [ node "Horse"
        [ leaf "RegistrationNumber" "R1";
          leaf "HorseName" "Secretariat";
          leaf "YearOfBirth" "2019" ];
      node "Trainer" [ leaf "ExternalPartyId" "T1" ];
      node "Owner" [ leaf "ExternalPartyId" "O1" ];
      leaf "PostPosition" "4";
      leaf "WeightCarried" "122";
      node "Equipment" [ leaf "Value" "B,L1" ] ].

(** A pre-race document of the same file with that starter in race 3. *)
Definition pp_document_with_starter : Xml.element :=
  node "EntryRaceCard"
    [ node "Race"
        [ leaf "RaceNumber" "3";
          node "Distance"
            [ leaf "DistanceId" "600";
              node "DistanceUnit" [ leaf "Value" "F" ] ];
          starter_R1 ] ].

(** A result chart of race 3 with one entry, the horse Zenyatta, and its
    position at the first call; and the same chart without its date. *)
Definition rc_race_with_entry : Xml.element :=
  Xml.Element "RACE" [("NUMBER", "3")] None
    [ node "ENTRY"
        [ leaf "NAME" "Zenyatta";
          leaf "OFFICIAL_FIN" "1";
          Xml.Element "POINT_OF_CALL" [("WHICH", "1")] None [ leaf "POSITION" "2" ] ] ].

Definition rc_document_with_entry : Xml.element :=
  Xml.Element "CHART" [("RACE_DATE", "2023-01-01")] None
    [ node "TRACK" [ leaf "CODE" "AQU" ]; rc_race_with_entry ].

Definition rc_document_without_date : Xml.element :=
  Xml.Element "CHART" [] None
    [ node "TRACK" [ leaf "CODE" "AQU" ]; rc_race_with_entry ].

(** A store of any kind on which every write raises. *)
Definition execute_failing {Stmt : Type} (stmt : Stmt) (db : nat) : nat * option exn :=
  (S db, Some SqliteError).

(** An extractor whose horse batch holds R1 and then R2. *)
Definition extractor_with_R1_R2 : Horses.extractor :=
  {| Horses.horse_batch :=
       [ horse "R1" "Secretariat" (Sqlite.INTEGER 1970);
         horse "R2" "Secretariat" (Sqlite.INTEGER 2015) ];
     Horses.trainer_batch := []; Horses.owner_batch := [];
     Horses.seen_horses := {["R1"; "R2"]};
     Horses.seen_trainers := ∅; Horses.seen_owners := ∅;
     Horses.files_processed := 1; Horses.horses_extracted := 2;
     Horses.trainers_extracted := 0; Horses.owners_extracted := 0;
     Horses.errors := 0 |}.

End Scenario.

(** * Properties *)

(** Case analysis on every test of the goal, outermost first. *)
Ltac case_tests :=
  repeat match goal with
         | |- context [if ?b then _ else _] => destruct b
         end.

(** ** Distance *)

Section Distance.

Import PyStr Standardizer.
Local Open Scope Z_scope.

(** The furlong branch, for any text that [float] accepts with a value of
    at least 100: the result is [int(distance / 100 * 220)]. *)
Lemma parse_distance_furlong_branch (s : string) (d : PyFloat.float) :
  PyFloat.of_string (strip s) = Returns d ->
  PyFloat.ge_int d 100 = true ->
  parse_distance (Some s) (Some "F"%string) =
    except_value_type (int_yards (PyFloat.mul_int (PyFloat.div_int d 100) 220)).
Proof.
  intros Hparse Hge.
  assert (Hs : nonempty s = true).
  { destruct s; [ | reflexivity ]. vm_compute in Hparse. discriminate. }
  unfold parse_distance, parse_distance_body. cbn [truthy text_of text_of_option].
  rewrite Hs. cbn [negb]. rewrite Hparse. cbn [mbind outcome_bind].
  cbn [truthy nonempty negb text_of text_of_option].
  change (mem (upper "F") furlong_units) with true. cbn iota.
  rewrite Hge. reflexivity.
Qed.

Lemma near_floor_upto : forallb Furlongs.near_floor (seqZ 100 4901) = true.
Proof. vm_compute. reflexivity. Qed.

Lemma near_floor_spec (v : Z) :
  Furlongs.near_floor v = true ->
  exists r, parse_distance (Some (str_of_Z v)) (Some "F"%string) = Returns (Some r)
    /\ v * 220 / 100 - 1 <= r <= v * 220 / 100
    /\ (v mod 5 <> 0 -> r = v * 220 / 100).
Proof.
  unfold Furlongs.near_floor, Furlongs.parsed, Furlongs.floored.
  destruct (parse_distance _ _) as [[r | ] | ]; try discriminate.
  intros H. apply andb_prop in H as [H H3]. apply andb_prop in H as [H1 H2].
  exists r. split; [ reflexivity | ]. split; [ lia | ].
  intros Hmod. apply orb_prop in H3 as [H3 | H3]; lia.
Qed.

(** C1, as amended: for every furlong input of at least 100,
    [parse_distance(v, "F")] is [int(v / 100 * 220)], the float product
    truncated toward zero and not rounded.  For the integers from 100 to
    5000 this is the exact quotient [v * 220 / 100] rounded down, or one
    less at some multiples of 5; in particular 600 gives 1320 and 550
    gives 1210. *)
Theorem parse_distance_furlong_hundredths :
  (forall (s : string) (d : PyFloat.float),
      PyFloat.of_string (strip s) = Returns d ->
      PyFloat.ge_int d 100 = true ->
      parse_distance (Some s) (Some "F"%string) =
        except_value_type
          (y ← PyFloat.trunc (PyFloat.mul_int (PyFloat.div_int d 100) 220);
           Returns (Some y)))
  /\ (forall v : Z, 100 <= v <= 5000 ->
        exists r, parse_distance (Some (str_of_Z v)) (Some "F"%string) = Returns (Some r)
          /\ v * 220 / 100 - 1 <= r <= v * 220 / 100
          /\ (v mod 5 <> 0 -> r = v * 220 / 100))
  /\ parse_distance (Some "600"%string) (Some "F"%string) = Returns (Some 1320)
  /\ parse_distance (Some "550"%string) (Some "F"%string) = Returns (Some 1210).
Proof.
  split; [ exact parse_distance_furlong_branch | ].
  split; [ | split; vm_compute; reflexivity ].
  intros v Hv. apply near_floor_spec.
  pose proof near_floor_upto as Hall.
  rewrite forallb_forall in Hall. apply Hall.
  apply list_elem_of_In, elem_of_seqZ. lia.
Qed.

(** The theorem at 600: the text is a float of at least 100, and the
    number is inside the range. *)
Lemma parse_distance_furlong_hundredths_witness :
  parse_distance (Some "600"%string) (Some "F"%string) =
    except_value_type
      (y ← PyFloat.trunc (PyFloat.mul_int (PyFloat.div_int (PyFloat.of_Z 600) 100) 220);
       Returns (Some y))
  /\ exists r, parse_distance (Some (str_of_Z 600)) (Some "F"%string) = Returns (Some r)
       /\ 600 * 220 / 100 - 1 <= r <= 600 * 220 / 100
       /\ (600 mod 5 <> 0 -> r = 600 * 220 / 100).
Proof.
  split.
  - apply (proj1 parse_distance_furlong_hundredths "600"%string (PyFloat.of_Z 600));
      vm_compute; reflexivity.
  - apply (proj1 (proj2 parse_distance_furlong_hundredths) 600). lia.
Defined.

(** C1, as stated, fails at 103: the code truncates 226.6 to 226, where
    rounding gives 227 (in exact arithmetic and on the float). *)
Lemma parse_distance_furlong_not_rounded :
  parse_distance (Some "103"%string) (Some "F"%string) = Returns (Some 226)
  /\ Furlongs.rounded 103 = 227
  /\ PyFloat.round (Furlongs.product 103) = Returns 227
  /\ parse_distance (Some (str_of_Z 103)) (Some "F"%string)
     <> Returns (Some (Furlongs.rounded 103)).
Proof. repeat split; vm_compute; try reflexivity. discriminate. Qed.

(** C5 at its failing input: an infinite distance is converted by [int],
    which raises [OverflowError]; the handler of [parse_distance] names
    [ValueError] and [TypeError] only. *)
Theorem parse_distance_raises_on_infinity :
  parse_distance (Some "inf"%string) (Some "Y"%string) = Raises OverflowError
  /\ parse_distance (Some "1e999"%string) None = Raises OverflowError
  /\ create_standardized_race_features
       {| course_type := None; race_type_text := None; age_restrictions := None;
          sex_restrictions := None; distance := Some "inf"%string;
          distance_unit := Some "Y"%string; purse := None;
          track_condition_text := None |}
     = Raises OverflowError.
Proof. repeat split; vm_compute; reflexivity. Qed.

(** What does hold of [parse_distance]: an absent or empty value and a text
    that [float] rejects give [None], and no exception other than
    [OverflowError] escapes. *)
Lemma parse_distance_absent (unit : option string) :
  parse_distance None unit = Returns None
  /\ parse_distance (Some ""%string) unit = Returns None.
Proof. split; reflexivity. Qed.

Lemma parse_distance_not_a_number (s : string) (unit : option string) :
  PyFloat.of_string (strip s) = Raises ValueError ->
  parse_distance (Some s) unit = Returns None.
Proof.
  intros Hparse. unfold parse_distance, parse_distance_body.
  cbn [truthy text_of text_of_option].
  destruct (nonempty s); [ | reflexivity ].
  cbn [negb]. rewrite Hparse. reflexivity.
Qed.

Lemma int_yards_raises (x : PyFloat.float) (e : exn) :
  except_value_type (int_yards x) = Raises e -> e = OverflowError.
Proof.
  unfold int_yards. destruct x; cbn; intros H; try discriminate; congruence.
Qed.

Lemma parse_distance_only_overflow (distance_value unit : option string) (e : exn) :
  parse_distance distance_value unit = Raises e -> e = OverflowError.
Proof.
  unfold parse_distance, parse_distance_body.
  destruct (negb (truthy distance_value)); [ discriminate | ].
  unfold PyFloat.of_string.
  destruct (PyFloat.of_string_opt _) as [d | ]; cbn [mbind outcome_bind];
    [ | cbn; discriminate ].
  case_tests; apply int_yards_raises.
Qed.

End Distance.

(** ** Strings: substrings, stripping and upper case *)

Section Strings.

Import PyStr.

Lemma append_cons (c : ascii) (s t : string) : String c s +:+ t = String c (s +:+ t).
Proof. reflexivity. Qed.

Lemma append_empty (t : string) : EmptyString +:+ t = t.
Proof. reflexivity. Qed.

Lemma append_assoc (a b c : string) : (a +:+ b) +:+ c = a +:+ (b +:+ c).
Proof.
  induction a as [ | x a IH]; [ reflexivity | ].
  rewrite !append_cons. now rewrite IH.
Qed.

Lemma startswith_append (p post : string) : startswith p (p +:+ post) = true.
Proof.
  induction p as [ | c p IH]; [ reflexivity | ].
  rewrite append_cons. cbn. now rewrite Ascii.eqb_refl.
Qed.

Lemma startswith_inv (p s : string) :
  startswith p s = true -> exists post, s = p +:+ post.
Proof.
  revert s. induction p as [ | c p IH]; intros s H.
  - now exists s.
  - destruct s as [ | b s]; [ discriminate | ].
    cbn in H. apply andb_prop in H as [Hc Hp].
    apply Ascii.eqb_eq in Hc as ->.
    destruct (IH s Hp) as [post ->]. now exists post.
Qed.

Lemma contains_append (p pre post : string) : contains p (pre +:+ p +:+ post) = true.
Proof.
  induction pre as [ | c pre IH].
  - rewrite append_empty.
    destruct (p +:+ post) eqn:E; cbn; rewrite <- E, startswith_append; reflexivity.
  - rewrite append_cons. cbn. rewrite IH. apply orb_true_r.
Qed.

Lemma contains_inv (p s : string) :
  contains p s = true -> exists pre post, s = pre +:+ p +:+ post.
Proof.
  induction s as [ | c s IH]; cbn; intros H.
  - rewrite orb_false_r in H. apply startswith_inv in H as [post ->].
    now exists EmptyString, post.
  - apply orb_prop in H as [H | H].
    + apply startswith_inv in H as [post ->]. now exists EmptyString, post.
    + destruct (IH H) as (pre & post & ->). now exists (String c pre), post.
Qed.

(** Stripping keeps a phrase that starts and ends with characters that are
    not stripped. *)
Lemma lstrip_keeps (sp : ascii -> bool) (c : ascii) (q pre : string) :
  sp c = false ->
  exists pre', lstrip_with sp (pre +:+ String c q) = pre' +:+ String c q.
Proof.
  intros Hc. induction pre as [ | a pre IH].
  - exists EmptyString. rewrite !append_empty. cbn. now rewrite Hc.
  - rewrite append_cons. cbn. destruct (sp a).
    + exact IH.
    + exists (String a pre). now rewrite append_cons.
Qed.

Lemma rstrip_cons_keeps (sp : ascii -> bool) (c : ascii) (q : string) :
  sp c = false -> exists q', rstrip_with sp (String c q) = String c q'.
Proof.
  intros Hc. cbn. destruct (rstrip_with sp q) as [ | b q'].
  - rewrite Hc. now exists EmptyString.
  - now exists (String b q').
Qed.

Lemma rstrip_append (sp : ascii -> bool) (a b : string) :
  rstrip_with sp b <> EmptyString ->
  rstrip_with sp (a +:+ b) = a +:+ rstrip_with sp b.
Proof.
  intros Hb. induction a as [ | x a IH]; [ reflexivity | ].
  rewrite !append_cons. cbn. rewrite IH.
  destruct (a +:+ rstrip_with sp b) eqn:E; [ | reflexivity ].
  destruct a; [ | discriminate ]. now rewrite append_empty in E.
Qed.

Lemma rstrip_keeps (sp : ascii -> bool) (c : ascii) (p0 pre post : string) :
  sp c = false ->
  exists post',
    rstrip_with sp (pre +:+ (p0 +:+ String c EmptyString) +:+ post)
    = pre +:+ (p0 +:+ String c EmptyString) +:+ post'.
Proof.
  intros Hc.
  destruct (rstrip_cons_keeps sp c post Hc) as [q' Hq].
  exists q'.
  rewrite !(append_assoc p0), !append_cons, !append_empty.
  rewrite <- !(append_assoc pre).
  rewrite rstrip_append; rewrite Hq; [ reflexivity | discriminate ].
Qed.

Lemma contains_strip (c1 c2 : ascii) (p0 q : string) (s : string) :
  isspace c1 = false -> isspace c2 = false ->
  String c1 q = p0 +:+ String c2 EmptyString ->
  contains (String c1 q) s = true ->
  contains (String c1 q) (strip s) = true.
Proof.
  intros H1 H2 Hp Hin.
  apply contains_inv in Hin as (pre & post & ->).
  unfold strip.
  rewrite Hp.
  destruct (rstrip_keeps isspace c2 p0 pre post H2) as [post' ->].
  rewrite <- Hp. rewrite append_cons.
  destruct (lstrip_keeps isspace c1 (q +:+ post') pre H1) as [pre' ->].
  rewrite <- append_cons. apply contains_append.
Qed.

Lemma isspace_upper_char (c : ascii) : isspace (upper_char c) = isspace c.
Proof. destruct c as [[] [] [] [] [] [] [] []]; reflexivity. Qed.

Lemma upper_lstrip (s : string) :
  upper (lstrip_with isspace s) = lstrip_with isspace (upper s).
Proof.
  induction s as [ | c s IH]; [ reflexivity | ].
  cbn. rewrite isspace_upper_char. destruct (isspace c); [ exact IH | reflexivity ].
Qed.

Lemma upper_rstrip (s : string) :
  upper (rstrip_with isspace s) = rstrip_with isspace (upper s).
Proof.
  induction s as [ | c s IH]; [ reflexivity | ].
  cbn. rewrite <- IH, isspace_upper_char.
  destruct (rstrip_with isspace s); cbn; [ destruct (isspace c) | ]; reflexivity.
Qed.

Lemma upper_strip (s : string) : upper (strip s) = strip (upper s).
Proof. unfold strip. now rewrite upper_lstrip, upper_rstrip. Qed.

Lemma blank_false (raw : string) :
  strip raw <> EmptyString -> Standardizer.blank (Some raw) = false.
Proof.
  intros H. unfold Standardizer.blank.
  destruct raw as [ | c raw]; [ now contradiction H | ].
  cbn [nonempty negb orb].
  destruct (strip (String c raw)); [ now contradiction H | reflexivity ].
Qed.

End Strings.

(** ** Race type *)

Section RaceType.

Import PyStr Standardizer.

Lemma first_code_in_In (table : list (string * Z)) (words : list string)
    (code : string) (level : Z) :
  first_code_in table words = Some (code, level) -> In (code, level) table.
Proof.
  induction table as [ | [c l] rest IH]; cbn; [ discriminate | ].
  destruct (mem c words).
  - intros [= -> ->]. now left.
  - intros H. right. exact (IH H).
Qed.

Lemma hierarchy_codes_not_other (code : string) (level : Z) :
  In (code, level) race_type_hierarchy -> code <> "OTHER"%string.
Proof.
  intros Hin ->. revert Hin. unfold race_type_hierarchy. cbn.
  intuition congruence.
Qed.

(** C6, as amended: the purse category is the threshold function of the
    class level on every branch but the default one, which returns the
    code OTHER with class level 3 and the purse category OTHER. *)
Theorem purse_category_of_race_type (raw_value : option string) :
  let r := standardize_race_type raw_value in
  (race_type_code r = "OTHER"%string /\ class_level r = 3%Z
   /\ purse_category r = "OTHER"%string)
  \/ (race_type_code r <> "OTHER"%string
      /\ purse_category r = _get_purse_category (class_level r)).
Proof.
  cbv zeta. unfold standardize_race_type.
  destruct (blank raw_value); [ right; split; [ discriminate | reflexivity ] | ].
  destruct (_ || _); [ right; split; [ discriminate | reflexivity ] | ].
  destruct (first_code_in _ _) as [[code level] | ] eqn:Hfirst.
  - right. cbn. split; [ | reflexivity ].
    eapply hierarchy_codes_not_other, first_code_in_In, Hfirst.
  - case_tests;
      solve [ right; split; [ discriminate | reflexivity ]
            | left; repeat split ].
Qed.

(** C6, as stated, fails on the default branch: class level 3 comes with
    the purse category OTHER, where the thresholds give CLAIMING. *)
Lemma purse_category_default_branch :
  standardize_race_type (Some "XYZ"%string) =
    {| race_type_code := "OTHER"; race_type_description := "XYZ";
       class_level := 3; purse_category := "OTHER" |}
  /\ _get_purse_category 3 = "CLAIMING"%string
  /\ purse_category (standardize_race_type (Some "XYZ"%string))
     <> _get_purse_category (class_level (standardize_race_type (Some "XYZ"%string))).
Proof. repeat split; vm_compute; try reflexivity. discriminate. Qed.

(** The compound phrases survive the cleaning: a phrase found in the upper
    case of the raw text is found in [raw.strip().upper()]. *)
Lemma compound_in_cleaned (raw : string) :
  contains "MAIDEN CLAIMING" (upper raw) = true
  \/ contains "MAIDEN CLM" (upper raw) = true ->
  contains "MAIDEN CLAIMING" (upper (strip raw))
  || contains "MAIDEN CLM" (upper (strip raw)) = true.
Proof.
  rewrite upper_strip. intros [H | H]; apply orb_true_iff; [ left | right ].
  - eapply (contains_strip _ "G" "MAIDEN CLAIMIN"); try reflexivity. exact H.
  - eapply (contains_strip _ "M" "MAIDEN CL"); try reflexivity. exact H.
Qed.

(** C7: an input that contains the compound phrase, in any letter case, is
    classified by the compound rule, before the word table and the MAIDEN
    keyword rule are consulted: class level 1, and the code CLAIMING, not
    MAIDEN. *)
Theorem maiden_claiming_compound_first (raw : string) :
  contains "MAIDEN CLAIMING" (upper raw) = true
  \/ contains "MAIDEN CLM" (upper raw) = true ->
  standardize_race_type (Some raw) =
    {| race_type_code := "CLAIMING"; race_type_description := strip raw;
       class_level := 1; purse_category := "MAIDEN" |}
  /\ class_level (standardize_race_type (Some raw)) = 1%Z
  /\ race_type_code (standardize_race_type (Some raw)) <> "MAIDEN"%string.
Proof.
  intros H. apply compound_in_cleaned in H.
  assert (Hne : strip raw <> EmptyString).
  { intros E. rewrite E in H. discriminate H. }
  assert (Heq : standardize_race_type (Some raw) =
    {| race_type_code := "CLAIMING"; race_type_description := strip raw;
       class_level := 1; purse_category := "MAIDEN" |}).
  { unfold standardize_race_type. rewrite (blank_false raw Hne).
    cbn [text_of text_of_option]. now rewrite H. }
  rewrite Heq. cbn. repeat split. discriminate.
Qed.

(** The theorem at the text MAIDEN CLAIMING itself. *)
Lemma maiden_claiming_compound_first_witness :
  standardize_race_type (Some "MAIDEN CLAIMING"%string) =
    {| race_type_code := "CLAIMING"; race_type_description := "MAIDEN CLAIMING";
       class_level := 1; purse_category := "MAIDEN" |}
  /\ class_level (standardize_race_type (Some "MAIDEN CLAIMING"%string)) = 1%Z
  /\ race_type_code (standardize_race_type (Some "MAIDEN CLAIMING"%string))
     <> "MAIDEN"%string.
Proof.
  apply (maiden_claiming_compound_first "MAIDEN CLAIMING"). left. reflexivity.
Defined.

End RaceType.

(** ** Equipment *)

Section Equipment.

Import PyStr Standardizer.

(** C8, as amended: the equipment text B,L1,T gives exactly BLINKERS,
    LASIX_FIRST_TIME, TONGUE_TIE, and the feature record has
    [has_blinkers] true; [has_lasix] is true only when the token LASIX
    itself is in the medication or equipment list, so here it is what the
    medication text gives, and false without medication. *)
Theorem equipment_scenario_features (med wt : option string) :
  let f := create_standardized_horse_features
             {| equipment := Some "B,L1,T"%string; medication := med;
                weight := wt |} in
  equipment_codes f = ["BLINKERS"; "LASIX_FIRST_TIME"; "TONGUE_TIE"]%string
  /\ has_blinkers f = true
  /\ has_lasix f = mem "LASIX" (standardize_equipment med)
  /\ has_lasix (create_standardized_horse_features
                  {| equipment := Some "B,L1,T"%string; medication := None;
                     weight := wt |}) = false.
Proof.
  cbv zeta. unfold create_standardized_horse_features.
  cbn [equipment medication weight equipment_codes has_blinkers has_lasix].
  change (standardize_equipment (Some "B,L1,T"%string))
    with ["BLINKERS"; "LASIX_FIRST_TIME"; "TONGUE_TIE"]%string.
  repeat split.
  change (mem "LASIX" ["BLINKERS"; "LASIX_FIRST_TIME"; "TONGUE_TIE"]%string) with false.
  apply orb_false_r.
Qed.

(** C8, as stated, fails: the record built from B,L1,T alone has
    [has_lasix] false. *)
Lemma equipment_scenario_has_no_lasix :
  standardize_equipment (Some "B,L1,T"%string)
    = ["BLINKERS"; "LASIX_FIRST_TIME"; "TONGUE_TIE"]%string
  /\ has_blinkers (create_standardized_horse_features
                     {| equipment := Some "B,L1,T"%string; medication := None;
                        weight := None |}) = true
  /\ has_lasix (create_standardized_horse_features
                  {| equipment := Some "B,L1,T"%string; medication := None;
                     weight := None |}) <> true.
Proof. repeat split; vm_compute; try reflexivity. discriminate. Qed.

(** C9 at its failing inputs: an unknown token is appended without the
    membership test that guards the known ones, so it can come twice; and
    so can a standard name that follows its own code. *)
Theorem equipment_unknown_token_repeated :
  standardize_equipment (Some "X,X"%string) = ["X"; "X"]%string
  /\ ~ NoDup (standardize_equipment (Some "X,X"%string))
  /\ standardize_equipment (Some "T,TONGUE_TIE"%string)
     = ["TONGUE_TIE"; "TONGUE_TIE"]%string
  /\ standardize_equipment (Some "B,B"%string) = ["BLINKERS"]%string.
Proof.
  repeat split; try (vm_compute; reflexivity).
  change (standardize_equipment (Some "X,X"%string)) with ["X"; "X"]%string.
  intros Hnodup. apply NoDup_cons_1_1 in Hnodup. apply Hnodup. now left.
Qed.

End Equipment.

(** ** The assertions of [test_standardization.py] *)

Section UnitTests.

Import Standardizer.

Example test_furlong_basic :
  map (fun '(d, u) => parse_distance (Some d) (Some u))
    [("6", "F"); ("6", "FURLONG"); ("8", "F")]%string
  = map (fun y => Returns (Some y)) [1320; 1320; 1760]%Z.
Proof. vm_compute. reflexivity. Qed.

Example test_furlong_hundredths_format :
  map (fun d => parse_distance (Some d) (Some "F"%string))
    ["600"; "550"; "700"; "800"; "500"; "650"; "200"]%string
  = map (fun y => Returns (Some y)) [1320; 1210; 1540; 1760; 1100; 1430; 440]%Z.
Proof. vm_compute. reflexivity. Qed.

Example test_mile :
  map (fun d => parse_distance (Some d) (Some "M"%string))
    ["1"; "1.5"; "2.5"; "2400"; "1700"; "1800"]%string
  = map (fun y => Returns (Some y)) [1760; 2640; 4400; 2640; 1870; 1980]%Z.
Proof. vm_compute. reflexivity. Qed.

Example test_yards_direct :
  parse_distance (Some "1320"%string) (Some "Y"%string) = Returns (Some 1320%Z)
  /\ parse_distance (Some "1760"%string) (Some "YARDS"%string) = Returns (Some 1760%Z).
Proof. split; vm_compute; reflexivity. Qed.

Example test_course_types :
  map (fun c => standardize_course_type (Some c))
    ["D"; "DIRT"; "FAST"; "MUDDY"; "T"; "TURF"; "FIRM"; "S"; "SYNTHETIC"]%string
  = ["DIRT"; "DIRT"; "DIRT"; "DIRT"; "TURF"; "TURF"; "TURF";
     "SYNTHETIC"; "SYNTHETIC"]%string.
Proof. vm_compute. reflexivity. Qed.

Example test_race_types :
  map (fun t => let r := standardize_race_type (Some t) in
                (race_type_code r, class_level r, purse_category r))
    ["G1"; "G3"; "CLAIMING"; "MAIDEN"; "MAIDEN CLAIMING"; "G1 MAIDEN CLAIMING"]%string
  = [ ("G1", 10%Z, "GRADED_STAKES"); ("G3", 8%Z, "GRADED_STAKES");
      ("CLAIMING", 2%Z, "CLAIMING"); ("MAIDEN", 1%Z, "MAIDEN");
      ("CLAIMING", 1%Z, "MAIDEN"); ("CLAIMING", 1%Z, "MAIDEN") ]%string.
Proof. vm_compute. reflexivity. Qed.

End UnitTests.

(** ** The batch writer: one transaction per flush *)

Section Atomicity.

Context {Db Stmt : Type}.
Variable execute : Stmt -> Db -> Db * option exn.
Variable commit_raises : Db -> bool.

(** No write touches what is committed. *)
Lemma run_all_committed (stmts : list Stmt) (c : Sqlite.connection) :
  Sqlite.committed (fst (Sqlite.run_all execute stmts c)) = Sqlite.committed c.
Proof.
  revert c. induction stmts as [ | stmt rest IH]; intros c; [ reflexivity | ].
  cbn [Sqlite.run_all]. unfold Sqlite.run.
  destruct (execute stmt (Sqlite.pending c)) as [db [e | ]]; [ reflexivity | ].
  now rewrite IH.
Qed.

(** A flush leaves the database as it was when a write or the commit
    raises, and otherwise leaves it as the writes made it. *)
Lemma flush_all_or_nothing (writes : list Stmt) (db : Db) :
  Sqlite.flush execute commit_raises writes db =
    match Sqlite.run_all execute writes (Sqlite.connect db) with
    | (c, Some _) => db
    | (c, None) => if commit_raises (Sqlite.pending c) then db else Sqlite.pending c
    end.
Proof.
  unfold Sqlite.flush.
  pose proof (run_all_committed writes (Sqlite.connect db)) as Hc.
  destruct (Sqlite.run_all execute writes (Sqlite.connect db)) as [c [e | ]];
    cbn in Hc.
  - cbn. exact Hc.
  - unfold Sqlite.commit. destruct (commit_raises (Sqlite.pending c)); cbn.
    + exact Hc.
    + reflexivity.
Qed.

Lemma flush_atomic (writes : list Stmt) (db : Db) :
  let after := Sqlite.run_all execute writes (Sqlite.connect db) in
  (snd after <> None \/ commit_raises (Sqlite.pending (fst after)) = true ->
   Sqlite.flush execute commit_raises writes db = db)
  /\ (snd after = None -> commit_raises (Sqlite.pending (fst after)) = false ->
      Sqlite.flush execute commit_raises writes db = Sqlite.pending (fst after)).
Proof.
  cbv zeta. rewrite flush_all_or_nothing.
  destruct (Sqlite.run_all execute writes (Sqlite.connect db)) as [c [e | ]];
    cbn [fst snd]; split.
  - reflexivity.
  - discriminate.
  - intros [H | H]; [ now contradiction H | now rewrite H ].
  - intros _ H. now rewrite H.
Qed.

End Atomicity.

Section BatchWriters.

(** C4: a flush of either batch writer is one transaction.  When one of
    its writes raises, or the commit does, the database after the flush is
    the database before it; otherwise it is the state all the writes have
    produced. *)
Theorem batch_insert_is_atomic :
  (forall (execute : Horses.statement -> Horses.database -> Horses.database * option exn)
          (commit_raises : Horses.database -> bool)
          (x : Horses.extractor) (db : Horses.database),
      let writes :=
        map Horses.InsertHorse (Horses.horse_batch x)
        ++ map Horses.InsertTrainer (Horses.trainer_batch x)
        ++ map Horses.InsertOwner (Horses.owner_batch x) in
      let after := Sqlite.run_all execute writes (Sqlite.connect db) in
      (snd after <> None \/ commit_raises (Sqlite.pending (fst after)) = true ->
       Horses.batch_insert_data execute commit_raises x db = db)
      /\ (snd after = None -> commit_raises (Sqlite.pending (fst after)) = false ->
          Horses.batch_insert_data execute commit_raises x db
          = Sqlite.pending (fst after)))
  /\ (forall (entry_data equipment_record database : Type)
             (execute : @PastPerformance.statement entry_data equipment_record
                        -> database -> database * option exn)
             (commit_raises : database -> bool)
             (race_batch : list PastPerformance.race_data)
             (entry_batch : list entry_data)
             (equipment_batch : list equipment_record) (db : database),
      let writes :=
        map PastPerformance.InsertRace race_batch
        ++ map PastPerformance.InsertEntry entry_batch
        ++ map PastPerformance.InsertEquipment equipment_batch in
      let after := Sqlite.run_all execute writes (Sqlite.connect db) in
      (snd after <> None \/ commit_raises (Sqlite.pending (fst after)) = true ->
       PastPerformance.batch_insert_data execute commit_raises
         race_batch entry_batch equipment_batch db = db)
      /\ (snd after = None -> commit_raises (Sqlite.pending (fst after)) = false ->
          PastPerformance.batch_insert_data execute commit_raises
            race_batch entry_batch equipment_batch db
          = Sqlite.pending (fst after))).
Proof.
  split; intros; apply flush_atomic.
Qed.

(** The theorem on a store where the second of two writes raises: the
    first horse, already written inside the transaction, is not in the
    database after the flush. *)
Lemma batch_insert_is_atomic_witness :
  Horses.batch_insert_data Scenario.execute_failing_on_R2 Horses.commit_ok
    Scenario.extractor_with_R1_R2 Scenario.empty_database
  = Scenario.empty_database.
Proof.
  apply (proj1 batch_insert_is_atomic Scenario.execute_failing_on_R2 Horses.commit_ok
           Scenario.extractor_with_R1_R2 Scenario.empty_database).
  left. vm_compute. discriminate.
Defined.

End BatchWriters.

(** ** Phase 1: batching and the ledger do not show in the result *)

Section Phase1.

Import Horses.

Lemma insert_or_ignore_present {V : Type} (k : string) (v : V) (t : gmap string V) :
  is_Some (t !! k) -> Sqlite.insert_or_ignore k v t = t.
Proof. intros [w Hw]. unfold Sqlite.insert_or_ignore. now rewrite Hw. Qed.

Lemma insert_or_ignore_keeps {V : Type} (k k' : string) (v : V) (t : gmap string V) :
  is_Some (t !! k') -> is_Some (Sqlite.insert_or_ignore k v t !! k').
Proof.
  intros H. unfold Sqlite.insert_or_ignore.
  destruct (t !! k) eqn:E; [ exact H | ].
  destruct (decide (k = k')) as [-> | Hne].
  - rewrite lookup_insert_eq. eauto.
  - now rewrite lookup_insert_ne.
Qed.

Lemma insert_or_ignore_adds {V : Type} (k : string) (v : V) (t : gmap string V) :
  is_Some (Sqlite.insert_or_ignore k v t !! k).
Proof.
  unfold Sqlite.insert_or_ignore.
  destruct (t !! k) eqn:E; [ rewrite E; eauto | ].
  rewrite lookup_insert_eq. eauto.
Qed.

Lemma insert_all_app {V : Type} (key : V -> string) (t : gmap string V) (a b : list V) :
  insert_all key t (a ++ b) = insert_all key (insert_all key t a) b.
Proof. apply fold_left_app. Qed.

Lemma insert_all_keeps {V : Type} (key : V -> string) (rows : list V)
    (t : gmap string V) (k : string) :
  is_Some (t !! k) -> is_Some (insert_all key t rows !! k).
Proof.
  revert t. induction rows as [ | r rows IH]; intros t H; [ exact H | ].
  cbn. apply IH. now apply insert_or_ignore_keeps.
Qed.

Lemma insert_all_adds {V : Type} (key : V -> string) (rows : list V)
    (t : gmap string V) (r : V) :
  In r rows -> is_Some (insert_all key t rows !! key r).
Proof.
  revert t. induction rows as [ | r' rows IH]; intros t; [ intros [] | ].
  intros [-> | Hin]; cbn.
  - apply insert_all_keeps, insert_or_ignore_adds.
  - now apply IH.
Qed.

(** Rows whose keys are all there change nothing. *)
Lemma insert_all_present {V : Type} (key : V -> string) (rows : list V)
    (t : gmap string V) :
  (forall r, In r rows -> is_Some (t !! key r)) -> insert_all key t rows = t.
Proof.
  induction rows as [ | r rows IH]; intros H; [ reflexivity | ].
  cbn. rewrite insert_or_ignore_present by (apply H; now left).
  apply IH. intros r' Hr'. apply H. now right.
Qed.


(** *** One channel: a table, its batch and its ledger *)

Lemma channel_start {V : Type} (key : V -> string) (t0 : gmap string V) :
  channel key t0 [] t0 [] ∅.
Proof. split; [ reflexivity | ]. intros k. cbn. set_solver. Qed.

Lemma channel_offer {V : Type} (key : V -> string) (t0 : gmap string V)
    (cands : list V) (t : gmap string V) (batch : list V) (seen : gset string)
    (data : option V) (count : nat) :
  channel key t0 cands t batch seen ->
  channel key t0 (cands ++ candidate data) t
    (fst (fst (offer key data batch seen count)))
    (snd (fst (offer key data batch seen count))).
Proof.
  intros [Hrows Hseen]. destruct data as [d | ]; cbn [offer candidate].
  2: { rewrite app_nil_r. now split. }
  destruct (decide (key d ∈ seen)) as [Hin | Hnot]; cbn [fst snd]; split.
  - rewrite insert_all_app, <- Hrows. cbn.
    rewrite insert_or_ignore_present; [ reflexivity | ].
    rewrite Hrows. apply Hseen in Hin. apply in_map_iff in Hin as (r & Hk & Hr).
    rewrite <- Hk. now apply insert_all_adds.
  - intros k. rewrite map_app, in_app_iff, <- Hseen. cbn.
    split; [ tauto | ]. intros [H | [<- | []]]; assumption.
  - now rewrite !insert_all_app, Hrows.
  - intros k. rewrite map_app, in_app_iff, <- Hseen. cbn.
    rewrite elem_of_union, elem_of_singleton.
    split; [ intros [-> | H]; [ right; now left | now left ] | ].
    intros [H | [<- | []]]; [ now right | now left ].
Qed.

Lemma channel_flush {V : Type} (key : V -> string) (t0 : gmap string V)
    (cands : list V) (t : gmap string V) (batch : list V) (seen : gset string) :
  channel key t0 cands t batch seen ->
  channel key t0 cands (insert_all key t batch) [] seen.
Proof. intros [Hrows Hseen]. split; [ exact Hrows | exact Hseen ]. Qed.

(** *** The extractor keeps its channels consistent *)

Lemma consistent_start (db0 : database) : consistent db0 [] new_extractor db0.
Proof. repeat split; cbn; set_solver. Qed.

Lemma horse_candidates_app (a b : list Xml.element) :
  horse_candidates (a ++ b) = horse_candidates a ++ horse_candidates b.
Proof. apply flat_map_app. Qed.

Lemma trainer_candidates_app (a b : list Xml.element) :
  trainer_candidates (a ++ b) = trainer_candidates a ++ trainer_candidates b.
Proof. apply flat_map_app. Qed.

Lemma owner_candidates_app (a b : list Xml.element) :
  owner_candidates (a ++ b) = owner_candidates a ++ owner_candidates b.
Proof. apply flat_map_app. Qed.

Lemma horse_candidates_one (st : Xml.element) :
  horse_candidates [st] = candidate (child_data extract_horse_data st "Horse").
Proof. apply app_nil_r. Qed.

Lemma trainer_candidates_one (st : Xml.element) :
  trainer_candidates [st] = candidate (child_data extract_trainer_data st "Trainer").
Proof. apply app_nil_r. Qed.

Lemma owner_candidates_one (st : Xml.element) :
  owner_candidates [st] = candidate (child_data extract_owner_data st "Owner").
Proof. apply app_nil_r. Qed.

Lemma process_starter_consistent (db0 db : database) (done : list Xml.element)
    (x : extractor) (counts : nat * nat * nat) (starter : Xml.element) :
  consistent db0 done x db ->
  consistent db0 (done ++ [starter]) (fst (process_starter (x, counts) starter)) db.
Proof.
  intros (Hh & Ht & Ho). destruct counts as [[hn tn] on].
  unfold consistent.
  rewrite horse_candidates_app, trainer_candidates_app, owner_candidates_app.
  rewrite horse_candidates_one, trainer_candidates_one, owner_candidates_one.
  unfold process_starter.
  pose proof (channel_offer _ _ _ _ _ _
                (child_data extract_horse_data starter "Horse") hn Hh) as Hh'.
  pose proof (channel_offer _ _ _ _ _ _
                (child_data extract_trainer_data starter "Trainer") tn Ht) as Ht'.
  pose proof (channel_offer _ _ _ _ _ _
                (child_data extract_owner_data starter "Owner") on Ho) as Ho'.
  destruct (offer registration_number _ _ _ hn) as [[hb hs] hc].
  destruct (offer external_party_id _ (trainer_batch x) _ tn) as [[tb ts] tc].
  destruct (offer external_party_id _ (owner_batch x) _ on) as [[ob os] oc].
  cbn [fst snd horse_batch trainer_batch owner_batch seen_horses seen_trainers
       seen_owners] in *.
  auto.
Qed.

Lemma process_starters_consistent (db0 db : database) (starters done : list Xml.element)
    (acc : extractor * (nat * nat * nat)) :
  consistent db0 done (fst acc) db ->
  consistent db0 (done ++ starters) (fst (fold_left process_starter starters acc)) db.
Proof.
  revert done acc. induction starters as [ | st rest IH]; intros done [x counts] H.
  - now rewrite app_nil_r.
  - cbn [fold_left]. replace (done ++ st :: rest) with ((done ++ [st]) ++ rest)
      by now rewrite <- app_assoc.
    apply IH. now apply process_starter_consistent.
Qed.

Lemma process_file_consistent (db0 db : database) (done : list Xml.element)
    (x : extractor) (file : option Xml.element) :
  consistent db0 done x db ->
  consistent db0 (done ++ file_starters file) (process_file x file) db.
Proof.
  intros H. unfold process_file, process_xml_content.
  destruct file as [root | ]; cbn [file_starters].
  - pose proof (process_starters_consistent db0 db (starters_of root) done
                  (x, (0, 0, 0)) H) as H'.
    destruct (fold_left process_starter (starters_of root) (x, (0, 0, 0)))
      as [x' [[hn tn] on]].
    exact H'.
  - rewrite app_nil_r. exact H.
Qed.

(** *** A flush on a healthy store *)

Lemma run_all_ok (writes : list statement) (c : Sqlite.connection) :
  Sqlite.run_all execute_ok writes c
  = ({| Sqlite.committed := Sqlite.committed c;
        Sqlite.pending := fold_left (fun d w => apply_statement w d) writes (Sqlite.pending c) |},
     None).
Proof.
  revert c. induction writes as [ | w rest IH]; intros [cm pd]; [ reflexivity | ].
  cbn [Sqlite.run_all Sqlite.run execute_ok Sqlite.pending Sqlite.committed fold_left].
  now rewrite IH.
Qed.

Lemma flush_ok (writes : list statement) (db : database) :
  Sqlite.flush execute_ok commit_ok writes db
  = fold_left (fun d w => apply_statement w d) writes db.
Proof. rewrite flush_all_or_nothing, run_all_ok. reflexivity. Qed.

Lemma insert_horses (rows : list horse_data) (db : database) :
  fold_left (fun d w => apply_statement w d) (map InsertHorse rows) db
  = {| horses_master := insert_all registration_number (horses_master db) rows;
       trainers := trainers db; owners := owners db |}.
Proof.
  revert db. induction rows as [ | r rows IH]; intros db; [ now destruct db | ].
  cbn [map fold_left]. now rewrite IH.
Qed.

Lemma insert_trainers (rows : list party_data) (db : database) :
  fold_left (fun d w => apply_statement w d) (map InsertTrainer rows) db
  = {| horses_master := horses_master db;
       trainers := insert_all external_party_id (trainers db) rows;
       owners := owners db |}.
Proof.
  revert db. induction rows as [ | r rows IH]; intros db; [ now destruct db | ].
  cbn [map fold_left]. now rewrite IH.
Qed.

Lemma insert_owners (rows : list party_data) (db : database) :
  fold_left (fun d w => apply_statement w d) (map InsertOwner rows) db
  = {| horses_master := horses_master db; trainers := trainers db;
       owners := insert_all external_party_id (owners db) rows |}.
Proof.
  revert db. induction rows as [ | r rows IH]; intros db; [ now destruct db | ].
  cbn [map fold_left]. now rewrite IH.
Qed.

Lemma batch_insert_ok (x : extractor) (db : database) :
  batch_insert_data execute_ok commit_ok x db
  = {| horses_master :=
         insert_all registration_number (horses_master db) (horse_batch x);
       trainers := insert_all external_party_id (trainers db) (trainer_batch x);
       owners := insert_all external_party_id (owners db) (owner_batch x) |}.
Proof.
  unfold batch_insert_data.
  now rewrite flush_ok, !fold_left_app, insert_horses, insert_trainers, insert_owners.
Qed.

Lemma flush_consistent (db0 db : database) (done : list Xml.element) (x : extractor) :
  consistent db0 done x db ->
  consistent db0 done (clear_batches x) (batch_insert_data execute_ok commit_ok x db).
Proof.
  intros (Hh & Ht & Ho). rewrite batch_insert_ok.
  repeat split; cbn; first [ apply Hh | apply Ht | apply Ho ].
Qed.

Lemma step_consistent (batch_size : nat) (db0 : database) (done : list Xml.element)
    (acc : extractor * database) (file : option Xml.element) :
  consistent db0 done (fst acc) (snd acc) ->
  consistent db0 (done ++ file_starters file)
    (fst (step execute_ok commit_ok batch_size acc file))
    (snd (step execute_ok commit_ok batch_size acc file)).
Proof.
  destruct acc as [x db]. cbn [fst snd]. intros H.
  apply (process_file_consistent _ _ _ _ file) in H.
  unfold step. destruct (batch_size <=? _); cbn [fst snd]; [ | exact H ].
  now apply flush_consistent.
Qed.

Lemma steps_consistent (batch_size : nat) (db0 : database)
    (xml_files : list (option Xml.element)) (done : list Xml.element)
    (acc : extractor * database) :
  consistent db0 done (fst acc) (snd acc) ->
  consistent db0 (done ++ flat_map file_starters xml_files)
    (fst (fold_left (step execute_ok commit_ok batch_size) xml_files acc))
    (snd (fold_left (step execute_ok commit_ok batch_size) xml_files acc)).
Proof.
  revert done acc. induction xml_files as [ | f rest IH]; intros done acc H.
  - cbn. now rewrite app_nil_r.
  - cbn [fold_left flat_map]. rewrite app_assoc. apply IH.
    now apply step_consistent.
Qed.

(** The last flush, or none when the three batches are empty, brings each
    table to what inserting its batch makes it. *)
Lemma final_flush (x : extractor) (db : database) :
  match horse_batch x, trainer_batch x, owner_batch x with
  | [], [], [] => db
  | _, _, _ => batch_insert_data execute_ok commit_ok x db
  end
  = {| horses_master :=
         insert_all registration_number (horses_master db) (horse_batch x);
       trainers := insert_all external_party_id (trainers db) (trainer_batch x);
       owners := insert_all external_party_id (owners db) (owner_batch x) |}.
Proof.
  rewrite <- batch_insert_ok.
  destruct (horse_batch x) eqn:Eh, (trainer_batch x) eqn:Et, (owner_batch x) eqn:Eo;
    try reflexivity.
  rewrite batch_insert_ok, Eh, Et, Eo. now destruct db.
Qed.

(** A phase-1 run on a healthy store inserts every candidate of its files,
    in order, whatever the batch size. *)
Lemma phase1_inserts_candidates (batch_size : nat)
    (xml_files : list (option Xml.element)) (db : database) :
  phase1 batch_size xml_files db = insert_candidates xml_files db.
Proof.
  unfold phase1, run_extraction, insert_candidates.
  destruct xml_files as [ | f rest]; [ now destruct db | ].
  pose proof (steps_consistent batch_size db (f :: rest) [] (new_extractor, db)
                (consistent_start db)) as H.
  rewrite app_nil_l in H.
  destruct (fold_left _ (f :: rest) _) as [x db'].
  cbn [fst snd] in H. destruct H as ((Hh & _) & (Ht & _) & (Ho & _)).
  transitivity
    (match horse_batch x, trainer_batch x, owner_batch x with
     | [], [], [] => db'
     | _, _, _ => batch_insert_data execute_ok commit_ok x db'
     end).
  { now destruct (horse_batch x), (trainer_batch x), (owner_batch x). }
  rewrite final_flush. now rewrite Hh, Ht, Ho.
Qed.


(** The second run may take the files in another order. *)
Lemma phase1_second_run_any_order (batch_size batch_size' : nat)
    (xml_files xml_files' : list (option Xml.element)) (db : database) :
  Permutation xml_files' xml_files ->
  phase1 batch_size' xml_files' (phase1 batch_size xml_files db)
  = phase1 batch_size xml_files db.
Proof.
  intros Hperm.
  assert (Hstarters : forall st, In st (flat_map file_starters xml_files') ->
                                 In st (flat_map file_starters xml_files)).
  { intros st Hin. apply in_flat_map in Hin as (f & Hf & Hst).
    apply in_flat_map. exists f. split; [ | exact Hst ].
    eapply Permutation_in; eassumption. }
  rewrite (phase1_inserts_candidates batch_size').
  rewrite (phase1_inserts_candidates batch_size).
  unfold insert_candidates. cbn. f_equal; apply insert_all_present; intros r Hr;
    apply in_flat_map in Hr as (st & Hst & Hr); apply insert_all_adds;
    apply in_flat_map; exists st; (split; [ now apply Hstarters | exact Hr ]).
Qed.

End Phase1.

(** ** The race natural key in phases 2 and 3 *)

Section RaceKeys.

Import PyStr.

(** Both phases build the key from a track code, a date and a number in the
    same way; they differ in where they take the three from. *)
Lemma race_key_format_phase2 (race_element : Xml.element)
    (track_code race_date filename : string) (r : PastPerformance.race_data) :
  PastPerformance.extract_race_data race_element track_code race_date filename = Some r ->
  exists number,
    Xml.extract_text race_element "RaceNumber" = Some number
    /\ PastPerformance.race_id r
       = track_code +:+ "_" +:+ race_date +:+ "_" +:+ number.
Proof.
  unfold PastPerformance.extract_race_data, PastPerformance.extract_race_data_body.
  destruct (Xml.extract_text race_element "RaceNumber") as [number | ];
    [ | discriminate ].
  destruct (negb (truthy (Some number))); [ discriminate | ].
  destruct (Standardizer.create_standardized_race_features _) as [f | e];
    [ | discriminate ].
  cbn [mbind outcome_bind text_of_option].
  destruct (PyInt.of_string number) as [n | ]; [ | discriminate ].
  cbn. intros [= <-]. now exists number.
Qed.

Lemma race_key_format_phase3 (race_element : Xml.element)
    (track_code race_date : string) (u : ResultCharts.race_update) :
  ResultCharts.race_update_of track_code race_date race_element = Some u ->
  exists number,
    Xml.get race_element "NUMBER" = Some number
    /\ ResultCharts.race_id u
       = track_code +:+ "_" +:+ race_date +:+ "_" +:+ number.
Proof.
  unfold ResultCharts.race_update_of.
  destruct (Xml.get race_element "NUMBER") as [number | ]; [ | discriminate ].
  destruct (negb (truthy (Some number))); [ discriminate | ].
  intros [= <-]. now exists number.
Qed.

(** C2 at its failing input: for the pre-race file
    [SIMD20230101AQU_USA.xml] phase 2 takes the track code from the part
    of the file name after the underscore, USA, and keys race 3 as
    [USA_2023-01-01_3]; phase 3 reads the code AQU from the chart and
    addresses its update to [AQU_2023-01-01_3]. *)
Theorem race_keys_differ_on_pp_file_name :
  PastPerformance.file_context Scenario.pp_filename
    = ("USA"%string, "2023-01-01"%string)
  /\ PastPerformance.race_keys Scenario.pp_document Scenario.pp_filename
     = ["USA_2023-01-01_3"%string]
  /\ ResultCharts.race_keys Scenario.rc_document Scenario.rc_filename
     = ["AQU_2023-01-01_3"%string]
  /\ PastPerformance.race_keys Scenario.pp_document Scenario.pp_filename
     <> ResultCharts.race_keys Scenario.rc_document Scenario.rc_filename.
Proof. repeat split; vm_compute; try reflexivity. discriminate. Qed.

(** With a file name that has no underscore the code takes the track code
    from positions 12 to 14, and the two phases meet on the same key. *)
Example race_keys_agree_without_underscore :
  PastPerformance.race_keys Scenario.pp_document "2023 PPs/SIMD20230101AQU.xml"
  = ResultCharts.race_keys Scenario.rc_document Scenario.rc_filename.
Proof. vm_compute. reflexivity. Qed.

End RaceKeys.

(** ** Phase 3: the horse lookup by name *)

Section Lookup.

Import Horses ResultCharts.

Lemma value_leb_total (a b : Sqlite.value) :
  Sqlite.value_leb a b = true \/ Sqlite.value_leb b a = true.
Proof.
  destruct a as [ | x | s], b as [ | y | t]; cbn; auto.
  - destruct (Z.leb_spec x y); [ now left | right ]. apply Z.leb_le. lia.
  - apply String.leb_total.
Qed.

Lemma value_leb_trans (a b c : Sqlite.value) :
  Sqlite.value_leb a b = true -> Sqlite.value_leb b c = true ->
  Sqlite.value_leb a c = true.
Proof.
  destruct a as [ | x | s], b as [ | y | t], c as [ | z | u]; cbn;
    try discriminate; try reflexivity.
  - intros H1 H2. apply Z.leb_le. apply Z.leb_le in H1, H2. lia.
  - intros H1 H2. apply Is_true_true.
    apply Is_true_true in H1, H2.
    exact (transitivity (R := String.le) H1 H2).
Qed.

Lemma value_leb_refl (a : Sqlite.value) : Sqlite.value_leb a a = true.
Proof. destruct (value_leb_total a a); assumption. Qed.

(** The pass over the rows returns a row of greatest year among the rows
    and the row it started from. *)
Lemma best_row_spec (rows : list horse_data) (start : option horse_data)
    (r : horse_data) :
  fold_left better rows start = Some r ->
  (start = Some r \/ In r rows)
  /\ (forall r', start = Some r' \/ In r' rows ->
        Sqlite.value_leb (year_of_birth r') (year_of_birth r) = true).
Proof.
  revert start. induction rows as [ | row rows IH]; intros start H.
  - cbn in H. subst start. split; [ now left | ].
    intros r' [[= ->] | []]. apply value_leb_refl.
  - cbn [fold_left] in H. apply IH in H as [Hin Hmax].
    assert (Hstart : forall r', start = Some r' ->
              Sqlite.value_leb (year_of_birth r') (year_of_birth r) = true).
    { intros r' ->. cbn [better] in Hmax.
      destruct (Sqlite.value_leb (year_of_birth row) (year_of_birth r')) eqn:E.
      - apply Hmax. now left.
      - eapply value_leb_trans; [ | apply Hmax; left; reflexivity ].
        destruct (value_leb_total (year_of_birth r') (year_of_birth row)); congruence. }
    assert (Hrow : Sqlite.value_leb (year_of_birth row) (year_of_birth r) = true).
    { destruct start as [b | ]; cbn [better] in Hmax.
      - destruct (Sqlite.value_leb (year_of_birth row) (year_of_birth b)) eqn:E.
        + eapply value_leb_trans; [ exact E | ]. now apply Hstart.
        + apply Hmax. now left.
      - apply Hmax. now left. }
    split.
    + destruct Hin as [Hin | Hin]; [ | right; now right ].
      destruct start as [b | ]; cbn [better] in Hin.
      * destruct (Sqlite.value_leb _ _); injection Hin as <-;
          [ now left | right; now left ].
      * injection Hin as <-. right. now left.
    + intros r' [Hr' | [<- | Hr']]; [ now apply Hstart | exact Hrow | ].
      apply Hmax. now right.
Qed.

Lemma best_row_none (rows : list horse_data) (start : option horse_data) :
  fold_left better rows start = None <-> start = None /\ rows = [].
Proof.
  split.
  - revert start. induction rows as [ | row rows IH]; intros start H; [ now split | ].
    cbn [fold_left] in H. apply IH in H as [H _].
    destruct start as [b | ]; cbn in H; [ | discriminate ].
    destruct (Sqlite.value_leb _ _); discriminate.
  - now intros [-> ->].
Qed.

(** The rows the [WHERE] clause keeps. *)
Lemma named_rows (db : database) (name : string) (row : horse_data) :
  In row (List.filter
            (fun row => bool_decide (horse_name row = Some name))
            (map snd (map_to_list (horses_master db))))
  <-> (exists k, horses_master db !! k = Some row) /\ horse_name row = Some name.
Proof.
  rewrite filter_In, in_map_iff, bool_decide_eq_true.
  split.
  - intros [([k row'] & <- & Hin) Hname]. split; [ | exact Hname ].
    exists k. apply list_elem_of_In in Hin. now apply elem_of_map_to_list in Hin.
  - intros [[k Hk] Hname]. split; [ | exact Hname ].
    exists (k, row). split; [ reflexivity | ].
    apply list_elem_of_In. now apply elem_of_map_to_list.
Qed.

(** C10: the lookup returns the registration number of a persisted horse
    of the queried name whose year of birth is greatest among the horses
    of that name, in the order of [ORDER BY] (a missing year is the
    least); it returns nothing exactly when no persisted horse has that
    name, or when the query fails. *)
Theorem lookup_registration_number_spec (db : database) (name : string) :
  lookup_registration_number None name = None
  /\ (lookup_registration_number (Some db) name = None
      <-> forall k row, horses_master db !! k = Some row -> horse_name row <> Some name)
  /\ (forall reg, lookup_registration_number (Some db) name = Some reg ->
        exists k row,
          horses_master db !! k = Some row
          /\ horse_name row = Some name
          /\ registration_number row = reg
          /\ forall k' row',
               horses_master db !! k' = Some row' -> horse_name row' = Some name ->
               Sqlite.value_leb (year_of_birth row') (year_of_birth row) = true).
Proof.
  split; [ reflexivity | ].
  unfold lookup_registration_number, select_by_name.
  split.
  - destruct (fold_left better _ None) as [r | ] eqn:E.
    + split; [ discriminate | ]. intros Hnone. exfalso.
      apply best_row_spec in E as [[E | Hin] _]; [ discriminate | ].
      apply named_rows in Hin as [[k Hk] Hname]. exact (Hnone k r Hk Hname).
    + split; [ | reflexivity ]. intros _ k row Hk Hname.
      apply best_row_none in E as [_ E].
      assert (Hin : In row []); [ | exact Hin ].
      rewrite <- E. apply named_rows. eauto.
  - intros reg H.
    destruct (fold_left better _ None) as [r | ] eqn:E; [ | discriminate ].
    injection H as <-.
    apply best_row_spec in E as [[E | Hin] Hmax]; [ discriminate | ].
    apply named_rows in Hin as [[k Hk] Hname].
    exists k, r. repeat split; try assumption.
    intros k' row' Hk' Hname'. apply Hmax. right. apply named_rows. eauto.
Qed.

(** The theorem on the store with two horses named Secretariat, born in
    1970 (R1) and in 2015 (R2): the lookup answers R2. *)
Lemma lookup_registration_number_spec_witness :
  lookup_registration_number (Some Scenario.two_namesakes) "Secretariat" = Some "R2"%string
  /\ exists k row,
       horses_master Scenario.two_namesakes !! k = Some row
       /\ horse_name row = Some "Secretariat"%string
       /\ registration_number row = "R2"%string
       /\ forall k' row',
            horses_master Scenario.two_namesakes !! k' = Some row' ->
            horse_name row' = Some "Secretariat"%string ->
            Sqlite.value_leb (year_of_birth row') (year_of_birth row) = true.
Proof.
  assert (H : lookup_registration_number (Some Scenario.two_namesakes) "Secretariat"
              = Some "R2"%string) by (vm_compute; reflexivity).
  split; [ exact H | ].
  exact (proj2 (proj2 (lookup_registration_number_spec Scenario.two_namesakes
                         "Secretariat")) "R2"%string H).
Defined.

End Lookup.

(** * Further properties of the code *)

(** ** Characters that are kept *)

Section Characters.

Import PyStr.

Lemma append_empty_r (s : string) : s +:+ EmptyString = s.
Proof. induction s as [ | c s IH]; [ reflexivity | ]. rewrite append_cons. now rewrite IH. Qed.

Lemma all_chars_append (p : ascii -> bool) (a b : string) :
  all_chars p (a +:+ b) = all_chars p a && all_chars p b.
Proof.
  induction a as [ | c a IH]; [ reflexivity | ].
  rewrite append_cons. cbn. now rewrite IH, andb_assoc.
Qed.

Lemma all_chars_impl (p q : ascii -> bool) (s : string) :
  (forall c, p c = true -> q c = true) -> all_chars p s = true -> all_chars q s = true.
Proof.
  intros Hpq. induction s as [ | c s IH]; [ reflexivity | ].
  cbn. intros H. apply andb_prop in H as [Hc Hs]. now rewrite (Hpq c Hc), IH.
Qed.

Lemma lstrip_all (sp : ascii -> bool) (s : string) :
  all_chars (fun c => negb (sp c)) s = true -> lstrip_with sp s = s.
Proof.
  destruct s as [ | c s]; [ reflexivity | ].
  cbn. intros H. apply andb_prop in H as [Hc _].
  now destruct (sp c).
Qed.

Lemma rstrip_cons_nonspace (sp : ascii -> bool) (c : ascii) (s : string) :
  sp c = false -> rstrip_with sp (String c s) = String c (rstrip_with sp s).
Proof. intros Hc. cbn. destruct (rstrip_with sp s); [ now rewrite Hc | reflexivity ]. Qed.

Lemma rstrip_all (sp : ascii -> bool) (s : string) :
  all_chars (fun c => negb (sp c)) s = true -> rstrip_with sp s = s.
Proof.
  induction s as [ | c s IH]; [ reflexivity | ].
  cbn [all_chars]. intros H. apply andb_prop in H as [Hc Hs].
  rewrite rstrip_cons_nonspace by now destruct (sp c).
  now rewrite IH.
Qed.

Lemma strip_all (s : string) :
  all_chars (fun c => negb (isspace c)) s = true -> strip s = s.
Proof. intros H. unfold strip. now rewrite rstrip_all, lstrip_all. Qed.

Lemma isdigit_not_isspace (c : ascii) : isdigit c = true -> negb (isspace c) = true.
Proof. destruct c as [[] [] [] [] [] [] [] []]; try discriminate; reflexivity. Qed.

Lemma isdigit_not_c_isspace (c : ascii) : isdigit c = true -> negb (c_isspace c) = true.
Proof. destruct c as [[] [] [] [] [] [] [] []]; try discriminate; reflexivity. Qed.

Lemma isdigit_upper_char (c : ascii) : isdigit c = true -> upper_char c = c.
Proof. destruct c as [[] [] [] [] [] [] [] []]; try discriminate; reflexivity. Qed.

Lemma upper_append (a b : string) : upper (a +:+ b) = upper a +:+ upper b.
Proof.
  induction a as [ | c a IH]; [ reflexivity | ].
  rewrite append_cons. cbn. now rewrite IH.
Qed.

Lemma upper_digits (s : string) : all_chars isdigit s = true -> upper s = s.
Proof.
  induction s as [ | c s IH]; [ reflexivity | ].
  cbn. intros H. apply andb_prop in H as [Hc Hs].
  now rewrite isdigit_upper_char, IH.
Qed.

Lemma upper_char_idempotent (c : ascii) : upper_char (upper_char c) = upper_char c.
Proof. destruct c as [[] [] [] [] [] [] [] []]; reflexivity. Qed.

Lemma upper_idempotent (s : string) : upper (upper s) = upper s.
Proof.
  induction s as [ | c s IH]; [ reflexivity | ].
  cbn. now rewrite upper_char_idempotent, IH.
Qed.

(** A text that holds none of the characters a pattern starts with does
    not contain the pattern. *)
Lemma contains_absent (p : ascii -> bool) (c : ascii) (q s : string) :
  p c = false -> all_chars p s = true -> contains (String c q) s = false.
Proof.
  intros Hc. induction s as [ | b s IH]; [ reflexivity | ].
  cbn. intros H. apply andb_prop in H as [Hb Hs].
  rewrite (IH Hs), orb_false_r.
  destruct (Ascii.eqb_spec c b) as [-> | ]; [ congruence | reflexivity ].
Qed.

Lemma remove_all_absent (p : ascii -> bool) (c : ascii) (q s : string) :
  p c = false -> all_chars p s = true -> remove_all (String c q) s = s.
Proof.
  intros Hc. unfold remove_all. induction s as [ | b s IH]; [ reflexivity | ].
  cbn. intros H. apply andb_prop in H as [Hb Hs].
  destruct (Ascii.eqb_spec c b) as [-> | ]; [ congruence | ].
  cbn. now rewrite (IH Hs).
Qed.

End Characters.

(** ** Decimal texts *)

Section Decimal.

Import PyStr.
Local Open Scope Z_scope.

Lemma take_digits_uint_acc (d : Decimal.uint) (p : positive) (rest : string) (n : nat) :
  PyFloat.take_digits (NilEmpty.string_of_uint d +:+ rest) (Z.pos p) n
  = PyFloat.take_digits rest (Z.pos (Pos.of_uint_acc d p))
      (n + len (NilEmpty.string_of_uint d)).
Proof.
  revert p n. induction d as [ | d IH | d IH | d IH | d IH | d IH | d IH | d IH | d IH | d IH | d IH];
    intros p n; cbn [NilEmpty.string_of_uint len Pos.of_uint_acc].
  1: { cbn. now rewrite Nat.add_0_r. }
  all: rewrite append_cons; cbn [PyFloat.take_digits];
    match goal with |- context [isdigit ?c] => change (isdigit c) with true end;
    cbn iota;
    match goal with
    | |- PyFloat.take_digits _ (_ + digit_val ?c) _ = _ =>
        let v := eval vm_compute in (digit_val c) in
        change (digit_val c) with v
    end;
    match goal with
    | |- PyFloat.take_digits _ ?a _
         = PyFloat.take_digits _ (Z.pos (Pos.of_uint_acc _ ?q)) _ =>
        replace a with (Z.pos q) by lia
    end;
    rewrite IH; f_equal; lia.
Qed.

Lemma take_digits_uint (d : Decimal.uint) (rest : string) (n : nat) :
  PyFloat.take_digits (NilEmpty.string_of_uint d +:+ rest) 0 n
  = PyFloat.take_digits rest (Z.of_N (Pos.of_uint d)) (n + len (NilEmpty.string_of_uint d)).
Proof.
  revert n. induction d as [ | d IH | d IH | d IH | d IH | d IH | d IH | d IH | d IH | d IH | d IH];
    intros n; cbn [NilEmpty.string_of_uint len Pos.of_uint].
  1: { cbn. now rewrite Nat.add_0_r. }
  1: { rewrite append_cons. cbn [PyFloat.take_digits].
       change (isdigit "0") with true. cbn iota.
       change (10 * 0 + digit_val "0") with 0. rewrite IH. f_equal. lia. }
  all: rewrite append_cons; cbn [PyFloat.take_digits];
    match goal with |- context [isdigit ?c] => change (isdigit c) with true end;
    cbn iota;
    match goal with
    | |- PyFloat.take_digits _ (_ + digit_val ?c) _ = _ =>
        let v := eval vm_compute in (10 * 0 + digit_val c) in
        change (10 * 0 + digit_val c) with v
    end;
    rewrite take_digits_uint_acc; cbn [Z.of_N]; f_equal; lia.
Qed.

Lemma all_chars_string_of_uint (d : Decimal.uint) :
  all_chars isdigit (NilEmpty.string_of_uint d) = true.
Proof. induction d; cbn [NilEmpty.string_of_uint all_chars]; [ reflexivity | exact IHd .. ]. Qed.

Lemma str_of_Z_pos (p : positive) :
  str_of_Z (Z.pos p) = NilEmpty.string_of_uint (Pos.to_uint p).
Proof.
  unfold str_of_Z. cbn [Z.to_int NilZero.string_of_int]. unfold NilZero.string_of_uint.
  pose proof (Unsigned.to_uint_nonnil p) as H.
  destruct (Pos.to_uint p); [ now contradiction H | reflexivity .. ].
Qed.

Lemma str_of_Z_neg (p : positive) :
  str_of_Z (Z.neg p) = String "-" (str_of_Z (Z.pos p)).
Proof.
  rewrite str_of_Z_pos. unfold str_of_Z. cbn [Z.to_int NilZero.string_of_int].
  unfold NilZero.string_of_uint.
  pose proof (Unsigned.to_uint_nonnil p) as H.
  destruct (Pos.to_uint p); [ now contradiction H | reflexivity .. ].
Qed.

(** The decimal text of a non-negative integer is a non-empty text of
    digits. *)
Lemma str_of_Z_digits (z : Z) : 0 <= z -> all_chars isdigit (str_of_Z z) = true.
Proof.
  intros Hz. destruct z as [ | p | p]; [ reflexivity | | lia ].
  rewrite str_of_Z_pos. apply all_chars_string_of_uint.
Qed.

Lemma str_of_Z_nonempty (z : Z) : nonempty (str_of_Z z) = true.
Proof.
  destruct z as [ | p | p]; [ reflexivity | | now rewrite str_of_Z_neg ].
  rewrite str_of_Z_pos. pose proof (Unsigned.to_uint_nonnil p) as H.
  destruct (Pos.to_uint p); [ now contradiction H | reflexivity .. ].
Qed.

(** Reading back the decimal text of a non-negative integer. *)
Lemma take_digits_str_of_Z (z : Z) (rest : string) :
  0 <= z ->
  PyFloat.take_digits (str_of_Z z +:+ rest) 0 0
  = PyFloat.take_digits rest z (len (str_of_Z z)).
Proof.
  intros Hz. destruct z as [ | p | p]; [ reflexivity | | lia ].
  rewrite str_of_Z_pos, take_digits_uint, Unsigned.of_to. reflexivity.
Qed.

Lemma take_digits_value (s : string) (acc : Z) (n m : nat) :
  fst (fst (PyFloat.take_digits s acc n)) = fst (fst (PyFloat.take_digits s acc m)).
Proof.
  revert acc n m. induction s as [ | c s IH]; intros acc n m; cbn; [ reflexivity | ].
  destruct (isdigit c); cbn; [ apply IH | reflexivity ].
Qed.

Lemma take_digits_stop (s : string) (acc : Z) (n : nat) :
  (forall c r, s = String c r -> isdigit c = false) ->
  PyFloat.take_digits s acc n = (acc, n, s).
Proof.
  destruct s as [ | c r]; [ reflexivity | ].
  intros H. cbn. now rewrite (H c r eq_refl).
Qed.

Lemma parse_sign_digit (c : ascii) (r : string) :
  isdigit c = true -> PyFloat.parse_sign (String c r) = (false, String c r).
Proof. destruct c as [[] [] [] [] [] [] [] []]; try discriminate; reflexivity. Qed.

Lemma digits_with_underscores_digits (s : string) (acc : Z) (after_digit : bool) :
  all_chars isdigit s = true ->
  PyInt.digits_with_underscores s acc after_digit =
    if after_digit || nonempty s then Some (fst (fst (PyFloat.take_digits s acc 0))) else None.
Proof.
  revert acc after_digit. induction s as [ | c s IH]; intros acc b.
  - intros _. cbn. now destruct b.
  - cbn [all_chars]. intros H. apply andb_prop in H as [Hc Hs].
    cbn [PyInt.digits_with_underscores PyFloat.take_digits nonempty]. rewrite Hc.
    rewrite (IH _ _ Hs). cbn [orb]. rewrite orb_true_r.
    f_equal. apply take_digits_value.
Qed.

Lemma strip_underscores_digits (prev : option ascii) (s : string) :
  all_chars isdigit s = true -> prev <> Some "_"%char ->
  PyFloat.strip_underscores prev s = Some s.
Proof.
  revert prev. induction s as [ | c s IH]; intros prev.
  - intros _ Hprev. cbn. destruct prev as [p | ]; [ | reflexivity ].
    destruct (Ascii.eqb_spec p "_") as [-> | Hne]; [ now contradiction Hprev | ].
    destruct p as [[] [] [] [] [] [] [] []]; try reflexivity. now contradiction Hne.
  - cbn [all_chars]. intros H Hprev. apply andb_prop in H as [Hc Hs].
    assert (Hcu : Ascii.eqb c "_" = false).
    { destruct c as [[] [] [] [] [] [] [] []]; try discriminate; reflexivity. }
    assert (Hrec : PyFloat.strip_underscores (Some c) s = Some s).
    { apply IH; [ exact Hs | ]. intros [= ->]. discriminate. }
    cbn [PyFloat.strip_underscores]. rewrite Hcu, Hrec.
    destruct prev as [p | ]; [ | reflexivity ].
    destruct p as [[] [] [] [] [] [] [] []]; try reflexivity. now contradiction Hprev.
Qed.

(** [int(str(z))] is [z]. *)
Lemma int_of_str_of_Z (z : Z) : PyInt.of_string (str_of_Z z) = Some z.
Proof.
  assert (Hpos : forall z, 0 <= z -> PyInt.of_string (str_of_Z z) = Some z).
  { clear z. intros z Hz. pose proof (str_of_Z_digits z Hz) as Hd.
    pose proof (str_of_Z_nonempty z) as Hne.
    unfold PyInt.of_string.
    rewrite rstrip_all, lstrip_all
      by (eapply all_chars_impl; [ apply isdigit_not_c_isspace | exact Hd ]).
    pose proof (take_digits_str_of_Z z EmptyString Hz) as Ht.
    rewrite append_empty_r in Ht.
    destruct (str_of_Z z) as [ | c r] eqn:E; [ discriminate | ].
    cbn [all_chars] in Hd. apply andb_prop in Hd as [Hc Hr].
    rewrite parse_sign_digit by exact Hc.
    rewrite digits_with_underscores_digits by (cbn; now rewrite Hc, Hr).
    cbn [orb nonempty]. now rewrite Ht. }
  destruct z as [ | p | p]; [ reflexivity | apply Hpos; lia | ].
  rewrite str_of_Z_neg.
  pose proof (Hpos (Z.pos p) ltac:(lia)) as H.
  pose proof (str_of_Z_digits (Z.pos p) ltac:(lia)) as Hd.
  unfold PyInt.of_string in *.
  rewrite rstrip_all, lstrip_all in H
    by (eapply all_chars_impl; [ apply isdigit_not_c_isspace | exact Hd ]).
  rewrite rstrip_cons_nonspace by reflexivity.
  rewrite rstrip_all
    by (eapply all_chars_impl; [ apply isdigit_not_c_isspace | exact Hd ]).
  cbn [lstrip_with]. change (c_isspace "-") with false. cbn iota.
  cbn [PyFloat.parse_sign].
  destruct (str_of_Z (Z.pos p)) as [ | c r] eqn:E; [ discriminate | ].
  cbn [all_chars] in Hd. apply andb_prop in Hd as [Hc Hr].
  rewrite parse_sign_digit in H by exact Hc.
  destruct (PyInt.digits_with_underscores _ _ _) as [v | ]; [ | discriminate ].
  injection H as ->. reflexivity.
Qed.

End Decimal.

(** ** Integers that a float holds exactly *)

Section FloatIntegers.
Local Open Scope Z_scope.

Lemma digits2_pos_iter (m k : positive) :
  Z.pos (digits2_pos (Pos.iter xO m k)) = Z.pos (digits2_pos m) + Z.pos k.
Proof.
  induction k as [ | k IH] using Pos.peano_ind.
  - cbn. lia.
  - rewrite Pos.iter_succ. cbn [digits2_pos]. lia.
Qed.

Lemma iter_xO_value (m k : positive) :
  Z.pos (Pos.iter xO m k) = Z.pos m * 2 ^ Z.pos k.
Proof.
  induction k as [ | k IH] using Pos.peano_ind.
  - cbn. lia.
  - rewrite Pos.iter_succ, Pos2Z.inj_succ, Z.pow_succ_r by lia. lia.
Qed.

Lemma digits2_pos_lower (m : positive) :
  2 ^ (Z.pos (digits2_pos m) - 1) <= Z.pos m.
Proof.
  induction m as [m IH | m IH | ]; cbn [digits2_pos]; [ | | cbn; lia ].
  all: rewrite Pos2Z.inj_succ;
    replace (Z.succ (Z.pos (digits2_pos m)) - 1) with (Z.succ (Z.pos (digits2_pos m) - 1)) by lia;
    rewrite Z.pow_succ_r by lia; lia.
Qed.

Lemma digits2_pos_53 (m : positive) :
  Z.pos m < 2 ^ 53 -> Z.pos (digits2_pos m) <= 53.
Proof.
  intros Hm. destruct (Z_le_gt_dec (Z.pos (digits2_pos m)) 53) as [H | H]; [ exact H | ].
  pose proof (digits2_pos_lower m) as Hl.
  assert (2 ^ 53 <= 2 ^ (Z.pos (digits2_pos m) - 1)) by (apply Z.pow_le_mono_r; lia).
  lia.
Qed.

Lemma fexp_small (d : Z) : 1 <= d <= 53 -> fexp PyFloat.prec PyFloat.emax d = d - 53.
Proof. intros H. unfold fexp, emin, PyFloat.prec, PyFloat.emax. lia. Qed.

(** A float whose 53-bit mantissa is already aligned is left as it is. *)
Lemma binary_round_aux_aligned (sx : bool) (mz : positive) (ez : Z) :
  Z.pos (digits2_pos mz) = 53 -> -52 <= ez <= 0 ->
  binary_round_aux PyFloat.prec PyFloat.emax sx (Z.pos mz) ez loc_Exact = S754_finite sx mz ez.
Proof.
  intros Hd He.
  assert (Hshr : shr_fexp PyFloat.prec PyFloat.emax (Z.pos mz) ez loc_Exact
                 = ({| shr_m := Z.pos mz; shr_r := false; shr_s := false |}, ez)).
  { unfold shr_fexp. cbn [Zdigits2 shr_record_of_loc]. rewrite Hd.
    replace (fexp PyFloat.prec PyFloat.emax (53 + ez) - ez) with 0.
    - reflexivity.
    - unfold fexp, emin, PyFloat.prec, PyFloat.emax. lia. }
  unfold binary_round_aux. rewrite Hshr.
  cbn [shr_m loc_of_shr_record round_nearest_even]. rewrite Hshr. cbn [shr_m].
  replace (ez <=? PyFloat.emax - PyFloat.prec) with true; [ reflexivity | ].
  symmetry. apply Z.leb_le. unfold PyFloat.emax, PyFloat.prec. lia.
Qed.

(** The float of a positive integer below 2^53 holds it exactly. *)
Lemma binary_round_exact (sx : bool) (m : positive) :
  Z.pos m < 2 ^ 53 ->
  exists (mz : positive) (ez : Z),
    binary_round PyFloat.prec PyFloat.emax sx m 0 = S754_finite sx mz ez
    /\ -52 <= ez <= 0 /\ Z.pos mz = Z.pos m * 2 ^ (- ez).
Proof.
  intros Hm. pose proof (digits2_pos_53 m Hm) as Hd.
  unfold binary_round. rewrite Z.add_0_r, fexp_small by lia.
  unfold shl_align. rewrite Z.sub_0_r.
  destruct (Z.pos (digits2_pos m) - 53) as [ | k | k] eqn:Hk; [ | lia | ].
  - exists m, 0. rewrite binary_round_aux_aligned by lia.
    split; [ reflexivity | ]. split; [ lia | ]. cbn. lia.
  - exists (Pos.iter xO m k), (Z.neg k).
    rewrite binary_round_aux_aligned.
    + split; [ reflexivity | ]. split; [ lia | ]. apply iter_xO_value.
    + rewrite digits2_pos_iter. lia.
    + lia.
Qed.

Lemma trunc_of_Z (n : Z) :
  - 2 ^ 53 < n < 2 ^ 53 -> PyFloat.trunc (PyFloat.of_Z n) = Returns n.
Proof.
  intros Hn. unfold PyFloat.of_Z, binary_normalize.
  destruct n as [ | m | m]; [ reflexivity | | ].
  - destruct (binary_round_exact false m) as (mz & ez & -> & He & Hmz); [ lia | ].
    cbn [PyFloat.trunc]. rewrite Hmz. f_equal.
    destruct (0 <=? ez) eqn:E.
    + apply Z.leb_le in E. replace ez with 0 by lia. cbn. lia.
    + rewrite Z.div_mul; [ reflexivity | ]. apply Z.pow_nonzero; lia.
  - destruct (binary_round_exact true m) as (mz & ez & -> & He & Hmz); [ lia | ].
    cbn [PyFloat.trunc]. rewrite Hmz. f_equal.
    destruct (0 <=? ez) eqn:E.
    + apply Z.leb_le in E. replace ez with 0 by lia. cbn. lia.
    + rewrite Z.div_mul; [ lia | ]. apply Z.pow_nonzero; lia.
Qed.

End FloatIntegers.

(** ** Distances in yards *)

Section Yards.

Import PyStr Standardizer.
Local Open Scope Z_scope.

(** [float(str(z))] is the float of [z]. *)
Lemma float_of_str_of_Z (z : Z) :
  0 <= z -> PyFloat.of_string (str_of_Z z) = Returns (PyFloat.of_Z z).
Proof.
  intros Hz. pose proof (str_of_Z_digits z Hz) as Hd.
  pose proof (str_of_Z_nonempty z) as Hne.
  pose proof (take_digits_str_of_Z z EmptyString Hz) as Ht.
  rewrite append_empty_r in Ht. cbn [PyFloat.take_digits] in Ht.
  unfold PyFloat.of_string, PyFloat.of_string_opt.
  rewrite strip_underscores_digits by (exact Hd || discriminate).
  rewrite rstrip_all, lstrip_all
    by (eapply all_chars_impl; [ apply isdigit_not_c_isspace | exact Hd ]).
  unfold PyFloat.parse_decimal.
  destruct (str_of_Z z) as [ | c r] eqn:E; [ discriminate | ].
  cbn [all_chars] in Hd. apply andb_prop in Hd as [Hc Hr].
  rewrite parse_sign_digit by exact Hc. rewrite Ht.
  cbn [len Nat.add Nat.eqb].
  unfold PyFloat.of_decimal, PyFloat.of_Z.
  destruct z as [ | p | p]; [ reflexivity | | lia ].
  change (- Z.of_nat 0) with 0. change (0 <=? 0) with true. cbn iota.
  change (10 ^ 0) with 1. now rewrite Z.mul_1_r.
Qed.

Lemma yard_unit (unit : string) :
  mem (upper unit) yard_units = true ->
  nonempty unit = true
  /\ mem (upper unit) furlong_units = false
  /\ mem (upper unit) mile_units = false.
Proof.
  intros H. split.
  - destruct unit; [ discriminate | reflexivity ].
  - unfold mem, yard_units in H. cbn [existsb] in H.
    rewrite orb_false_r in H.
    apply orb_prop in H as [H | H]; [ | apply orb_prop in H as [H | H] ];
      apply String.eqb_eq in H; rewrite H; split; reflexivity.
Qed.

(** X1.  Yards pass through: the decimal text of an integer that a float holds
    exactly is returned unchanged under any of the yard units. *)
Theorem parse_distance_yards_round_trip (n : Z) (unit : string) :
  0 <= n < 2 ^ 53 ->
  mem (upper unit) yard_units = true ->
  parse_distance (Some (str_of_Z n)) (Some unit) = Returns (Some n).
Proof.
  intros Hn Hunit. destruct (yard_unit unit Hunit) as (Hne & Hf & Hm).
  unfold parse_distance, parse_distance_body.
  cbn [truthy text_of text_of_option]. rewrite str_of_Z_nonempty. cbn [negb].
  rewrite strip_all
    by (eapply all_chars_impl; [ apply isdigit_not_isspace | apply str_of_Z_digits; lia ]).
  rewrite float_of_str_of_Z by lia. cbn [mbind outcome_bind].
  cbn [truthy]. rewrite Hne. cbn [negb text_of text_of_option].
  cbn [truthy]. rewrite Hne, Hf, Hm, Hunit.
  unfold int_yards. rewrite trunc_of_Z by lia. reflexivity.
Qed.

Lemma parse_distance_yards_round_trip_witness :
  parse_distance (Some (str_of_Z 1320)) (Some "yards"%string) = Returns (Some 1320).
Proof.
  apply (parse_distance_yards_round_trip 1320 "yards"); [ lia | reflexivity ].
Defined.

End Yards.

(** ** Distances that are not finite numbers *)

Section Sentinels.

Import PyStr Standardizer.

Lemma parse_distance_nan (s : string) (unit : option string) :
  PyFloat.of_string (strip s) = Returns S754_nan ->
  parse_distance (Some s) unit = Returns None.
Proof.
  intros Hparse. unfold parse_distance, parse_distance_body.
  cbn [truthy text_of text_of_option].
  destruct (nonempty s); [ | reflexivity ].
  cbn [negb]. rewrite Hparse. cbn [mbind outcome_bind].
  case_tests; reflexivity.
Qed.

(** X2.  What [parse_distance] does with a value that is not a finite number:
    an absent or empty value, a text that [float] rejects and a NaN give
    [None], with any unit; and the only exception that ever leaves the
    function is [OverflowError]. *)
Theorem parse_distance_sentinels (unit : option string) :
  parse_distance None unit = Returns None
  /\ parse_distance (Some ""%string) unit = Returns None
  /\ (forall s, PyFloat.of_string (strip s) = Raises ValueError ->
        parse_distance (Some s) unit = Returns None)
  /\ (forall s, PyFloat.of_string (strip s) = Returns S754_nan ->
        parse_distance (Some s) unit = Returns None)
  /\ (forall distance_value e, parse_distance distance_value unit = Raises e ->
        e = OverflowError).
Proof.
  split; [ reflexivity | ]. split; [ reflexivity | ].
  split; [ intros s; apply parse_distance_not_a_number | ].
  split; [ intros s; apply parse_distance_nan | ].
  intros distance_value e. apply parse_distance_only_overflow.
Qed.

Lemma parse_distance_sentinels_witness :
  parse_distance (Some "six furlongs"%string) (Some "F"%string) = Returns None
  /\ parse_distance (Some " NaN "%string) None = Returns None.
Proof.
  split.
  - apply (proj1 (proj2 (proj2 (parse_distance_sentinels (Some "F"%string))))).
    vm_compute. reflexivity.
  - apply (proj1 (proj2 (proj2 (proj2 (parse_distance_sentinels None))))).
    vm_compute. reflexivity.
Defined.

End Sentinels.

(** ** The tokens of an equipment text *)

Section EquipmentTokens.

Import PyStr Standardizer.

Lemma mem_In (x : string) (xs : list string) : mem x xs = true <-> In x xs.
Proof.
  unfold mem. rewrite existsb_exists. split.
  - intros (y & Hy & Heq). apply String.eqb_eq in Heq. now subst.
  - intros H. exists x. split; [ exact H | apply String.eqb_refl ].
Qed.

Lemma all_chars_rev_string (p : ascii -> bool) (acc s : string) :
  all_chars p (rev_string acc s) = all_chars p acc && all_chars p s.
Proof.
  revert acc. induction s as [ | c s IH]; intros acc; cbn.
  - now rewrite andb_true_r.
  - rewrite IH. cbn. destruct (p c), (all_chars p acc), (all_chars p s); reflexivity.
Qed.

(** The tokens of a split hold no separator. *)
Lemma split_runs_tokens (sep : ascii -> bool) (s cur : string) (insep : bool) (item : string) :
  all_chars (fun c => negb (sep c)) cur = true ->
  In item (split_runs sep cur insep s) ->
  all_chars (fun c => negb (sep c)) item = true.
Proof.
  revert cur insep. induction s as [ | c s IH]; intros cur insep Hcur; cbn.
  - intros [<- | []]. now rewrite all_chars_rev_string, Hcur.
  - destruct (sep c) eqn:Hc.
    + destruct insep.
      * now apply IH.
      * intros [<- | Hin].
        -- now rewrite all_chars_rev_string, Hcur.
        -- now apply (IH EmptyString true).
    + apply IH. cbn. now rewrite Hc.
Qed.

Lemma equipment_item_stripped (s item : string) :
  In item (re_split_equipment s) -> strip item = item.
Proof.
  intros Hin. apply strip_all.
  apply (all_chars_impl (fun c => negb (is_equipment_sep c))).
  - intros c. unfold is_equipment_sep. destruct (isspace c); [ | reflexivity ].
    now rewrite !orb_true_r.
  - eapply split_runs_tokens; [ | exact Hin ]. reflexivity.
Qed.

Lemma equipment_step_tokens (acc : list string) (item token : string) :
  In token (equipment_step acc item) <->
  In token acc
  \/ (strip item <> EmptyString
      /\ (dict_get equipment_mappings (strip item) = Some token
          \/ dict_get equipment_mappings (strip item) = None /\ token = strip item)).
Proof.
  unfold equipment_step. destruct (strip item) as [ | c it] eqn:E.
  - cbn. split; [ now left | ]. intros [H | [H _]]; [ exact H | now contradiction H ].
  - cbn [nonempty]. destruct (dict_get equipment_mappings (String c it)) as [std | ].
    + destruct (mem std acc) eqn:Hmem.
      * apply mem_In in Hmem. split; [ now left | ].
        intros [H | (_ & [[= <-] | [[=] _]])]; assumption.
      * rewrite in_app_iff. cbn. split.
        -- intros [H | [<- | []]]; [ now left | right ].
           split; [ discriminate | now left ].
        -- intros [H | (_ & [[= <-] | [[=] _]])]; [ now left | right; now left ].
    + rewrite in_app_iff. cbn. split.
      * intros [H | [<- | []]]; [ now left | right ].
        split; [ discriminate | now right ].
      * intros [H | (_ & [[=] | [_ ->]])]; [ now left | right; now left ].
Qed.

Lemma fold_equipment_tokens (items acc : list string) (token : string) :
  In token (fold_left equipment_step items acc) <->
  In token acc
  \/ exists item, In item items /\ strip item <> EmptyString
       /\ (dict_get equipment_mappings (strip item) = Some token
           \/ dict_get equipment_mappings (strip item) = None /\ token = strip item).
Proof.
  revert acc. induction items as [ | i items IH]; intros acc; cbn [fold_left].
  - split; [ now left | ]. intros [H | (item & [] & _)]. exact H.
  - rewrite IH, equipment_step_tokens. split.
    + intros [[H | H] | (item & Hin & H)].
      * now left.
      * right. exists i. split; [ now left | exact H ].
      * right. exists item. split; [ now right | exact H ].
    + intros [H | (item & [<- | Hin] & H)].
      * left. now left.
      * left. now right.
      * right. now exists item.
Qed.

(** X3.  The tokens of the result are exactly what the non-empty tokens of the
    cleaned text stand for: the standard name of a known code, and an
    unknown token as it is.  (How often a token comes is another matter.) *)
Theorem standardize_equipment_tokens (equipment_string token : string) :
  In token (standardize_equipment (Some equipment_string)) <->
  exists item,
    In item (re_split_equipment (upper (strip equipment_string)))
    /\ item <> EmptyString
    /\ (dict_get equipment_mappings item = Some token
        \/ dict_get equipment_mappings item = None /\ token = item).
Proof.
  unfold standardize_equipment. cbn [text_of text_of_option].
  destruct (blank (Some equipment_string)) eqn:Hblank.
  - split; [ intros [] | ]. intros (item & Hin & Hne & _).
    assert (Hs : strip equipment_string = EmptyString).
    { unfold blank in Hblank. destruct equipment_string; [ reflexivity | ].
      cbn [nonempty negb orb] in Hblank. now apply String.eqb_eq in Hblank. }
    rewrite Hs in Hin. cbn in Hin. destruct Hin as [<- | []]. now contradiction Hne.
  - rewrite fold_equipment_tokens. split.
    + intros [[] | (item & Hin & H)]. exists item. split; [ exact Hin | ].
      now rewrite (equipment_item_stripped _ _ Hin) in H.
    + intros (item & Hin & H). right. exists item. split; [ exact Hin | ].
      now rewrite (equipment_item_stripped _ _ Hin).
Qed.

End EquipmentTokens.

(** ** The class level of a race type *)

Section ClassLevel.

Import PyStr Standardizer.
Local Open Scope Z_scope.

Lemma hierarchy_levels (code : string) (level : Z) :
  In (code, level) race_type_hierarchy -> 1 <= level <= 10 /\ code <> "UNKNOWN"%string.
Proof.
  unfold race_type_hierarchy. cbn [In].
  intros H. repeat (destruct H as [[= <- <-] | H]; [ split; [ lia | discriminate ] | ]).
  destruct H.
Qed.

(** X4.  The class level is between 0 and 10, and it is 0, with the code
    UNKNOWN, exactly for an absent or blank text. *)
Theorem race_type_class_level_range (raw_value : option string) :
  let r := standardize_race_type raw_value in
  0 <= class_level r <= 10
  /\ (class_level r = 0 <-> blank raw_value = true)
  /\ (race_type_code r = "UNKNOWN"%string <-> blank raw_value = true).
Proof.
  cbv zeta. unfold standardize_race_type.
  destruct (blank raw_value); [ cbn; repeat split; lia | ].
  destruct (_ || _); [ cbn; repeat split; (lia || discriminate) | ].
  destruct (first_code_in _ _) as [[code level] | ] eqn:Hfirst.
  - apply first_code_in_In, hierarchy_levels in Hfirst as [Hl Hc].
    cbn. repeat split; try lia; try discriminate. intros ->. now contradiction Hc.
  - case_tests; cbn; repeat split; (lia || discriminate).
Qed.

End ClassLevel.

(** ** Stripping, again *)

Section Stripping.

Import PyStr.

Lemma rstrip_idempotent (sp : ascii -> bool) (s : string) :
  rstrip_with sp (rstrip_with sp s) = rstrip_with sp s.
Proof.
  induction s as [ | c s IH]; [ reflexivity | ].
  cbn. destruct (rstrip_with sp s) as [ | b r] eqn:E.
  - destruct (sp c) eqn:Hc; [ reflexivity | ]. cbn. now rewrite Hc.
  - cbn [rstrip_with]. cbn [rstrip_with] in IH. now rewrite IH.
Qed.

Lemma lstrip_idempotent (sp : ascii -> bool) (s : string) :
  lstrip_with sp (lstrip_with sp s) = lstrip_with sp s.
Proof.
  induction s as [ | c s IH]; [ reflexivity | ].
  cbn. destruct (sp c) eqn:Hc; [ exact IH | ]. cbn. now rewrite Hc.
Qed.

Lemma lstrip_rstrip (sp : ascii -> bool) (s : string) :
  lstrip_with sp (rstrip_with sp s) = rstrip_with sp (lstrip_with sp s).
Proof.
  induction s as [ | c s IH]; [ reflexivity | ].
  destruct (sp c) eqn:Hc.
  - cbn [lstrip_with rstrip_with]. rewrite Hc, <- IH.
    destruct (rstrip_with sp s); [ reflexivity | ].
    cbn [lstrip_with]. now rewrite Hc.
  - rewrite rstrip_cons_nonspace by exact Hc.
    cbn [lstrip_with]. rewrite Hc. now rewrite rstrip_cons_nonspace.
Qed.

Lemma strip_idempotent (s : string) : strip (strip s) = strip s.
Proof.
  unfold strip.
  now rewrite <- (lstrip_rstrip _ (rstrip_with isspace s)), rstrip_idempotent,
    lstrip_idempotent.
Qed.

Lemma lstrip_suffix (sp : ascii -> bool) (s : string) :
  exists pre, s = pre +:+ lstrip_with sp s.
Proof.
  induction s as [ | c s [pre IH]]; [ now exists EmptyString | ].
  cbn. destruct (sp c).
  - exists (String c pre). rewrite append_cons. now f_equal.
  - now exists EmptyString.
Qed.

Lemma rstrip_prefix (sp : ascii -> bool) (s : string) :
  exists post, s = rstrip_with sp s +:+ post.
Proof.
  induction s as [ | c s [post IH]]; [ now exists EmptyString | ].
  cbn. destruct (rstrip_with sp s) as [ | b r] eqn:E.
  - destruct (sp c).
    + exists (String c s). reflexivity.
    + exists post. rewrite append_cons. f_equal. exact IH.
  - exists post. rewrite append_cons. f_equal. exact IH.
Qed.

(** The stripped text is a part of the text. *)
Lemma strip_inside (s : string) : exists pre post, s = pre +:+ strip s +:+ post.
Proof.
  unfold strip. destruct (rstrip_prefix isspace s) as [post Hpost].
  destruct (lstrip_suffix isspace (rstrip_with isspace s)) as [pre Hpre].
  exists pre, post. rewrite <- append_assoc, <- Hpre. exact Hpost.
Qed.

Lemma contains_in_strip (p s : string) :
  contains p (strip s) = true -> contains p s = true.
Proof.
  intros H. apply contains_inv in H as (a & b & Hs).
  destruct (strip_inside s) as (pre & post & Heq).
  rewrite Heq, Hs, !append_assoc, <- (append_assoc pre a).
  apply contains_append.
Qed.

(** A phrase that starts and ends with characters that are not white space
    is in the stripped text exactly when it is in the text. *)
Lemma contains_strip_eq (c1 c2 : ascii) (p0 q s : string) :
  isspace c1 = false -> isspace c2 = false ->
  String c1 q = p0 +:+ String c2 EmptyString ->
  contains (String c1 q) (strip s) = contains (String c1 q) s.
Proof.
  intros H1 H2 Hp.
  destruct (contains (String c1 q) s) eqn:E.
  - now apply (contains_strip c1 c2 p0).
  - destruct (contains (String c1 q) (strip s)) eqn:E'; [ | reflexivity ].
    apply contains_in_strip in E'. congruence.
Qed.

Lemma nonempty_upper (s : string) : nonempty (upper s) = nonempty s.
Proof. now destruct s. Qed.

Lemma eqb_empty_upper (s : string) : String.eqb (upper s) "" = String.eqb s "".
Proof. now destruct s. Qed.

Lemma blank_upper (s : string) :
  Standardizer.blank (Some (upper s)) = Standardizer.blank (Some s).
Proof.
  unfold Standardizer.blank.
  now rewrite nonempty_upper, <- upper_strip, eqb_empty_upper.
Qed.

Lemma blank_strip (s : string) :
  Standardizer.blank (Some (strip s)) = Standardizer.blank (Some s).
Proof.
  unfold Standardizer.blank. rewrite strip_idempotent.
  destruct s as [ | c s]; [ reflexivity | ].
  cbn [nonempty negb orb].
  destruct (strip (String c s)); reflexivity.
Qed.

Lemma blank_cleaned (s : string) :
  Standardizer.blank (Some (upper (strip s))) = Standardizer.blank (Some s).
Proof. now rewrite blank_upper, blank_strip. Qed.

Lemma cleaned_cleaned (s : string) :
  upper (strip (upper (strip s))) = upper (strip s).
Proof. now rewrite <- upper_strip, strip_idempotent, upper_idempotent. Qed.

End Stripping.

(** ** Cleaned texts *)

Section NormalForm.

Import PyStr Standardizer.

(** X5.  The cleaning the functions start with, [raw.strip().upper()], is
    idempotent, so a text and its cleaned form are classified alike: letter
    case and the white space around the text do not count.  (The race type
    keeps the stripped text as its description, in its own letter case.) *)
Theorem classification_of_cleaned_text (raw : string) :
  let cleaned := upper (strip raw) in
  standardize_course_type (Some cleaned) = standardize_course_type (Some raw)
  /\ standardize_track_condition (Some cleaned) = standardize_track_condition (Some raw)
  /\ standardize_sex_restrictions (Some cleaned) = standardize_sex_restrictions (Some raw)
  /\ parse_age_restrictions (Some cleaned) = parse_age_restrictions (Some raw)
  /\ standardize_equipment (Some cleaned) = standardize_equipment (Some raw)
  /\ race_type_code (standardize_race_type (Some cleaned))
     = race_type_code (standardize_race_type (Some raw))
  /\ class_level (standardize_race_type (Some cleaned))
     = class_level (standardize_race_type (Some raw))
  /\ purse_category (standardize_race_type (Some cleaned))
     = purse_category (standardize_race_type (Some raw)).
Proof.
  cbv zeta.
  unfold standardize_course_type, standardize_track_condition,
    standardize_sex_restrictions, parse_age_restrictions, standardize_equipment,
    standardize_race_type.
  rewrite blank_cleaned. cbn [text_of text_of_option]. rewrite cleaned_cleaned.
  destruct (blank (Some raw)); [ repeat split | ].
  repeat split.
  all: destruct (_ || _); [ reflexivity | ].
  all: destruct (first_code_in _ _) as [[code level] | ]; [ reflexivity | ].
  all: case_tests; reflexivity.
Qed.

End NormalForm.

(** ** Sex restrictions *)

Section SexRestrictions.

Import PyStr Standardizer.

(** X6.  At most one of the six flags is set. *)
Theorem sex_restrictions_at_most_one_flag (raw_value : option string) :
  let f := standardize_sex_restrictions raw_value in
  Nat.b2n (fillies_and_mares f) + Nat.b2n (colts_and_geldings f)
  + Nat.b2n (fillies_only f) + Nat.b2n (mares_only f)
  + Nat.b2n (colts_only f) + Nat.b2n (geldings_only f) <= 1.
Proof.
  cbv zeta. unfold standardize_sex_restrictions.
  case_tests; cbn; lia.
Qed.

(** The tests of the function can be read on the upper case of the raw
    text: stripping does not change them. *)
Lemma sex_word_in_cleaned (c1 c2 : ascii) (p0 q raw : string) :
  isspace c1 = false -> isspace c2 = false ->
  String c1 q = p0 +:+ String c2 EmptyString ->
  contains (String c1 q) (upper (strip raw)) = contains (String c1 q) (upper raw).
Proof. intros H1 H2 Hp. rewrite upper_strip. now apply (contains_strip_eq c1 c2 p0). Qed.

(** X7.  Both words without the phrase: a text that names fillies and mares in
    another wording than FILLIES AND MARES or F&M, such as MARES AND
    FILLIES, sets none of the three flags for females. *)
Theorem sex_restrictions_both_words_no_phrase (raw : string) :
  contains "FILLIES" (upper raw) = true ->
  contains "MARES" (upper raw) = true ->
  contains "FILLIES AND MARES" (upper raw) = false ->
  contains "F&M" (upper raw) = false ->
  let f := standardize_sex_restrictions (Some raw) in
  fillies_and_mares f = false /\ fillies_only f = false /\ mares_only f = false.
Proof.
  intros Hf Hm Hfm Hamp. cbv zeta. unfold standardize_sex_restrictions.
  cbn [text_of text_of_option].
  rewrite (sex_word_in_cleaned "F" "S" "FILLIES AND MARE" _ raw) by reflexivity.
  rewrite (sex_word_in_cleaned "F" "M" "F&" _ raw) by reflexivity.
  rewrite (sex_word_in_cleaned "F" "S" "FILLIE" _ raw) by reflexivity.
  rewrite (sex_word_in_cleaned "M" "S" "MARE" _ raw) by reflexivity.
  rewrite Hf, Hm, Hfm, Hamp. cbn [orb andb negb].
  case_tests; repeat split.
Qed.

Lemma sex_restrictions_both_words_no_phrase_witness :
  let f := standardize_sex_restrictions (Some "Mares and Fillies"%string) in
  fillies_and_mares f = false /\ fillies_only f = false /\ mares_only f = false.
Proof.
  apply (sex_restrictions_both_words_no_phrase "Mares and Fillies"); reflexivity.
Defined.

End SexRestrictions.

(** ** Age restrictions *)

Section Ages.

Import PyStr Standardizer.
Local Open Scope Z_scope.

Lemma take_digits_no_digit (s : string) (acc : Z) (n : nat) :
  all_chars (fun c => negb (isdigit c)) s = true -> PyFloat.take_digits s acc n = (acc, n, s).
Proof.
  intros H. apply take_digits_stop. intros c r ->.
  cbn in H. apply andb_prop in H as [H _]. now destruct (isdigit c).
Qed.

Lemma take_digits_rest (p : ascii -> bool) (s : string) (acc : Z) (n : nat) :
  all_chars p s = true -> all_chars p (snd (PyFloat.take_digits s acc n)) = true.
Proof.
  revert acc n. induction s as [ | c s IH]; intros acc n H; [ reflexivity | ].
  cbn [PyFloat.take_digits]. destruct (isdigit c); [ | exact H ].
  cbn in H. apply andb_prop in H as [_ H]. now apply IH.
Qed.

Lemma startswith_absent (c : ascii) (q s : string) :
  all_chars (fun x => negb (Ascii.eqb x c)) s = true -> startswith (String c q) s = false.
Proof.
  destruct s as [ | b s]; [ reflexivity | ].
  cbn. intros H. apply andb_prop in H as [H _].
  rewrite Ascii.eqb_sym. now destruct (Ascii.eqb b c).
Qed.

(** A pattern whose literal starts with a character the text does not hold
    matches nowhere. *)
Lemma search_digits_then_absent (c : ascii) (q s : string) :
  all_chars (fun x => negb (Ascii.eqb x c)) s = true ->
  search_digits_then (String c q) s = None.
Proof.
  induction s as [ | b s IH]; [ reflexivity | ].
  intros H. cbn [search_digits_then].
  pose proof (take_digits_rest _ (String b s) 0 0%nat H) as Hrest.
  destruct (PyFloat.take_digits (String b s) 0 0) as [[v n] rest].
  cbn [snd] in Hrest. rewrite (startswith_absent c q rest Hrest), andb_false_r.
  cbn in H. apply andb_prop in H as [_ H]. now apply IH.
Qed.

Lemma search_digits_then_no_digit (lit s : string) :
  all_chars (fun c => negb (isdigit c)) s = true -> search_digits_then lit s = None.
Proof.
  induction s as [ | b s IH]; [ reflexivity | ].
  intros H. cbn [search_digits_then]. rewrite take_digits_no_digit by exact H.
  cbn [Nat.ltb Nat.leb andb]. cbn in H. apply andb_prop in H as [_ H]. now apply IH.
Qed.

Lemma take_digits_run (ds tail : string) (acc : Z) (n : nat) :
  all_chars isdigit ds = true ->
  (forall c r, tail = String c r -> isdigit c = false) ->
  PyFloat.take_digits (ds +:+ tail) acc n
  = (fst (fst (PyFloat.take_digits ds acc 0)), (n + len ds)%nat, tail).
Proof.
  revert acc n. induction ds as [ | c ds IH]; intros acc n Hd Ht.
  - rewrite append_empty, take_digits_stop by exact Ht. cbn. now rewrite Nat.add_0_r.
  - cbn [all_chars] in Hd. apply andb_prop in Hd as [Hc Hd].
    rewrite append_cons. cbn [PyFloat.take_digits len]. rewrite Hc, IH by assumption.
    rewrite (take_digits_value ds _ 1 0). f_equal. f_equal. lia.
Qed.

Lemma no_digit_head (tail : string) :
  all_chars (fun c => negb (isdigit c)) tail = true ->
  forall c r, tail = String c r -> isdigit c = false.
Proof.
  intros H c r ->. cbn in H. apply andb_prop in H as [H _]. now destruct (isdigit c).
Qed.

(** A run of digits followed by a text without digits: the pattern matches
    exactly when the literal comes right after the run. *)
Lemma search_digits_then_run (lit ds tail : string) :
  all_chars isdigit ds = true -> nonempty ds = true ->
  all_chars (fun c => negb (isdigit c)) tail = true ->
  search_digits_then lit (ds +:+ tail) =
    if startswith lit tail
    then Some (fst (fst (PyFloat.take_digits ds 0 0)), drop_chars (len lit) tail)
    else None.
Proof.
  intros Hd Hne Ht.
  destruct (startswith lit tail) eqn:Hs.
  - destruct ds as [ | c ds]; [ discriminate | ].
    rewrite append_cons. cbn [search_digits_then]. rewrite <- append_cons.
    rewrite take_digits_run by (exact Hd || now apply no_digit_head).
    cbn [len Nat.add Nat.ltb Nat.leb andb]. now rewrite Hs.
  - clear Hne. induction ds as [ | c ds IH].
    + rewrite append_empty. now apply search_digits_then_no_digit.
    + rewrite append_cons. cbn [search_digits_then]. rewrite <- append_cons.
      rewrite take_digits_run by (exact Hd || now apply no_digit_head).
      rewrite Hs, andb_false_r. apply IH.
      cbn in Hd. now apply andb_prop in Hd as [_ Hd].
Qed.

Lemma drop_chars_append (a b : string) : drop_chars (len a) (a +:+ b) = b.
Proof. induction a as [ | c a IH]; [ now destruct b | exact IH ]. Qed.

(** The literal right after the first run of digits, whatever follows. *)
Lemma search_digits_then_hit (c : ascii) (q ds tail : string) :
  all_chars isdigit ds = true -> nonempty ds = true -> isdigit c = false ->
  search_digits_then (String c q) (ds +:+ String c q +:+ tail)
  = Some (fst (fst (PyFloat.take_digits ds 0 0)), tail).
Proof.
  intros Hd Hne Hc.
  assert (Hstop : forall x r, String c q +:+ tail = String x r -> isdigit x = false).
  { rewrite append_cons. now intros ? ? [= <- _]. }
  remember (String c q) as lit eqn:Hlit. clear Hlit.
  destruct ds as [ | d ds]; [ discriminate | ].
  rewrite append_cons. cbn [search_digits_then]. rewrite <- append_cons.
  rewrite take_digits_run by assumption.
  cbn [len Nat.add Nat.ltb Nat.leb andb].
  now rewrite startswith_append, drop_chars_append.
Qed.

Lemma search_digits_range_no_digit (s : string) :
  all_chars (fun c => negb (isdigit c)) s = true -> search_digits_range s = None.
Proof.
  induction s as [ | b s IH]; [ reflexivity | ].
  intros H. cbn [search_digits_range]. rewrite take_digits_no_digit by exact H.
  cbn in H. apply andb_prop in H as [_ H]. rewrite (IH H).
  destruct b as [[] [] [] [] [] [] [] []]; try reflexivity.
  now destruct (PyFloat.take_digits s 0 0) as [[w m] rest'].
Qed.

Lemma search_digits_range_run (ds tail : string) :
  all_chars isdigit ds = true ->
  all_chars (fun c => negb (isdigit c)) tail = true ->
  search_digits_range (ds +:+ tail) = None.
Proof.
  intros Hd Ht. induction ds as [ | c ds IH].
  - rewrite append_empty. now apply search_digits_range_no_digit.
  - rewrite append_cons. cbn [search_digits_range]. rewrite <- append_cons.
    rewrite take_digits_run by (exact Hd || now apply no_digit_head).
    cbn in Hd. apply andb_prop in Hd as [_ Hd]. rewrite (IH Hd).
    destruct tail as [ | b tail]; [ reflexivity | ].
    cbn in Ht. apply andb_prop in Ht as [_ Ht].
    destruct b as [[] [] [] [] [] [] [] []]; try reflexivity.
    rewrite take_digits_no_digit by exact Ht. cbn [Nat.ltb Nat.leb]. now rewrite andb_false_r.
Qed.

Lemma search_digits_range_hit (ds1 ds2 : string) :
  all_chars isdigit ds1 = true -> nonempty ds1 = true ->
  all_chars isdigit ds2 = true -> nonempty ds2 = true ->
  search_digits_range (ds1 +:+ "-" +:+ ds2)
  = Some (fst (fst (PyFloat.take_digits ds1 0 0)), fst (fst (PyFloat.take_digits ds2 0 0))).
Proof.
  intros Hd1 Hn1 Hd2 Hn2. destruct ds1 as [ | c ds1]; [ discriminate | ].
  rewrite append_cons. cbn [search_digits_range]. rewrite <- append_cons.
  rewrite take_digits_run; [ | exact Hd1 | now intros ? ? [= <- _] ].
  rewrite append_cons, append_empty.
  pose proof (take_digits_run ds2 EmptyString 0 0 Hd2) as H2.
  rewrite append_empty_r in H2. rewrite H2 by discriminate.
  destruct ds2; [ discriminate | reflexivity ].
Qed.

Lemma str_of_Z_value (z : Z) :
  0 <= z -> fst (fst (PyFloat.take_digits (str_of_Z z) 0 0)) = z.
Proof.
  intros Hz. pose proof (take_digits_str_of_Z z EmptyString Hz) as H.
  rewrite append_empty_r in H. now rewrite H.
Qed.

(** A text that starts with a digit and ends with a literal that stripping
    keeps is its own cleaned form when its letters are capitals. *)
Lemma cleaned_number_then (z : Z) (lit : string) :
  0 <= z -> rstrip_with isspace lit = lit -> lit <> EmptyString -> upper lit = lit ->
  upper (strip (str_of_Z z +:+ lit)) = str_of_Z z +:+ lit
  /\ blank (Some (str_of_Z z +:+ lit)) = false.
Proof.
  intros Hz Hr Hne Hu.
  pose proof (str_of_Z_digits z Hz) as Hd. pose proof (str_of_Z_nonempty z) as Hn.
  assert (Hs : strip (str_of_Z z +:+ lit) = str_of_Z z +:+ lit).
  { unfold strip. rewrite rstrip_append by (now rewrite Hr). rewrite Hr.
    destruct (str_of_Z z) as [ | c r]; [ discriminate | ].
    cbn in Hd. apply andb_prop in Hd as [Hc _].
    rewrite append_cons. cbn. apply isdigit_not_isspace in Hc.
    now destruct (isspace c). }
  split.
  - now rewrite Hs, upper_append, upper_digits, Hu.
  - apply blank_false. rewrite Hs. destruct (str_of_Z z); [ discriminate | discriminate ].
Qed.

Ltac age_shape z lit :=
  let Hc := fresh in let Hb := fresh in
  destruct (cleaned_number_then z lit) as [Hc Hb];
    [ assumption | reflexivity | discriminate | reflexivity | ];
  unfold parse_age_restrictions; rewrite Hb; cbn [text_of text_of_option]; rewrite Hc;
  repeat first
    [ rewrite search_digits_then_run
        by (reflexivity || (apply str_of_Z_digits; assumption) || apply str_of_Z_nonempty)
    | rewrite search_digits_range_run
        by (reflexivity || (apply str_of_Z_digits; assumption)) ];
  cbn [startswith Ascii.eqb Bool.eqb andb];
  rewrite ?str_of_Z_value by assumption; reflexivity.

Lemma digits_without (c : ascii) (s : string) :
  isdigit c = false -> all_chars isdigit s = true ->
  all_chars (fun x => negb (Ascii.eqb x c)) s = true.
Proof.
  intros Hc. apply all_chars_impl. intros x Hx.
  destruct (Ascii.eqb_spec x c) as [-> | ]; [ congruence | reflexivity ].
Qed.

Lemma age_single (n : Z) (rest : string) :
  0 <= n ->
  parse_age_restrictions (Some (str_of_Z n +:+ "YO" +:+ rest))
  = {| min_age := Some n; max_age := Some n |}.
Proof.
  intros Hn.
  pose proof (str_of_Z_digits n Hn) as Hd. pose proof (str_of_Z_nonempty n) as Hne.
  destruct (rstrip_keeps isspace "O" "Y" (str_of_Z n) rest eq_refl) as [post Hr].
  change ("Y" +:+ "O")%string with "YO"%string in Hr.
  assert (Hs : strip (str_of_Z n +:+ "YO" +:+ rest) = str_of_Z n +:+ "YO" +:+ post).
  { unfold strip. rewrite Hr.
    destruct (str_of_Z n) as [ | c r]; [ discriminate | ].
    cbn in Hd. apply andb_prop in Hd as [Hc _].
    rewrite append_cons. cbn. apply isdigit_not_isspace in Hc.
    now destruct (isspace c). }
  unfold parse_age_restrictions. rewrite blank_false.
  - cbn [text_of text_of_option]. rewrite Hs, !upper_append, upper_digits by exact Hd.
    change (upper "YO") with "YO"%string.
    rewrite search_digits_then_hit by (assumption || reflexivity).
    now rewrite str_of_Z_value.
  - rewrite Hs. destruct (str_of_Z n); discriminate.
Qed.

Lemma age_range_shape (n m : Z) :
  0 <= n -> 0 <= m ->
  parse_age_restrictions (Some (str_of_Z n +:+ "-" +:+ str_of_Z m))
  = {| min_age := Some n; max_age := Some m |}.
Proof.
  intros Hn Hm.
  pose proof (str_of_Z_digits n Hn) as Hdn. pose proof (str_of_Z_digits m Hm) as Hdm.
  destruct (cleaned_number_then n ("-" +:+ str_of_Z m)) as [Hc Hb].
  - exact Hn.
  - rewrite append_cons, append_empty, rstrip_cons_nonspace by reflexivity.
    f_equal. apply rstrip_all.
    eapply all_chars_impl; [ apply isdigit_not_isspace | exact Hdm ].
  - discriminate.
  - rewrite append_cons, append_empty. cbn [upper]. now rewrite upper_digits.
  - unfold parse_age_restrictions. rewrite Hb. cbn [text_of text_of_option]. rewrite Hc.
    assert (Habsent : forall c, isdigit c = false -> Ascii.eqb "-" c = false ->
              all_chars (fun x => negb (Ascii.eqb x c)) (str_of_Z n +:+ "-" +:+ str_of_Z m)
              = true).
    { intros c Hcd Hcm. rewrite !all_chars_append.
      rewrite (digits_without c (str_of_Z n)), (digits_without c (str_of_Z m))
        by assumption.
      cbn [all_chars]. now rewrite Hcm. }
    rewrite !search_digits_then_absent by (apply Habsent; reflexivity).
    rewrite search_digits_range_hit
      by (assumption || apply str_of_Z_nonempty).
    now rewrite !str_of_Z_value.
Qed.

(** X8.  The documented shapes, for every number: [nYO] is the single age [n],
    whatever follows; [nU], [n+], [n&UP], [n AND UP] and
    [n YEARS OLD AND UP] are [n] and up; [n-m] is the range. *)
Theorem parse_age_restrictions_shapes (n m : Z) (rest : string) :
  0 <= n -> 0 <= m ->
  parse_age_restrictions (Some (str_of_Z n +:+ "YO" +:+ rest))
    = {| min_age := Some n; max_age := Some n |}
  /\ parse_age_restrictions (Some (str_of_Z n +:+ "U"))
     = {| min_age := Some n; max_age := None |}
  /\ parse_age_restrictions (Some (str_of_Z n +:+ "+"))
     = {| min_age := Some n; max_age := None |}
  /\ parse_age_restrictions (Some (str_of_Z n +:+ "-" +:+ str_of_Z m))
     = {| min_age := Some n; max_age := Some m |}
  /\ parse_age_restrictions (Some (str_of_Z n +:+ "&UP"))
     = {| min_age := Some n; max_age := None |}
  /\ parse_age_restrictions (Some (str_of_Z n +:+ " AND UP"))
     = {| min_age := Some n; max_age := None |}
  /\ parse_age_restrictions (Some (str_of_Z n +:+ " YEARS OLD AND UP"))
     = {| min_age := Some n; max_age := None |}.
Proof.
  intros Hn Hm.
  split; [ now apply age_single | ].
  split; [ age_shape n "U"%string | ].
  split; [ age_shape n "+"%string | ].
  split; [ now apply age_range_shape | ].
  split; [ age_shape n "&UP"%string | ].
  split; [ age_shape n " AND UP"%string | age_shape n " YEARS OLD AND UP"%string ].
Qed.

(** The theorem at the ages 3 and 5: [3YO AND UP] is the single age 3. *)
Lemma parse_age_restrictions_shapes_witness :
  parse_age_restrictions (Some "3YO AND UP"%string)
  = {| min_age := Some 3; max_age := Some 3 |}
  /\ parse_age_restrictions (Some "3-5"%string)
     = {| min_age := Some 3; max_age := Some 5 |}.
Proof.
  pose proof (parse_age_restrictions_shapes 3 5 " AND UP" ltac:(lia) ltac:(lia)) as H.
  split; [ exact (proj1 H) | exact (proj1 (proj2 (proj2 (proj2 H)))) ].
Defined.

End Ages.

(** ** Weight *)

Section Weight.

Import PyStr Standardizer.
Local Open Scope Z_scope.

Lemma isspace_not_isdigit (c : ascii) : isspace c = true -> isdigit c = false.
Proof. destruct c as [[] [] [] [] [] [] [] []]; try discriminate; reflexivity. Qed.

Lemma first_digit_run_lstrip (s : string) :
  first_digit_run (lstrip_with isspace s) = first_digit_run s.
Proof.
  induction s as [ | c s IH]; [ reflexivity | ].
  cbn [lstrip_with]. destruct (isspace c) eqn:Hc; [ | reflexivity ].
  cbn [first_digit_run]. now rewrite (isspace_not_isdigit c Hc).
Qed.

Lemma take_digits_rstrip (s : string) (acc : Z) (n : nat) :
  fst (fst (PyFloat.take_digits (rstrip_with isspace s) acc n))
  = fst (fst (PyFloat.take_digits s acc n)).
Proof.
  revert acc n. induction s as [ | c s IH]; intros acc n; [ reflexivity | ].
  destruct (isdigit c) eqn:Hd.
  - rewrite rstrip_cons_nonspace.
    + cbn [PyFloat.take_digits]. rewrite Hd. apply IH.
    + destruct (isspace c) eqn:Hs; [ | reflexivity ].
      apply isspace_not_isdigit in Hs. congruence.
  - cbn [rstrip_with PyFloat.take_digits]. rewrite Hd.
    destruct (rstrip_with isspace s); [ destruct (isspace c) | ]; cbn; now rewrite ?Hd.
Qed.

Lemma first_digit_run_rstrip (s : string) :
  first_digit_run (rstrip_with isspace s) = first_digit_run s.
Proof.
  induction s as [ | c s IH]; [ reflexivity | ].
  destruct (isdigit c) eqn:Hd.
  - pose proof (take_digits_rstrip (String c s) 0 0) as H.
    rewrite rstrip_cons_nonspace in *.
    + cbn [first_digit_run]. rewrite Hd. now rewrite H.
    + destruct (isspace c) eqn:Hs; [ | reflexivity ].
      apply isspace_not_isdigit in Hs. congruence.
    + destruct (isspace c) eqn:Hs; [ | reflexivity ].
      apply isspace_not_isdigit in Hs. congruence.
  - cbn [rstrip_with first_digit_run]. rewrite Hd, <- IH.
    destruct (rstrip_with isspace s); [ destruct (isspace c) | ]; cbn; now rewrite ?Hd.
Qed.

(** Stripping does not show in the result. *)
Lemma parse_weight_first_digit_run (s : string) :
  parse_weight (Some s) = first_digit_run s.
Proof.
  unfold parse_weight. cbn [truthy text_of text_of_option].
  destruct s as [ | c s]; [ reflexivity | ].
  cbn [nonempty negb]. unfold strip.
  now rewrite first_digit_run_lstrip, first_digit_run_rstrip.
Qed.

Lemma first_digit_run_none (s : string) :
  first_digit_run s = None <-> all_chars (fun c => negb (isdigit c)) s = true.
Proof.
  induction s as [ | c s IH]; [ easy | ].
  cbn. destruct (isdigit c); cbn; [ easy | exact IH ].
Qed.

Lemma first_digit_run_number (pre post : string) (n : Z) :
  0 <= n ->
  all_chars (fun c => negb (isdigit c)) pre = true ->
  (forall c r, post = String c r -> isdigit c = false) ->
  first_digit_run (pre +:+ str_of_Z n +:+ post) = Some n.
Proof.
  intros Hn Hpre Hpost. induction pre as [ | c pre IH].
  - rewrite append_empty.
    pose proof (str_of_Z_digits n Hn) as Hd. pose proof (str_of_Z_nonempty n) as Hne.
    pose proof (take_digits_run (str_of_Z n) post 0 0 Hd Hpost) as Ht.
    rewrite str_of_Z_value in Ht by exact Hn.
    destruct (str_of_Z n) as [ | d ds]; [ discriminate | ].
    rewrite append_cons in *. cbn [first_digit_run].
    cbn in Hd. apply andb_prop in Hd as [Hd _]. rewrite Hd.
    now rewrite Ht.
  - cbn in Hpre. apply andb_prop in Hpre as [Hc Hpre].
    rewrite append_cons. cbn [first_digit_run].
    destruct (isdigit c); [ discriminate | ]. now apply IH.
Qed.

Lemma digit_val_nonneg (c : ascii) : isdigit c = true -> 0 <= digit_val c.
Proof.
  unfold isdigit, digit_val. intros H. apply andb_prop in H as [H _].
  apply Nat.leb_le in H. lia.
Qed.

Lemma take_digits_nonneg (s : string) (acc : Z) (n : nat) :
  0 <= acc -> 0 <= fst (fst (PyFloat.take_digits s acc n)).
Proof.
  revert acc n. induction s as [ | c s IH]; intros acc n Hacc; [ exact Hacc | ].
  cbn [PyFloat.take_digits]. destruct (isdigit c) eqn:Hd; [ | exact Hacc ].
  apply IH. pose proof (digit_val_nonneg c Hd). lia.
Qed.

Lemma first_digit_run_nonneg (s : string) (w : Z) : first_digit_run s = Some w -> 0 <= w.
Proof.
  revert w. induction s as [ | c s IH]; intros w; [ discriminate | ].
  cbn [first_digit_run]. destruct (isdigit c) eqn:Hd; [ | apply IH ].
  intros [= <-]. apply (take_digits_nonneg (String c s) 0 0). lia.
Qed.

(** X9.  The weight is the first run of digits of the text, whatever surrounds
    it, and there is no weight exactly when the text holds no digit. *)
Theorem parse_weight_first_number :
  (forall (pre post : string) (n : Z),
      0 <= n ->
      all_chars (fun c => negb (isdigit c)) pre = true ->
      (forall c r, post = String c r -> isdigit c = false) ->
      parse_weight (Some (pre +:+ str_of_Z n +:+ post)) = Some n)
  /\ (forall weight_value : option string,
        parse_weight weight_value = None
        <-> all_chars (fun c => negb (isdigit c)) (text_of_option weight_value) = true)
  /\ (forall (weight_value : option string) (w : Z),
        parse_weight weight_value = Some w -> 0 <= w).
Proof.
  split; [ | split ].
  - intros pre post n Hn Hpre Hpost.
    rewrite parse_weight_first_digit_run. now apply first_digit_run_number.
  - intros [s | ]; [ | easy ].
    rewrite parse_weight_first_digit_run. apply first_digit_run_none.
  - intros [s | ] w; [ | discriminate ].
    rewrite parse_weight_first_digit_run. apply first_digit_run_nonneg.
Qed.

(** The theorem at the text [122 lbs]. *)
Lemma parse_weight_first_number_witness :
  parse_weight (Some "wt 122 lbs"%string) = Some 122.
Proof.
  apply (proj1 parse_weight_first_number "wt " " lbs" 122);
    [ lia | reflexivity | now intros ? ? [= <- _] ].
Defined.

End Weight.

(** ** Phase 1: what a run leaves in the store *)

Section Phase1Store.

Import PyStr Horses.





End Phase1Store.

(** ** Phase 1: the statistics of a run *)

Section Phase1Statistics.

Import PyStr Horses.





Section Store.

Variable execute : statement -> database -> database * option exn.
Variable commit_raises : database -> bool.




End Store.

End Phase1Statistics.

(** ** Splitting at a character *)

Section Splitting.

Import PyStr.

Lemma rev_string_rev (a cur acc : string) :
  rev_string acc (rev_string cur a) = rev_string (a +:+ acc) cur.
Proof.
  revert cur. induction a as [ | c a IH]; intros cur; [ reflexivity | ].
  cbn [rev_string]. rewrite IH. reflexivity.
Qed.

(** The characters before the first separator are read into the first
    part. *)
Lemma split_char_run (sep : ascii) (a t cur : string) :
  all_chars (fun x => negb (Ascii.eqb x sep)) a = true ->
  split_char sep cur (a +:+ t) = split_char sep (rev_string cur a) t.
Proof.
  revert cur. induction a as [ | c a IH]; intros cur H; [ reflexivity | ].
  cbn in H. apply andb_prop in H as [Hc Ha].
  rewrite append_cons. cbn [split_char rev_string].
  destruct (Ascii.eqb c sep); [ discriminate | ]. now apply IH.
Qed.

(** The first part of a split is what precedes the first separator. *)
Lemma split_char_first (sep : ascii) (a t d : string) :
  all_chars (fun x => negb (Ascii.eqb x sep)) a = true ->
  hd d (split_char sep EmptyString (a +:+ String sep t)) = a.
Proof.
  intros H. rewrite split_char_run by exact H.
  cbn [split_char]. rewrite Ascii.eqb_refl. cbn [hd].
  rewrite rev_string_rev. cbn. apply append_empty_r.
Qed.

(** The first part, in general: it starts with the characters before the
    first separator met. *)
Lemma split_char_first_prefix (sep : ascii) (a t d : string) :
  all_chars (fun x => negb (Ascii.eqb x sep)) a = true ->
  exists t', hd d (split_char sep EmptyString (a +:+ t)) = a +:+ t'.
Proof.
  intros H. rewrite split_char_run by exact H.
  assert (G : forall cur, exists t', hd d (split_char sep cur t) = rev_string t' cur).
  { induction t as [ | c t IH]; intros cur.
    - exists EmptyString. reflexivity.
    - cbn [split_char]. destruct (Ascii.eqb c sep).
      + exists EmptyString. reflexivity.
      + destruct (IH (String c cur)) as [t' Ht']. exists (String c t'). exact Ht'. }
  destruct (G (rev_string EmptyString a)) as [t' Ht'].
  exists t'. now rewrite Ht', rev_string_rev.
Qed.

Lemma contains_char (c : ascii) (s : string) :
  contains (String c EmptyString) s = negb (all_chars (fun x => negb (Ascii.eqb x c)) s).
Proof.
  induction s as [ | b s IH]; [ reflexivity | ].
  cbn [contains startswith all_chars]. rewrite IH.
  rewrite (Ascii.eqb_sym c b). destruct (Ascii.eqb b c); [ reflexivity | ].
  cbn. reflexivity.
Qed.

End Splitting.

(** ** Phase 1: foaling dates *)

Section Dates.

Import PyStr Horses.

Lemma parse_date_not_blank (d : string) (c : ascii) (pre post : string) :
  d = pre +:+ String c post -> isspace c = false ->
  negb (nonempty d) || String.eqb (strip d) "" = false.
Proof.
  intros -> Hc.
  assert (Hin : contains (String c EmptyString) (strip (pre +:+ String c post)) = true).
  { apply (contains_strip c c EmptyString); try assumption; [ reflexivity | ].
    apply (contains_append (String c EmptyString) pre post). }
  destruct (strip _) as [ | x s]; [ discriminate | ].
  destruct pre; reflexivity.
Qed.

(** X13.  The date of a text with a time zone or a time of day: what precedes
    the first [+] or [T], for every date part without those two
    characters and whatever follows. *)
Theorem parse_date_drops_zone_and_time (date rest : string) :
  all_chars (fun x => negb (Ascii.eqb x "+")) date = true ->
  all_chars (fun x => negb (Ascii.eqb x "T")) date = true ->
  parse_date (Some (date +:+ "+" +:+ rest)) = Some date
  /\ parse_date (Some (date +:+ "T" +:+ rest)) = Some date.
Proof.
  intros Hplus HT. split; unfold parse_date.
  - rewrite (parse_date_not_blank _ "+" date rest) by reflexivity.
    change ("+" +:+ rest) with (String "+" rest).
    rewrite (contains_append "+" date rest : contains "+" (date +:+ String "+" rest) = true).
    rewrite split_char_first by exact Hplus.
    rewrite contains_char, HT. reflexivity.
  - rewrite (parse_date_not_blank _ "T" date rest) by reflexivity.
    change ("T" +:+ rest) with (String "T" rest).
    assert (Hd1 : exists t,
              (if contains "+" (date +:+ String "T" rest)
               then hd (date +:+ String "T" rest)
                      (split_char "+" EmptyString (date +:+ String "T" rest))
               else date +:+ String "T" rest) = date +:+ String "T" t).
    { destruct (contains "+" _); [ | now exists rest ].
      destruct (split_char_first_prefix "+" (date +:+ "T") rest
                  (date +:+ String "T" rest)) as [t Ht].
      - rewrite all_chars_append, Hplus. reflexivity.
      - exists t. rewrite append_assoc in Ht. rewrite append_assoc in Ht. exact Ht. }
    destruct Hd1 as [t ->].
    rewrite (contains_append "T" date t : contains "T" (date +:+ String "T" t) = true).
    now rewrite split_char_first.
Qed.

Lemma parse_date_drops_zone_and_time_witness :
  parse_date (Some "2001-03-25+00:00"%string) = Some "2001-03-25"%string
  /\ parse_date (Some "2001-03-25T00:00:00+00:00"%string) = Some "2001-03-25"%string.
Proof.
  split.
  - apply (proj1 (parse_date_drops_zone_and_time "2001-03-25" "00:00" eq_refl eq_refl)).
  - apply (proj2 (parse_date_drops_zone_and_time "2001-03-25" "00:00:00+00:00"
                    eq_refl eq_refl)).
Defined.

End Dates.

(** ** Phase 1: horse records and their keys *)

Section HorseRecords.

Import PyStr Horses.







End HorseRecords.

(** ** Phase 2: race records *)

Section Races.

Import PyStr PastPerformance.

(** X15.  When phase 2 drops a race: it has no race number, the number is not an
    integer, or the conversion of its distance raises (an infinite
    distance).  Nothing else makes [extract_race_data] return [None]. *)
Theorem extract_race_data_dropped_iff (race_element : Xml.element)
    (track_code race_date filename : string) :
  extract_race_data race_element track_code race_date filename = None
  <-> truthy (Xml.extract_text race_element "RaceNumber") = false
      \/ PyInt.of_string (text_of_option (Xml.extract_text race_element "RaceNumber")) = None
      \/ Standardizer.parse_distance
           (Xml.extract_text race_element "Distance/DistanceId")
           (Xml.extract_text race_element "Distance/DistanceUnit/Value")
         = Raises OverflowError.
Proof.
  unfold extract_race_data, extract_race_data_body.
  destruct (truthy (Xml.extract_text race_element "RaceNumber")) eqn:Htruthy;
    cbn [negb]; [ | split; [ now left | reflexivity ] ].
  unfold Standardizer.create_standardized_race_features.
  cbn [Standardizer.distance Standardizer.distance_unit].
  destruct (Standardizer.parse_distance _ _) as [yards | e] eqn:Hd.
  - cbn [mbind outcome_bind mret outcome_ret].
    destruct (PyInt.of_string _) as [n | ]; cbn.
    + split; [ discriminate | ]. intros [H | [H | H]]; discriminate.
    + split; [ intros _; right; now left | reflexivity ].
  - apply parse_distance_only_overflow in Hd as ->. cbn.
    split; [ intros _; right; now right | reflexivity ].
Qed.

Lemma extract_race_data_some (race_element : Xml.element)
    (track_code race_date filename : string) (r : race_data) :
  extract_race_data race_element track_code race_date filename = Some r ->
  exists number,
    Xml.extract_text race_element "RaceNumber" = Some number
    /\ number <> EmptyString
    /\ race_id r = track_code +:+ "_" +:+ race_date +:+ "_" +:+ number
    /\ PyInt.of_string number = Some (race_number r)
    /\ PastPerformance.track_code r = track_code
    /\ PastPerformance.race_date r = race_date
    /\ source_file r = filename
    /\ data_source r = "past_performance"%string
    /\ Standardizer.parse_distance
         (Xml.extract_text race_element "Distance/DistanceId")
         (Xml.extract_text race_element "Distance/DistanceUnit/Value")
       = Returns (Standardizer.distance_yards (features r)).
Proof.
  unfold extract_race_data, extract_race_data_body.
  destruct (Xml.extract_text race_element "RaceNumber") as [number | ];
    [ | discriminate ].
  destruct number as [ | c number]; [ discriminate | ].
  cbn [truthy nonempty negb text_of_option].
  unfold Standardizer.create_standardized_race_features.
  cbn [Standardizer.distance Standardizer.distance_unit].
  destruct (Standardizer.parse_distance _ _) as [yards | e]; [ | discriminate ].
  cbn [mbind outcome_bind mret outcome_ret].
  destruct (PyInt.of_string _) as [n | ] eqn:Hn; [ | discriminate ].
  cbn. intros [= <-]. exists (String c number). cbn. repeat split; try assumption.
  discriminate.
Qed.

(** X16.  A race record that phase 2 makes: its key is the track code, the date
    and the text of the race number joined by underscores; its number is
    the integer of that text; it carries the track code, the date and the
    file name it was given; and its distance is what [parse_distance]
    returned. *)
Theorem extract_race_data_fields (race_element : Xml.element)
    (track_code race_date filename : string) (r : race_data) :
  extract_race_data race_element track_code race_date filename = Some r ->
  exists number,
    Xml.extract_text race_element "RaceNumber" = Some number
    /\ number <> EmptyString
    /\ race_id r = track_code +:+ "_" +:+ race_date +:+ "_" +:+ number
    /\ PyInt.of_string number = Some (race_number r)
    /\ PastPerformance.track_code r = track_code
    /\ PastPerformance.race_date r = race_date
    /\ source_file r = filename
    /\ data_source r = "past_performance"%string
    /\ Standardizer.parse_distance
         (Xml.extract_text race_element "Distance/DistanceId")
         (Xml.extract_text race_element "Distance/DistanceUnit/Value")
       = Returns (Standardizer.distance_yards (features r)).
Proof. apply extract_race_data_some. Qed.

Lemma extract_race_data_fields_witness :
  exists r number,
    extract_race_data (Xml.Element "Race" [] None [Scenario.leaf "RaceNumber" " 7 "])
      "AQU" "2023-01-01" "f.xml" = Some r
    /\ Xml.extract_text (Xml.Element "Race" [] None [Scenario.leaf "RaceNumber" " 7 "])
         "RaceNumber" = Some number
    /\ race_id r = "AQU_2023-01-01_7"%string
    /\ race_number r = 7%Z.
Proof.
  destruct (extract_race_data (Xml.Element "Race" [] None [Scenario.leaf "RaceNumber" " 7 "])
              "AQU" "2023-01-01" "f.xml") as [r | ] eqn:E;
    [ | vm_compute in E; discriminate ].
  destruct (extract_race_data_fields _ _ _ _ r E)
    as (number & Hnum & _ & Hid & Hn & _).
  exists r, number. split; [ reflexivity | ]. split; [ exact Hnum | ].
  vm_compute in Hnum. injection Hnum as <-.
  split; [ exact Hid | ].
  change (PyInt.of_string "7") with (Some 7%Z) in Hn. congruence.
Defined.

End Races.

(** ** Phase 2: what the file name gives *)

Section FileNames.

Import PyStr PastPerformance.

Lemma len_take_chars (n : nat) (s : string) : len (take_chars n s) = Nat.min n (len s).
Proof.
  revert s. induction n as [ | n IH]; intros s; [ reflexivity | ].
  destruct s as [ | c s]; [ reflexivity | ]. cbn. now rewrite IH.
Qed.

Lemma len_drop_chars (n : nat) (s : string) : len (drop_chars n s) = len s - n.
Proof.
  revert s. induction n as [ | n IH]; intros s; [ cbn; lia | ].
  destruct s as [ | c s]; [ reflexivity | ]. cbn. now rewrite IH.
Qed.

Lemma len_slice (a b : nat) (s : string) : len (slice a b s) = Nat.min (b - a) (len s - a).
Proof. unfold slice. now rewrite len_take_chars, len_drop_chars. Qed.

Lemma all_chars_take (p : ascii -> bool) (n : nat) (s : string) :
  all_chars p s = true -> all_chars p (take_chars n s) = true.
Proof.
  revert s. induction n as [ | n IH]; intros s H; [ reflexivity | ].
  destruct s as [ | c s]; [ reflexivity | ].
  cbn in *. apply andb_prop in H as [Hc Hs]. now rewrite Hc, IH.
Qed.

Lemma all_chars_drop (p : ascii -> bool) (n : nat) (s : string) :
  all_chars p s = true -> all_chars p (drop_chars n s) = true.
Proof.
  revert s. induction n as [ | n IH]; intros s H; [ exact H | ].
  destruct s as [ | c s]; [ reflexivity | ].
  cbn in *. apply andb_prop in H as [Hc Hs]. now apply IH.
Qed.

Lemma all_chars_slice (p : ascii -> bool) (a b : nat) (s : string) :
  all_chars p s = true -> all_chars p (slice a b s) = true.
Proof. intros H. unfold slice. now apply all_chars_take, all_chars_drop. Qed.

(** The parts of a split hold no separator. *)
Lemma split_char_tokens (sep : ascii) (s cur part : string) :
  all_chars (fun x => negb (Ascii.eqb x sep)) cur = true ->
  In part (split_char sep cur s) ->
  all_chars (fun x => negb (Ascii.eqb x sep)) part = true.
Proof.
  revert cur. induction s as [ | c s IH]; intros cur Hcur; cbn [split_char].
  - intros [<- | []]. now rewrite all_chars_rev_string, Hcur.
  - destruct (Ascii.eqb c sep) eqn:Hc.
    + intros [<- | Hin]; [ now rewrite all_chars_rev_string, Hcur | ].
      now apply (IH EmptyString).
    + apply IH. cbn. now rewrite Hc.
Qed.

Lemma split_char_nth (sep : ascii) (s : string) (i : nat) :
  all_chars (fun x => negb (Ascii.eqb x sep)) (nth i (split_char sep EmptyString s) EmptyString)
  = true.
Proof.
  destruct (nth_in_or_default i (split_char sep EmptyString s) EmptyString) as [H | ->];
    [ | reflexivity ].
  eapply split_char_tokens; [ | exact H ]. reflexivity.
Qed.

Lemma contains_char_false (c : ascii) (s : string) :
  contains (String c EmptyString) s = false ->
  all_chars (fun x => negb (Ascii.eqb x c)) s = true.
Proof. rewrite contains_char. now destruct (all_chars _ s). Qed.

(** The date made of a text of eight characters. *)
Lemma dashed_date (p : ascii -> bool) (d : string) :
  len d = 8 -> all_chars p d = true -> p "-"%char = true ->
  let race_date := slice 0 4 d +:+ "-" +:+ slice 4 6 d +:+ "-" +:+ slice 6 8 d in
  (exists y m dd,
      race_date = y +:+ "-" +:+ m +:+ "-" +:+ dd /\ len y = 4 /\ len m = 2 /\ len dd = 2)
  /\ all_chars p race_date = true.
Proof.
  intros Hlen Hp Hdash. cbv zeta. split.
  - exists (slice 0 4 d), (slice 4 6 d), (slice 6 8 d).
    rewrite !len_slice, Hlen. repeat split.
  - rewrite !all_chars_append, !all_chars_slice by exact Hp.
    cbn [all_chars]. now rewrite Hdash.
Qed.

Lemma file_context_parts (filename : string) :
  let track_code := fst (file_context filename) in
  let race_date := snd (file_context filename) in
  len track_code <= 3
  /\ (exists y m d,
        race_date = y +:+ "-" +:+ m +:+ "-" +:+ d /\ len y = 4 /\ len m = 2 /\ len d = 2)
  /\ all_chars (fun x => negb (Ascii.eqb x "_")) track_code = true
  /\ all_chars (fun x => negb (Ascii.eqb x "_")) race_date = true.
Proof.
  cbv zeta. unfold file_context.
  set (base := if contains ":" _ then _ else _).
  assert (Hdefault :
    (exists y m d,
        "2023-01-01"%string = y +:+ "-" +:+ m +:+ "-" +:+ d
        /\ len y = 4 /\ len m = 2 /\ len d = 2)
    /\ all_chars (fun x => negb (Ascii.eqb x "_")) "2023-01-01" = true).
  { split; [ | reflexivity ]. exists "2023"%string, "01"%string, "01"%string. now repeat split. }
  destruct (contains "_" base) eqn:Hunder.
  - set (parts := split_char "_" EmptyString base).
    assert (Htrack : forall tc,
              tc = (if 1 <? length parts then slice 0 3 (nth 1 parts EmptyString) else "UNK"%string) ->
              len tc <= 3 /\ all_chars (fun x => negb (Ascii.eqb x "_")) tc = true).
    { intros tc ->. destruct (1 <? length parts); [ | split; [ cbn; lia | reflexivity ] ].
      split; [ rewrite len_slice; lia | ].
      apply all_chars_slice, split_char_nth. }
    destruct (Htrack _ eq_refl) as [Ht1 Ht2].
    destruct (12 <=? len (nth 0 parts EmptyString)) eqn:Hlen; cbn [fst snd].
    + apply Nat.leb_le in Hlen.
      assert (Hd : len (slice 4 12 (nth 0 parts EmptyString)) = 8)
        by (rewrite len_slice; lia).
      destruct (slice 4 12 (nth 0 parts EmptyString)) as [ | c d] eqn:E; [ discriminate | ].
      cbn [nonempty].
      destruct (dashed_date (fun x => negb (Ascii.eqb x "_")) (String c d) Hd) as [H1 H2].
      * rewrite <- E. apply all_chars_slice, split_char_nth.
      * reflexivity.
      * repeat split; assumption.
    + destruct Hdefault. repeat split; assumption.
  - apply contains_char_false in Hunder.
    destruct (15 <=? len base) eqn:Hlen; cbn [fst snd].
    + apply Nat.leb_le in Hlen.
      assert (Hd : len (slice 4 12 base) = 8) by (rewrite len_slice; lia).
      destruct (slice 4 12 base) as [ | c d] eqn:E; [ discriminate | ].
      cbn [nonempty].
      destruct (dashed_date (fun x => negb (Ascii.eqb x "_")) (String c d) Hd) as [H1 H2].
      * rewrite <- E. now apply all_chars_slice.
      * reflexivity.
      * split; [ rewrite len_slice; lia | ].
        split; [ exact H1 | ]. split; [ now apply all_chars_slice | exact H2 ].
    + destruct Hdefault. repeat split; try assumption. cbn. lia.
Qed.

(** X17.  What phase 2 derives from a file name, whatever the name: a track code
    of at most three characters and a date of the shape [yyyy-mm-dd] (four,
    two and two characters; 2023-01-01 when the name is too short), neither
    of which holds an underscore. *)
Theorem file_context_shape (filename : string) :
  let track_code := fst (file_context filename) in
  let race_date := snd (file_context filename) in
  len track_code <= 3
  /\ (exists y m d,
        race_date = y +:+ "-" +:+ m +:+ "-" +:+ d /\ len y = 4 /\ len m = 2 /\ len d = 2)
  /\ all_chars (fun x => negb (Ascii.eqb x "_")) track_code = true
  /\ all_chars (fun x => negb (Ascii.eqb x "_")) race_date = true.
Proof. apply file_context_parts. Qed.

End FileNames.

(** ** Phase 2: entry records *)

Section Entries.

Import PyStr PastPerformance.
Local Open Scope Z_scope.

Lemma str_of_Z_chars (z : Z) :
  all_chars (fun c => isdigit c || Ascii.eqb c "-") (str_of_Z z) = true.
Proof.
  assert (H : forall z, 0 <= z ->
            all_chars (fun c => isdigit c || Ascii.eqb c "-") (str_of_Z z) = true).
  { intros z' Hz. eapply all_chars_impl; [ | apply str_of_Z_digits, Hz ].
    intros c ->. reflexivity. }
  destruct z as [ | p | p]; [ reflexivity | apply H; lia | ].
  rewrite str_of_Z_neg. cbn [all_chars]. apply H. lia.
Qed.

(** The conversion loop reads the decimal text of an integer back as that
    integer. *)
Lemma numeric_of_str_of_Z (z : Z) : Entry.numeric_of_str (str_of_Z z) = Entry.FInt z.
Proof.
  unfold Entry.numeric_of_str. pose proof (str_of_Z_chars z) as H.
  rewrite (remove_all_absent _ "," "" _ eq_refl H).
  rewrite (remove_all_absent _ "$" "" _ eq_refl H).
  rewrite (contains_absent _ "/" "" _ eq_refl H).
  rewrite (contains_absent _ "." "" _ eq_refl H).
  now rewrite int_of_str_of_Z.
Qed.

Lemma convert_int_unchanged (v : option Z) :
  Entry.convert_int v = match v with Some z => Entry.FInt z | None => Entry.FNone end.
Proof.
  destruct v as [z | ]; [ | reflexivity ]. cbn [Entry.convert_int].
  destruct (z =? 0); [ reflexivity | apply numeric_of_str_of_Z ].
Qed.

Lemma convert_text_of_Z (z : Z) : Entry.convert_text (Some (str_of_Z z)) = Entry.FInt z.
Proof.
  unfold Entry.convert_text. cbn [truthy text_of_option].
  rewrite str_of_Z_nonempty. apply numeric_of_str_of_Z.
Qed.

Lemma extract_entry_data_some (starter_element : Xml.element) (race_id : string)
    (e : Entry.entry_data) :
  Entry.extract_entry_data starter_element race_id = Some e ->
  Entry.race_id e = race_id
  /\ Entry.entry_id e = race_id +:+ "_" +:+ Entry.registration_number e
  /\ Entry.registration_number e <> EmptyString
  /\ Entry.weight_lbs e
     = match Standardizer.parse_weight (Xml.extract_text starter_element "WeightCarried") with
       | Some w => Entry.FInt w
       | None => Entry.FNone
       end
  /\ (forall n, Xml.extract_text starter_element "PostPosition" = Some (str_of_Z n) ->
        Entry.post_position e = Entry.FInt n)
  /\ (forall n, Xml.extract_text starter_element "ClaimedPriceUSA" = Some (str_of_Z n) ->
        Entry.claim_price e = Entry.FInt n)
  /\ exists race_year, Entry.race_year_of race_id = Some race_year.
Proof.
  unfold Entry.extract_entry_data.
  destruct (Xml.find starter_element "Horse") as [horse_element | ]; [ | discriminate ].
  destruct (Xml.extract_text horse_element "RegistrationNumber") as [reg | ];
    [ | discriminate ].
  destruct reg as [ | c reg]; [ discriminate | ].
  cbn [truthy nonempty negb text_of_option].
  destruct (Entry.race_year_of race_id) as [race_year | ]; [ | discriminate ].
  intros [= <-].
  cbn [Entry.race_id Entry.entry_id Entry.registration_number Entry.weight_lbs
       Entry.post_position Entry.claim_price].
  split; [ reflexivity | ]. split; [ reflexivity | ]. split; [ discriminate | ].
  split; [ apply convert_int_unchanged | ].
  split; [ | split ].
  - intros n ->. apply convert_text_of_Z.
  - intros n ->. apply convert_text_of_Z.
  - now exists race_year.
Qed.

(** X18.  What an entry record holds: its key is the race key and the
    registration number joined by an underscore, the registration number
    is not empty, and of its numeric fields the weight is what
    [parse_weight] made of the element [WeightCarried], the conversion loop
    changing nothing, and a post position or claim price written as an
    integer is that integer.  There is a record only when the race key
    yields a year. *)
Theorem extract_entry_data_fields (starter_element : Xml.element) (race_id : string)
    (e : Entry.entry_data) :
  Entry.extract_entry_data starter_element race_id = Some e ->
  Entry.race_id e = race_id
  /\ Entry.entry_id e = race_id +:+ "_" +:+ Entry.registration_number e
  /\ Entry.registration_number e <> EmptyString
  /\ Entry.weight_lbs e
     = match Standardizer.parse_weight (Xml.extract_text starter_element "WeightCarried") with
       | Some w => Entry.FInt w
       | None => Entry.FNone
       end
  /\ (forall n, Xml.extract_text starter_element "PostPosition" = Some (str_of_Z n) ->
        Entry.post_position e = Entry.FInt n)
  /\ (forall n, Xml.extract_text starter_element "ClaimedPriceUSA" = Some (str_of_Z n) ->
        Entry.claim_price e = Entry.FInt n)
  /\ exists race_year, Entry.race_year_of race_id = Some race_year.
Proof. apply extract_entry_data_some. Qed.

(** The theorem at the starter R1 of race 3: 122 pounds, post position 4. *)
Lemma extract_entry_data_fields_witness :
  exists e,
    Entry.extract_entry_data Scenario.starter_R1 "USA_2023-01-01_3" = Some e
    /\ Entry.entry_id e = "USA_2023-01-01_3_R1"%string
    /\ Entry.weight_lbs e = Entry.FInt 122
    /\ Entry.post_position e = Entry.FInt 4.
Proof.
  destruct (Entry.extract_entry_data Scenario.starter_R1 "USA_2023-01-01_3") as [e | ] eqn:E;
    [ | vm_compute in E; discriminate ].
  destruct (extract_entry_data_fields _ _ e E) as (_ & Hid & _ & Hw & Hp & _).
  exists e. split; [ reflexivity | ].
  assert (Hreg : Entry.registration_number e = "R1"%string).
  { vm_compute in E. now injection E as <-. }
  rewrite Hreg in Hid.
  split; [ exact Hid | ]. split; [ exact Hw | ]. apply (Hp 4). reflexivity.
Defined.

End Entries.

(** ** Phase 2: the batches of a document *)

Section Documents.

Import PyStr PastPerformance.
Import Document.

(** *** The batches stay linked *)

Lemma process_starter_linked (r : race_data) (filename : string) (st : state)
    (starter_element : Xml.element) :
  In r (race_batch st) -> source_file r = filename ->
  linked st -> linked (process_starter (race_id r) filename st starter_element).
Proof.
  intros Hr Hfile (Hnodup & Hseen & Hentries & Hequipment).
  unfold process_starter.
  destruct (Entry.extract_entry_data starter_element (race_id r)) as [e | ] eqn:He;
    [ | now repeat split ].
  apply extract_entry_data_some in He as (Hid & _).
  repeat split; cbn [race_batch entry_batch equipment_batch seen_races];
    [ exact Hnodup | exact Hseen | | ].
  - intros e' Hin. apply in_app_iff in Hin as [Hin | [<- | []]]; [ now apply Hentries | ].
    exists r. cbn. now repeat split.
  - intros q Hin. apply in_app_iff in Hin as [Hin | Hin].
    + destruct (Hequipment q Hin) as (e' & He' & H). exists e'.
      split; [ apply in_app_iff; now left | exact H ].
    + exists (Entry.set_source_file filename e).
      split; [ apply in_app_iff; right; now left | ].
      unfold Equipment.extract_equipment_records in Hin.
      apply in_map_iff in Hin as (code & <- & Hcode). now repeat split.
Qed.

Lemma process_starter_race_batch (race_id filename : string) (st : state)
    (starter_element : Xml.element) :
  race_batch (process_starter race_id filename st starter_element) = race_batch st
  /\ seen_races (process_starter race_id filename st starter_element) = seen_races st
  /\ races_count (process_starter race_id filename st starter_element) = races_count st.
Proof. unfold process_starter. now destruct (Entry.extract_entry_data _ _). Qed.

Lemma process_starters_race_batch (race_id filename : string)
    (starters : list Xml.element) (st : state) :
  race_batch (fold_left (process_starter race_id filename) starters st) = race_batch st
  /\ seen_races (fold_left (process_starter race_id filename) starters st) = seen_races st
  /\ races_count (fold_left (process_starter race_id filename) starters st) = races_count st.
Proof.
  revert st. induction starters as [ | el starters IH]; intros st; [ now repeat split | ].
  cbn [fold_left]. destruct (IH (process_starter race_id filename st el)) as (-> & -> & ->).
  apply process_starter_race_batch.
Qed.

Lemma process_starters_linked (r : race_data) (filename : string)
    (starters : list Xml.element) (st : state) :
  In r (race_batch st) -> source_file r = filename ->
  linked st -> linked (fold_left (process_starter (race_id r) filename) starters st).
Proof.
  revert st. induction starters as [ | el starters IH]; intros st Hr Hfile H; [ exact H | ].
  cbn [fold_left]. apply IH.
  - now rewrite (proj1 (process_starter_race_batch _ _ _ _)).
  - exact Hfile.
  - now apply process_starter_linked.
Qed.

Lemma process_race_linked (track_code race_date filename : string) (st : state)
    (race_element : Xml.element) :
  linked st -> linked (process_race track_code race_date filename st race_element).
Proof.
  intros H. unfold process_race.
  destruct (extract_race_data race_element track_code race_date filename) as [r | ] eqn:Hr;
    [ | exact H ].
  destruct (decide (race_id r ∈ seen_races st)) as [Hin | Hnew]; [ exact H | ].
  apply extract_race_data_some in Hr as (number & _ & _ & _ & _ & _ & _ & Hfile & _).
  destruct H as (Hnodup & Hseen & Hentries & Hequipment).
  apply process_starters_linked; cbn [race_batch];
    [ apply in_app_iff; right; now left | exact Hfile | ].
  repeat split; cbn [race_batch entry_batch equipment_batch seen_races].
  - rewrite map_app. apply NoDup_app. split; [ exact Hnodup | ].
    split; [ | apply NoDup_singleton ].
    intros k Hk [<- | []]%list_elem_of_In. apply Hnew.
    apply list_elem_of_In, in_map_iff in Hk as (r' & <- & Hr'). now apply Hseen.
  - intros r' Hin. apply in_app_iff in Hin as [Hin | [<- | []]].
    + apply elem_of_union. right. now apply Hseen.
    + apply elem_of_union. left. now apply elem_of_singleton.
  - intros e Hin. destruct (Hentries e Hin) as (r' & Hr' & H). exists r'.
    split; [ apply in_app_iff; now left | exact H ].
  - exact Hequipment.
Qed.

Lemma reset_counts_linked (st : state) :
  linked st ->
  linked {| race_batch := race_batch st; entry_batch := entry_batch st;
            equipment_batch := equipment_batch st; seen_races := seen_races st;
            races_count := 0; entries_count := 0 |}.
Proof. intros H. exact H. Qed.

(** X19.  No orphans: each document leaves the batches linked.  Entries are only
    appended after their race, in the same call, with the file name of the
    race; equipment records only with their entry; and no race key comes
    twice in the batch. *)
Theorem document_keeps_batches_linked (st : state) (root : Xml.element)
    (filename : string) :
  linked st -> linked (process_xml_content st root filename).
Proof.
  intros H. unfold process_xml_content.
  destruct (file_context filename) as [track_code race_date].
  apply reset_counts_linked in H. revert H.
  generalize {| race_batch := race_batch st; entry_batch := entry_batch st;
                equipment_batch := equipment_batch st; seen_races := seen_races st;
                races_count := 0; entries_count := 0 |}.
  induction (Xml.findall_descendants root "Race") as [ | el els IH]; intros st0 H;
    [ exact H | ].
  cbn [fold_left]. apply IH. now apply process_race_linked.
Qed.

End Documents.

Section DocumentsAgain.

Import PyStr PastPerformance.
Import Document.

Lemma linked_initial : linked initial.
Proof.
  repeat split; cbn; [ constructor | intros ? [] .. ].
Qed.

Lemma document_keeps_batches_linked_witness :
  linked (process_xml_content initial Scenario.pp_document_with_starter Scenario.pp_filename).
Proof. apply document_keeps_batches_linked, linked_initial. Defined.

(** *** A document met again *)

Lemma process_race_seen (track_code race_date filename : string) (st : state)
    (race_element : Xml.element) :
  seen_races st ⊆ seen_races (process_race track_code race_date filename st race_element)
  /\ (forall r, extract_race_data race_element track_code race_date filename = Some r ->
        race_id r ∈ seen_races (process_race track_code race_date filename st race_element)).
Proof.
  unfold process_race.
  destruct (extract_race_data race_element track_code race_date filename) as [r | ];
    [ | split; [ reflexivity | discriminate ] ].
  destruct (decide (race_id r ∈ seen_races st)) as [Hin | Hnew].
  - split; [ reflexivity | now intros ? [= <-] ].
  - rewrite (proj1 (proj2 (process_starters_race_batch _ _ _ _))). cbn [seen_races].
    split; [ apply union_subseteq_r | ].
    intros ? [= <-]. apply elem_of_union. left. now apply elem_of_singleton.
Qed.

Lemma process_races_seen (track_code race_date filename : string)
    (race_elements : list Xml.element) (st : state) :
  let st' := fold_left (process_race track_code race_date filename) race_elements st in
  seen_races st ⊆ seen_races st'
  /\ (forall el r, In el race_elements ->
        extract_race_data el track_code race_date filename = Some r ->
        race_id r ∈ seen_races st').
Proof.
  cbv zeta. revert st. induction race_elements as [ | el els IH]; intros st.
  - split; [ reflexivity | intros ? ? [] ].
  - cbn [fold_left].
    destruct (IH (process_race track_code race_date filename st el)) as [Hsub Hall].
    destruct (process_race_seen track_code race_date filename st el) as [Hsub1 Hnew].
    split; [ now transitivity (seen_races (process_race track_code race_date filename st el)) | ].
    intros el' r [<- | Hin] Hr; [ apply Hsub; now apply Hnew | now apply (Hall el') ].
Qed.

(** Races whose keys the ledger holds change nothing. *)
Lemma process_races_known (track_code race_date filename : string)
    (race_elements : list Xml.element) (st : state) :
  (forall el r, In el race_elements ->
     extract_race_data el track_code race_date filename = Some r ->
     race_id r ∈ seen_races st) ->
  fold_left (process_race track_code race_date filename) race_elements st = st.
Proof.
  induction race_elements as [ | el els IH]; intros H; [ reflexivity | ].
  cbn [fold_left].
  assert (Hstep : process_race track_code race_date filename st el = st).
  { unfold process_race.
    destruct (extract_race_data el track_code race_date filename) as [r | ] eqn:Hr;
      [ | reflexivity ].
    destruct (decide (race_id r ∈ seen_races st)) as [Hin | Hnew]; [ reflexivity | ].
    contradiction Hnew. apply (H el r); [ now left | exact Hr ]. }
  rewrite Hstep. apply IH. intros el' r Hin. apply (H el' r). now right.
Qed.

(** X20.  A document met again in the same run adds nothing: every race of it is
    in the ledger, so neither a race nor an entry nor an equipment record
    is appended, and both counts are 0.  (So the entries of a race are read
    from the first document that holds the race, and from no other.) *)
Theorem document_again_adds_nothing (st : state) (root : Xml.element) (filename : string) :
  let st1 := process_xml_content st root filename in
  let st2 := process_xml_content st1 root filename in
  race_batch st2 = race_batch st1
  /\ entry_batch st2 = entry_batch st1
  /\ equipment_batch st2 = equipment_batch st1
  /\ seen_races st2 = seen_races st1
  /\ races_count st2 = 0
  /\ entries_count st2 = 0.
Proof.
  cbv zeta. unfold process_xml_content.
  destruct (file_context filename) as [track_code race_date].
  set (st0 := {| race_batch := race_batch st; entry_batch := entry_batch st;
                 equipment_batch := equipment_batch st; seen_races := seen_races st;
                 races_count := 0; entries_count := 0 |}).
  set (els := Xml.findall_descendants root "Race").
  destruct (process_races_seen track_code race_date filename els st0) as [_ Hall].
  cbv zeta in Hall.
  set (st1 := fold_left (process_race track_code race_date filename) els st0) in *.
  rewrite process_races_known; [ now repeat split | ].
  intros el r Hin Hr. cbn [seen_races]. now apply (Hall el r).
Qed.

(** *** The race batch and the ledger alone *)

(** The races and the ledger of a document are those of the loop over the
    races taken alone. *)
Lemma document_races (st : state) (root : Xml.element) (filename : string) :
  (race_batch (process_xml_content st root filename),
   seen_races (process_xml_content st root filename))
  = PastPerformance.process_xml_content (race_batch st, seen_races st) root filename.
Proof.
  unfold process_xml_content, PastPerformance.process_xml_content.
  destruct (file_context filename) as [track_code race_date].
  change (race_batch st, seen_races st)
    with (race_batch {| race_batch := race_batch st; entry_batch := entry_batch st;
                        equipment_batch := equipment_batch st;
                        seen_races := seen_races st;
                        races_count := 0; entries_count := 0 |},
          seen_races {| race_batch := race_batch st; entry_batch := entry_batch st;
                        equipment_batch := equipment_batch st;
                        seen_races := seen_races st;
                        races_count := 0; entries_count := 0 |}).
  generalize {| race_batch := race_batch st; entry_batch := entry_batch st;
                equipment_batch := equipment_batch st; seen_races := seen_races st;
                races_count := 0; entries_count := 0 |}.
  induction (Xml.findall_descendants root "Race") as [ | el els IH]; intros st0;
    [ reflexivity | ].
  cbn [fold_left]. rewrite IH. f_equal.
  unfold process_race, PastPerformance.process_race.
  destruct (extract_race_data el track_code race_date filename) as [r | ]; [ | reflexivity ].
  destruct (decide (race_id r ∈ seen_races st0)); [ reflexivity | ].
  destruct (process_starters_race_batch (race_id r) filename (Xml.findall el "Starters")
              {| race_batch := race_batch st0 ++ [r]; entry_batch := entry_batch st0;
                 equipment_batch := equipment_batch st0;
                 seen_races := {[race_id r]} ∪ seen_races st0;
                 races_count := S (races_count st0);
                 entries_count := entries_count st0 |}) as (-> & -> & _).
  reflexivity.
Qed.

End DocumentsAgain.

(** ** Phase 2: the year of a race key *)

Section RaceYear.

Import PyStr PastPerformance.
Import Document.

(** The year [extract_entry_data] reads from a race key: the integer of the
    first four characters of the date, when neither the track code nor the
    date holds an underscore. *)
Lemma race_year_of_key (track_code race_date number : string) :
  all_chars (fun x => negb (Ascii.eqb x "_")) track_code = true ->
  all_chars (fun x => negb (Ascii.eqb x "_")) race_date = true ->
  Entry.race_year_of (track_code +:+ "_" +:+ race_date +:+ "_" +:+ number)
  = PyInt.of_string (slice 0 4 race_date).
Proof.
  intros Ht Hd. unfold Entry.race_year_of.
  change ("_" +:+ race_date +:+ "_" +:+ number)
    with (String "_" (race_date +:+ String "_" number)).
  rewrite split_char_run by exact Ht. cbn [split_char]. rewrite Ascii.eqb_refl.
  rewrite split_char_run by exact Hd. cbn [split_char]. rewrite Ascii.eqb_refl.
  cbn [nth_error]. rewrite rev_string_rev. cbn [rev_string]. now rewrite append_empty_r.
Qed.

Lemma process_starters_without_year (race_id filename : string)
    (starters : list Xml.element) (st : state) :
  Entry.race_year_of race_id = None ->
  fold_left (process_starter race_id filename) starters st = st.
Proof.
  intros Hnone. induction starters as [ | el starters IH]; [ reflexivity | ].
  cbn [fold_left].
  assert (Hstep : process_starter race_id filename st el = st).
  { unfold process_starter.
    destruct (Entry.extract_entry_data el race_id) as [e | ] eqn:He; [ | reflexivity ].
    apply extract_entry_data_some in He as (_ & _ & _ & _ & _ & _ & year & Hy). congruence. }
  now rewrite Hstep.
Qed.

Lemma process_race_without_year (filename : string) (st : state)
    (race_element : Xml.element) :
  PyInt.of_string (slice 0 4 (snd (file_context filename))) = None ->
  let st' := process_race (fst (file_context filename)) (snd (file_context filename))
               filename st race_element in
  entry_batch st' = entry_batch st
  /\ equipment_batch st' = equipment_batch st
  /\ entries_count st' = entries_count st.
Proof.
  intros Hyear. cbv zeta. unfold process_race.
  destruct (extract_race_data race_element _ _ filename) as [r | ] eqn:Hr;
    [ | now repeat split ].
  destruct (decide (race_id r ∈ seen_races st)); [ now repeat split | ].
  apply extract_race_data_some in Hr as (number & _ & _ & Hid & _).
  destruct (file_context_parts filename) as (_ & _ & Ht & Hd).
  rewrite process_starters_without_year; [ now repeat split | ].
  rewrite Hid, race_year_of_key; assumption.
Qed.

(** X21.  Entries need a readable year: when the first four characters of the
    date taken from the file name are not an integer, a document yields its
    races but none of their entries and equipment records
    ([extract_entry_data] fails on the year of every race key and returns
    [None]). *)
Theorem entries_need_a_readable_year (st : state) (root : Xml.element) (filename : string) :
  PyInt.of_string (slice 0 4 (snd (file_context filename))) = None ->
  let st' := process_xml_content st root filename in
  entry_batch st' = entry_batch st
  /\ equipment_batch st' = equipment_batch st
  /\ entries_count st' = 0.
Proof.
  intros Hyear. cbv zeta. unfold process_xml_content.
  pose proof (fun st el => process_race_without_year filename st el Hyear) as Hstep.
  cbv zeta in Hstep.
  destruct (file_context filename) as [track_code race_date]. cbn [fst snd] in Hstep.
  assert (Hfold : forall els st0,
            entry_batch (fold_left (process_race track_code race_date filename) els st0)
            = entry_batch st0
            /\ equipment_batch (fold_left (process_race track_code race_date filename) els st0)
               = equipment_batch st0
            /\ entries_count (fold_left (process_race track_code race_date filename) els st0)
               = entries_count st0).
  { induction els as [ | el els IH]; intros st0; [ now repeat split | ].
    cbn [fold_left].
    destruct (IH (process_race track_code race_date filename st0 el)) as (-> & -> & ->).
    apply Hstep. }
  exact (Hfold _ {| race_batch := race_batch st; entry_batch := entry_batch st;
                    equipment_batch := equipment_batch st; seen_races := seen_races st;
                    races_count := 0; entries_count := 0 |}).
Qed.

(** The theorem at a file name whose characters 4 to 7 are letters: the
    document of race 3 with its starter yields the race and no entry. *)
Lemma entries_need_a_readable_year_witness :
  let st' := process_xml_content initial Scenario.pp_document_with_starter
               "PastPerformance_AQU.xml" in
  entry_batch st' = entry_batch initial
  /\ equipment_batch st' = equipment_batch initial
  /\ entries_count st' = 0.
Proof.
  apply (entries_need_a_readable_year initial Scenario.pp_document_with_starter
           "PastPerformance_AQU.xml").
  vm_compute. reflexivity.
Defined.

End RaceYear.

(** ** Numbers with commas and dollar signs *)

Section Numbers.

Import PyStr ResultCharts.

Lemma remove_char_cons (c b : ascii) (s : string) :
  remove_all (String c EmptyString) (String b s)
  = if Ascii.eqb c b then remove_all (String c EmptyString) s
    else String b (remove_all (String c EmptyString) s).
Proof.
  unfold remove_all. cbn [remove_all_from startswith len Nat.sub].
  now rewrite andb_true_r.
Qed.

Lemma remove_char_append (c : ascii) (a b : string) :
  remove_all (String c EmptyString) (a +:+ b)
  = remove_all (String c EmptyString) a +:+ remove_all (String c EmptyString) b.
Proof.
  induction a as [ | x a IH]; [ reflexivity | ].
  rewrite append_cons, !remove_char_cons, IH. now destruct (Ascii.eqb c x).
Qed.

Lemma remove_char_gone (c : ascii) (s : string) :
  all_chars (fun x => negb (Ascii.eqb x c)) (remove_all (String c EmptyString) s) = true.
Proof.
  induction s as [ | b s IH]; [ reflexivity | ].
  rewrite remove_char_cons. destruct (Ascii.eqb c b) eqn:E; [ exact IH | ].
  cbn [all_chars]. now rewrite Ascii.eqb_sym, E, IH.
Qed.

Lemma remove_char_keeps (p : ascii -> bool) (c : ascii) (s : string) :
  all_chars p s = true -> all_chars p (remove_all (String c EmptyString) s) = true.
Proof.
  induction s as [ | b s IH]; [ reflexivity | ].
  cbn [all_chars]. intros H. apply andb_prop in H as [Hb Hs].
  rewrite remove_char_cons. destruct (Ascii.eqb c b); [ now apply IH | ].
  cbn [all_chars]. now rewrite Hb, IH.
Qed.

Lemma remove_char_idempotent (c d : ascii) (s : string) :
  let t := remove_all (String d EmptyString) (remove_all (String c EmptyString) s) in
  remove_all (String d EmptyString) (remove_all (String c EmptyString) t) = t.
Proof.
  cbv zeta.
  rewrite (remove_all_absent (fun x => negb (Ascii.eqb x c)) c EmptyString).
  - apply (remove_all_absent (fun x => negb (Ascii.eqb x d)) d EmptyString).
    + now rewrite Ascii.eqb_refl.
    + apply remove_char_gone.
  - now rewrite Ascii.eqb_refl.
  - apply remove_char_keeps, remove_char_gone.
Qed.

(** The value of a text is the value of the text without its commas and
    dollar signs. *)
Lemma parse_numeric_cleaned (s : string) :
  parse_numeric (Some s) = parse_numeric (Some (remove_all "$" (remove_all "," s))).
Proof.
  unfold parse_numeric. cbn [truthy text_of_option].
  rewrite (remove_char_idempotent "," "$" s).
  destruct (remove_all "$" (remove_all "," s)) as [ | c t] eqn:E.
  - cbn. now destruct s.
  - destruct s as [ | b s]; [ discriminate | ]. reflexivity.
Qed.

(** X22.  Commas and dollar signs are ignored wherever they stand in the text, by
    [parse_numeric] and by the purse of a race alike; and an absent value is
    [None] (for the purse, because the text [None] that [str] makes of it
    is not a number). *)
Theorem separators_are_ignored (a b : string) :
  parse_numeric (Some (a +:+ "," +:+ b)) = parse_numeric (Some (a +:+ b))
  /\ parse_numeric (Some (a +:+ "$" +:+ b)) = parse_numeric (Some (a +:+ b))
  /\ Standardizer.standardize_purse (Some (a +:+ "," +:+ b))
     = Standardizer.standardize_purse (Some (a +:+ b))
  /\ Standardizer.standardize_purse (Some (a +:+ "$" +:+ b))
     = Standardizer.standardize_purse (Some (a +:+ b))
  /\ parse_numeric None = None
  /\ Standardizer.standardize_purse None = None.
Proof.
  split; [ | split; [ | split; [ | split; [ | split; reflexivity ] ] ] ].
  - rewrite (parse_numeric_cleaned (a +:+ "," +:+ b)), (parse_numeric_cleaned (a +:+ b)).
    now rewrite !(remove_char_append ",").
  - rewrite (parse_numeric_cleaned (a +:+ "$" +:+ b)), (parse_numeric_cleaned (a +:+ b)).
    now rewrite !(remove_char_append ","), !(remove_char_append "$").
  - unfold Standardizer.standardize_purse. cbn [default from_option id].
    now rewrite !(remove_char_append ",").
  - unfold Standardizer.standardize_purse. cbn [default from_option id].
    now rewrite !(remove_char_append ","), !(remove_char_append "$").
Qed.

End Numbers.

(** ** Phase 3: position calls *)

Section Calls.

Import PyStr ResultCharts.
Local Open Scope Z_scope.




End Calls.

(** ** Phase 3: entry updates *)

Section EntryUpdates.

Import PyStr Horses ResultCharts.

Lemma lookup_some (db : option database) (name reg : string) :
  lookup_registration_number db name = Some reg ->
  exists db0 k row,
    db = Some db0 /\ horses_master db0 !! k = Some row
    /\ horse_name row = Some name /\ registration_number row = reg.
Proof.
  unfold lookup_registration_number, select_by_name.
  destruct db as [db0 | ]; [ | discriminate ].
  destruct (fold_left better _ None) as [r | ] eqn:E; [ | discriminate ].
  intros [= <-]. apply best_row_spec in E as [[E | Hin] _]; [ discriminate | ].
  apply named_rows in Hin as [[k Hk] Hname]. now exists db0, k, r.
Qed.

Lemma entry_update_of_some (db : option database) (race_id : string)
    (entry_element : Xml.element) (u : EntryUpdate.entry_update)
    (calls : list PositionCall.call_record) :
  EntryUpdate.entry_update_of db race_id entry_element = Some (u, calls) ->
  exists name,
    Xml.extract_text entry_element "NAME" = Some name
    /\ lookup_registration_number db name = Some (EntryUpdate.registration_number u)
    /\ EntryUpdate.registration_number u <> EmptyString
    /\ EntryUpdate.race_id u = race_id
    /\ EntryUpdate.entry_id u = race_id +:+ "_" +:+ EntryUpdate.registration_number u
    /\ calls = PositionCall.extract_position_calls entry_element race_id
                 (EntryUpdate.registration_number u).
Proof.
  unfold EntryUpdate.entry_update_of.
  destruct (Xml.extract_text entry_element "NAME") as [name | ]; [ | discriminate ].
  destruct (negb (truthy (Some name))); [ discriminate | ].
  cbn [text_of_option].
  destruct (lookup_registration_number db name) as [reg | ] eqn:Hlookup; [ | discriminate ].
  destruct reg as [ | c reg]; [ discriminate | ].
  cbn [truthy nonempty negb text_of_option]. intros H.
  injection H as Hu Hc. subst u calls.
  exists name. cbn. repeat split; [ exact Hlookup | discriminate ].
Qed.

Lemma calls_loop_records (race_id registration_number : string)
    (call_elements : list Xml.element) (acc : list PositionCall.call_record)
    (c : PositionCall.call_record) :
  In c (PositionCall.calls_loop race_id registration_number call_elements acc) ->
  In c acc
  \/ (PositionCall.race_id c = race_id
      /\ PositionCall.registration_number c = registration_number).
Proof.
  revert acc. induction call_elements as [ | el els IH]; intros acc; [ now left | ].
  cbn [PositionCall.calls_loop].
  destruct (PositionCall.call_of race_id registration_number el) as [[r | ] | e] eqn:E;
    [ | apply IH | now left ].
  intros H. apply IH in H as [H | H]; [ | now right ].
  apply in_app_iff in H as [H | [<- | []]]; [ now left | right ].
  unfold PositionCall.call_of in E.
  destruct (parse_numeric (Xml.extract_text el "POSITION")); [ | discriminate ].
  destruct (truthy (Xml.get el "WHICH")); [ | discriminate ].
  destruct (PositionCall.map_call_position _); [ | discriminate ].
  cbn in E. injection E as <-. now split.
Qed.

Lemma in_extract_entry_updates (db : option database) (chart_element : Xml.element)
    (filename : string) (u : EntryUpdate.entry_update) :
  In u (fst (EntryUpdate.extract_entry_updates db chart_element filename)) ->
  exists race_element entry_element calls,
    In race_element (Xml.findall chart_element "RACE")
    /\ In entry_element (Xml.findall race_element "ENTRY")
    /\ EntryUpdate.entry_update_of db (EntryUpdate.entry_race_id chart_element race_element) entry_element
       = Some (u, calls).
Proof.
  unfold EntryUpdate.extract_entry_updates. cbn [fst]. intros H.
  apply in_map_iff in H as ([u' calls] & Hu & H). cbn in Hu. subst u'.
  apply in_flat_map in H as (race_element & Hrace & H).
  unfold EntryUpdate.race_entry_updates in H.
  apply list_elem_of_In, list_elem_of_omap in H as (entry_element & Hentry & H).
  apply list_elem_of_In in Hentry. now exists race_element, entry_element, calls.
Qed.

(** X24.  Entry updates refer to stored horses: every update carries the
    registration number of a row of [horses_master] whose name is the text
    of the [NAME] of an entry of the chart, that number is not empty, and
    the key of the update is its race key and that number joined by an
    underscore; every position call belongs to one of the updates; and
    without the store there is no update at all. *)
Theorem entry_updates_refer_to_stored_horses (db : option database)
    (chart_element : Xml.element) (filename : string) :
  let updates := fst (EntryUpdate.extract_entry_updates db chart_element filename) in
  let calls := snd (EntryUpdate.extract_entry_updates db chart_element filename) in
  (forall u, In u updates ->
     exists db0 k row,
       db = Some db0
       /\ horses_master db0 !! k = Some row
       /\ Horses.registration_number row = EntryUpdate.registration_number u
       /\ (exists race_element entry_element,
             In race_element (Xml.findall chart_element "RACE")
             /\ In entry_element (Xml.findall race_element "ENTRY")
             /\ horse_name row = Xml.extract_text entry_element "NAME"
             /\ EntryUpdate.race_id u = EntryUpdate.entry_race_id chart_element race_element)
       /\ EntryUpdate.registration_number u <> EmptyString
       /\ EntryUpdate.entry_id u
          = EntryUpdate.race_id u +:+ "_" +:+ EntryUpdate.registration_number u)
  /\ (forall c, In c calls ->
        exists u, In u updates
          /\ PositionCall.race_id c = EntryUpdate.race_id u
          /\ PositionCall.registration_number c = EntryUpdate.registration_number u)
  /\ (db = None -> updates = [] /\ calls = []).
Proof.
  cbv zeta. split; [ | split ].
  - intros u Hu.
    apply in_extract_entry_updates in Hu as (race_element & entry_element & calls & Hr & He & H).
    apply entry_update_of_some in H as (name & Hname & Hlookup & Hne & Hid & Hkey & _).
    apply lookup_some in Hlookup as (db0 & k & row & -> & Hk & Hrow & Hreg).
    exists db0, k, row. split; [ reflexivity | ]. split; [ exact Hk | ].
    split; [ exact Hreg | ]. split; [ | split; [ exact Hne | now rewrite Hid ] ].
    exists race_element, entry_element. rewrite Hname. now repeat split.
  - intros c Hc. unfold EntryUpdate.extract_entry_updates in *. cbn [fst snd] in *.
    apply in_flat_map in Hc as ([u calls] & Hin & Hc). cbn [snd] in Hc.
    exists u. split; [ apply in_map_iff; now exists (u, calls) | ].
    apply in_flat_map in Hin as (race_element & Hrace & Hin).
    unfold EntryUpdate.race_entry_updates in Hin.
    apply list_elem_of_In, list_elem_of_omap in Hin as (entry_element & Hentry & H).
    apply entry_update_of_some in H as (name & _ & _ & _ & Hid & _ & ->).
    unfold PositionCall.extract_position_calls in Hc.
    apply calls_loop_records in Hc as [[] | [H1 H2]]. now rewrite Hid.
  - intros ->. unfold EntryUpdate.extract_entry_updates.
    assert (H : flat_map (EntryUpdate.race_entry_updates None chart_element)
                  (Xml.findall chart_element "RACE") = []).
    { induction (Xml.findall chart_element "RACE") as [ | el els IH]; [ reflexivity | ].
      cbn [flat_map]. rewrite IH, app_nil_r. unfold EntryUpdate.race_entry_updates.
      induction (Xml.findall el "ENTRY") as [ | en ens IHe]; [ reflexivity | ].
      cbn [omap list_omap]. rewrite IHe. unfold EntryUpdate.entry_update_of.
      now destruct (negb (truthy (Xml.extract_text en "NAME"))). }
    now rewrite H.
Qed.

(** The theorem without a store: no update and no position call. *)
Lemma entry_updates_refer_to_stored_horses_witness :
  fst (EntryUpdate.extract_entry_updates None Scenario.rc_document_with_entry
         Scenario.rc_filename) = []
  /\ snd (EntryUpdate.extract_entry_updates None Scenario.rc_document_with_entry
            Scenario.rc_filename) = [].
Proof.
  apply (proj2 (proj2 (entry_updates_refer_to_stored_horses None
                         Scenario.rc_document_with_entry Scenario.rc_filename))).
  reflexivity.
Defined.

End EntryUpdates.

(** ** Phase 3: the keys of a chart *)

Section ChartKeys.

Import PyStr Horses ResultCharts.

Lemma entry_update_race_id (db : option database) (chart_element : Xml.element)
    (filename : string) (u : EntryUpdate.entry_update) :
  In u (fst (EntryUpdate.extract_entry_updates db chart_element filename)) ->
  exists race_element,
    In race_element (Xml.findall chart_element "RACE")
    /\ EntryUpdate.race_id u = EntryUpdate.entry_race_id chart_element race_element.
Proof.
  intros Hu.
  apply in_extract_entry_updates in Hu as (race_element & entry_element & calls & Hr & _ & H).
  apply entry_update_of_some in H as (_ & _ & _ & _ & Hid & _).
  now exists race_element.
Qed.

(** X25.  On a chart that [extract_race_updates] accepts, the entry updates of a
    race with a number carry the key of the update of that race; the entry
    updates of a [RACE] without a number, for which there is no race
    update, carry a key that ends with the text [None] or with nothing. *)
Theorem entry_update_keys_match_race_updates (db : option database)
    (chart_element : Xml.element) (filename : string)
    (race_updates : list race_update) (u : EntryUpdate.entry_update) :
  extract_race_updates chart_element filename = Some race_updates ->
  In u (fst (EntryUpdate.extract_entry_updates db chart_element filename)) ->
  In (EntryUpdate.race_id u) (map race_id race_updates)
  \/ exists race_element,
       In race_element (Xml.findall chart_element "RACE")
       /\ truthy (Xml.get race_element "NUMBER") = false
       /\ EntryUpdate.race_id u = EntryUpdate.entry_race_id chart_element race_element.
Proof.
  intros Hraces Hu.
  apply entry_update_race_id in Hu as (race_element & Hin & Hid).
  destruct (truthy (Xml.get race_element "NUMBER")) eqn:Hnumber;
    [ left | right; now exists race_element ].
  unfold extract_race_updates in Hraces.
  unfold EntryUpdate.entry_race_id in Hid.
  destruct (Xml.get chart_element "RACE_DATE") as [race_date | ]; [ | discriminate ].
  destruct (negb (truthy (Some race_date))); [ discriminate | ].
  destruct (Xml.find chart_element "TRACK") as [track_element | ]; [ | discriminate ].
  destruct (Xml.extract_text track_element "CODE") as [track_code | ]; [ | discriminate ].
  destruct (negb (truthy (Some track_code))); [ discriminate | ].
  injection Hraces as <-. cbn [text_of_option str_of_option] in *.
  destruct (Xml.get race_element "NUMBER") as [number | ] eqn:En; [ | discriminate ].
  apply in_map_iff.
  exists {| race_id := track_code +:+ "_" +:+ race_date +:+ "_" +:+ number;
            winning_time := parse_time (Xml.extract_text race_element "WIN_TIME");
            final_fraction_time := parse_time (Xml.extract_text race_element "FRACTION_5");
            track_condition :=
              Standardizer.standardize_track_condition
                (Xml.extract_text race_element "TRK_COND");
            weather := Xml.extract_text race_element "WEATHER";
            wind_speed := parse_numeric (Xml.extract_text race_element "WIND_SPEED");
            wind_direction := Xml.extract_text race_element "WIND_DIRECTION" |}.
  split; [ now rewrite Hid | ].
  apply list_elem_of_In, list_elem_of_omap. exists race_element.
  split; [ now apply list_elem_of_In | ].
  unfold race_update_of. rewrite En, Hnumber. reflexivity.
Qed.

(** X26.  A chart without a date: [extract_race_updates] returns [None], but
    [extract_entry_updates], which does not test the date, still makes an
    update for every entry whose horse it finds, under a race key with the
    text [None] where the date belongs. *)
Theorem entry_updates_without_chart_date (db : option database)
    (chart_element : Xml.element) (filename : string) :
  Xml.get chart_element "RACE_DATE" = None ->
  extract_race_updates chart_element filename = None
  /\ forall u, In u (fst (EntryUpdate.extract_entry_updates db chart_element filename)) ->
       exists track_code race_number,
         EntryUpdate.race_id u = track_code +:+ "_None_" +:+ race_number.
Proof.
  intros Hdate. split.
  - unfold extract_race_updates. now rewrite Hdate.
  - intros u Hu. apply entry_update_race_id in Hu as (race_element & _ & ->).
    unfold EntryUpdate.entry_race_id. rewrite Hdate.
    eexists _, _. cbn [str_of_option]. reflexivity.
Qed.

(** The two theorems on the chart of race 3 with the entry of Zenyatta,
    the horse R3 of the store: with its date the chart gives the entry the
    key of the race update, and without it a key with the text [None]. *)
Lemma entry_update_keys_match_race_updates_witness :
  exists u race_updates,
    In u (fst (EntryUpdate.extract_entry_updates (Some Scenario.two_namesakes)
                 Scenario.rc_document_with_entry Scenario.rc_filename))
    /\ EntryUpdate.entry_id u = "AQU_2023-01-01_3_R3"%string
    /\ extract_race_updates Scenario.rc_document_with_entry Scenario.rc_filename
       = Some race_updates
    /\ (In (EntryUpdate.race_id u) (map race_id race_updates)
        \/ exists race_element,
             In race_element (Xml.findall Scenario.rc_document_with_entry "RACE")
             /\ truthy (Xml.get race_element "NUMBER") = false
             /\ EntryUpdate.race_id u
                = EntryUpdate.entry_race_id Scenario.rc_document_with_entry race_element).
Proof.
  destruct (fst (EntryUpdate.extract_entry_updates (Some Scenario.two_namesakes)
                   Scenario.rc_document_with_entry Scenario.rc_filename))
    as [ | u rest] eqn:Eu; [ vm_compute in Eu; discriminate | ].
  destruct (extract_race_updates Scenario.rc_document_with_entry Scenario.rc_filename)
    as [race_updates | ] eqn:Er; [ | vm_compute in Er; discriminate ].
  exists u, race_updates.
  split; [ now left | ].
  split; [ vm_compute in Eu; now injection Eu as <- _ | ].
  split; [ reflexivity | ].
  apply (entry_update_keys_match_race_updates (Some Scenario.two_namesakes)
           Scenario.rc_document_with_entry Scenario.rc_filename race_updates u Er).
  rewrite Eu. now left.
Defined.

Lemma entry_updates_without_chart_date_witness :
  extract_race_updates Scenario.rc_document_without_date Scenario.rc_filename = None
  /\ forall u,
       In u (fst (EntryUpdate.extract_entry_updates (Some Scenario.two_namesakes)
                    Scenario.rc_document_without_date Scenario.rc_filename)) ->
       exists track_code race_number,
         EntryUpdate.race_id u = (track_code +:+ "_None_" +:+ race_number)%string.
Proof.
  apply (entry_updates_without_chart_date (Some Scenario.two_namesakes)
           Scenario.rc_document_without_date Scenario.rc_filename).
  reflexivity.
Defined.

End ChartKeys.

(** ** Phase 3: fractional times *)

Section Fractions.

Import PyStr ResultCharts.
Local Open Scope Z_scope.

Lemma fraction_of_some (race_element : Xml.element) (race_id : string) (i : Z)
    (f : Fraction.fraction_record) :
  Fraction.fraction_of race_element race_id i = Some f ->
  Fraction.race_id f = race_id
  /\ Fraction.call_position f = i
  /\ Fraction.distance_yards f = Fraction.get_fraction_distance i
  /\ parse_time (Xml.extract_text race_element ("FRACTION_" +:+ str_of_Z i))
     = Some (Fraction.fraction_time f)
  /\ PyFloat.nonzero (Fraction.fraction_time f) = true.
Proof.
  unfold Fraction.fraction_of.
  destruct (parse_time _) as [t | ]; [ | discriminate ].
  destruct (PyFloat.nonzero t) eqn:E; [ | discriminate ].
  intros [= <-]. now repeat split.
Qed.

Lemma fraction_calls_sublist (race_element : Xml.element) (race_id : string)
    (calls : list Z) :
  sublist (map Fraction.call_position
             (omap (Fraction.fraction_of race_element race_id) calls)) calls.
Proof.
  induction calls as [ | i calls IH]; [ constructor | ].
  cbn [omap list_omap].
  destruct (Fraction.fraction_of race_element race_id i) as [f | ] eqn:E.
  - apply fraction_of_some in E as (_ & <- & _). cbn [map]. now constructor.
  - now constructor.
Qed.

(** X27.  The fraction records of a race: at most one for each of the calls 1 to
    5, in that order; each holds the time of the element of its call, which
    is not zero (a time of 0 makes no record), and the distance 440 yards
    times the number of the call. *)
Theorem race_fractions_shape (race_element : Xml.element) (race_id : string) :
  let fractions := Fraction.extract_race_fractions race_element race_id in
  sublist (map Fraction.call_position fractions) [1; 2; 3; 4; 5]
  /\ forall f, In f fractions ->
       Fraction.race_id f = race_id
       /\ 1 <= Fraction.call_position f <= 5
       /\ Fraction.distance_yards f = Some (440 * Fraction.call_position f)
       /\ parse_time (Xml.extract_text race_element
                        ("FRACTION_" +:+ str_of_Z (Fraction.call_position f)))
          = Some (Fraction.fraction_time f)
       /\ PyFloat.nonzero (Fraction.fraction_time f) = true.
Proof.
  cbv zeta. split; [ apply fraction_calls_sublist | ].
  intros f Hf. unfold Fraction.extract_race_fractions in Hf.
  apply list_elem_of_In, list_elem_of_omap in Hf as (i & Hi & Hf).
  apply fraction_of_some in Hf as (Hid & Hcall & Hdist & Htime & Hnz).
  rewrite Hcall, Hid, Hdist. split; [ reflexivity | ].
  apply list_elem_of_In in Hi. cbn [In] in Hi.
  repeat (destruct Hi as [<- | Hi]; [ repeat split; (lia || assumption) | ]).
  destruct Hi.
Qed.

End Fractions.

(** ** Phase 3: the batch writer *)

Section BatchUpdate.

Import ResultCharts.

(** X28.  A flush of the phase-3 writer is one transaction: when one of its
    updates or inserts raises, or the commit does, the database after the
    flush is the database before it, updates of races and entries
    included; otherwise it is the state all the writes have produced. *)
Theorem batch_update_is_atomic (database : Type)
    (execute : statement -> database -> database * option exn)
    (commit_raises : database -> bool)
    (race_updates : list race_update)
    (entry_updates : list EntryUpdate.entry_update)
    (wagering_batch : list Wagering.wagering_record)
    (fraction_batch : list Fraction.fraction_record)
    (position_calls_batch : list PositionCall.call_record)
    (db : database) :
  let writes :=
    map UpdateRace race_updates
    ++ map UpdateEntry entry_updates
    ++ map InsertWagering wagering_batch
    ++ map InsertFraction fraction_batch
    ++ map InsertPositionCall position_calls_batch in
  let after := Sqlite.run_all execute writes (Sqlite.connect db) in
  (snd after <> None \/ commit_raises (Sqlite.pending (fst after)) = true ->
   batch_update_data execute commit_raises race_updates entry_updates wagering_batch
     fraction_batch position_calls_batch db = db)
  /\ (snd after = None -> commit_raises (Sqlite.pending (fst after)) = false ->
      batch_update_data execute commit_raises race_updates entry_updates wagering_batch
        fraction_batch position_calls_batch db
      = Sqlite.pending (fst after)).
Proof. apply flush_atomic. Qed.

(** The theorem on the updates of the chart of race 3 and a store on which
    every write raises. *)
Lemma batch_update_is_atomic_witness :
  batch_update_data Scenario.execute_failing (fun _ => false)
    (default [] (extract_race_updates Scenario.rc_document_with_entry Scenario.rc_filename))
    (fst (EntryUpdate.extract_entry_updates (Some Scenario.two_namesakes)
            Scenario.rc_document_with_entry Scenario.rc_filename))
    [] []
    (snd (EntryUpdate.extract_entry_updates (Some Scenario.two_namesakes)
            Scenario.rc_document_with_entry Scenario.rc_filename))
    0
  = 0.
Proof.
  apply (proj1 (batch_update_is_atomic nat Scenario.execute_failing (fun _ => false)
                  _ _ [] [] _ 0)).
  left. vm_compute. discriminate.
Defined.

End BatchUpdate.
